(** * Simple-Segmentation-Toolkit: annotation tool and mask conversion

    A shallow embedding of the three programs of the toolkit:
    - [mask_generator_json_to_mask.py]  (module [MaskGenerator]),
    - [json_generator_mask_to_json.py]  (module [JsonGenerator]),
    - [labeling_app.py]                 (module [LabelingApp]).

    Python floats are modelled by exact rationals ([Q]); where a comparison
    of floats decides what the program does (the size tests of the release
    handler), the rounding of the float operations is a parameter, and
    [Py.binary64] is the rounding of the interpreter.  Python integers are
    [Z].  Dictionaries looked up by key are [gmap]s, the per-session
    annotation dictionary (iterated in insertion order) is an association
    list. *)

From Stdlib Require Import ZArith QArith Qround Qabs Lqa Lia Ascii String.
From stdpp Require Import base option list gmap strings.

Local Open Scope Z_scope.

(** ** Python numeric built-ins *)

Module Py.

(** [round(x)]: nearest integer, ties to the even neighbour. *)
Definition round (q : Q) : Z :=
  let f := Qfloor q in
  match Qcompare (q - inject_Z f) (1 # 2) with
  | Lt => f
  | Gt => f + 1
  | Eq => if Z.even f then f else f + 1
  end.

(** [int(x)]: truncation towards zero. *)
Definition int (q : Q) : Z := Z.quot (Qnum q) (Zpos (Qden q)).

(** [max(a, b)] returns [b] only when [b > a]; [min(a, b)] returns [b]
    only when [b < a]. *)
Definition max (a b : Q) : Q := if Qlt_le_dec a b then b else a.
Definition min (a b : Q) : Q := if Qlt_le_dec b a then b else a.

Definition abs (q : Q) : Q := if Qlt_le_dec q 0 then (- q)%Q else q.

(** The float nearest to an exact value: binary64, that is 53 significant
    bits, ties to the even neighbour.  [pow2 e] is 2 to the power [e].  The
    exponent range is not modelled (no overflow, no subnormal numbers). *)
Definition pow2 (e : Z) : Q :=
  if 0 <=? e then inject_Z (2 ^ e) else (1 # Z.to_pos (2 ^ (- e)))%Q.

Definition binary64 (q : Q) : Q :=
  if Qeq_bool q 0%Q then 0%Q
  else
    let magnitude := Z.log2 (Z.abs (Qnum q)) - Z.log2 (Zpos (Qden q)) in
    let magnitude :=
      if Qle_bool (pow2 magnitude) (Qabs q) then magnitude else magnitude - 1 in
    let exponent := magnitude - 52 in
    (inject_Z (round (q * pow2 (- exponent))%Q) * pow2 exponent)%Q.

End Py.

(** ** Shared data model *)

(** An entry of [coordinates_original]: a bare number (rectangles and lines
    are stored as four of them) or an [[x, y]] pair (freehand strokes). *)
Inductive coord : Type :=
| Scalar (q : Q)
| Point (x y : Q).

(** A single-channel 8-bit raster, [mask[y][x]], as its list of rows. *)
Abbreviation mask := (list (list Z)).

Definition np_zeros (height width : Z) : mask :=
  replicate (Z.to_nat height) (replicate (Z.to_nat width) 0).

Definition pixel (m : mask) (x y : Z) : option Z :=
  if (0 <=? x) && (0 <=? y)
  then m !! Z.to_nat y ≫= fun row => row !! Z.to_nat x
  else None.

Definition shape (m : mask) : Z * Z :=
  (Z.of_nat (length m), Z.of_nat (length (default [] (head m)))).

(** OpenCV stores a colour scalar into an 8-bit channel with saturation. *)
Definition saturate_u8 (c : Z) : Z := Z.max 0 (Z.min 255 c).

(** [cv2.rectangle(mask, pt1, pt2, color, thickness=cv2.FILLED)]: every
    pixel of the image lying between the two corners, both corners
    included, takes the colour; the part outside the image is clipped.
    A corner is passed to the library as a pair of C [int]s: a Python
    integer that does not fit one makes the call raise, and nothing is
    drawn ([None]).  The colour reaches the 8-bit channel through a
    conversion to a C [int] and a saturation; [saturate_u8] is that
    conversion for a colour within the range of a C [int], and the
    statements below on the values painted take the class id in that
    range. *)
Definition in_box (pt1 pt2 : Z * Z) (x y : Z) : bool :=
  (Z.min pt1.1 pt2.1 <=? x) && (x <=? Z.max pt1.1 pt2.1) &&
  (Z.min pt1.2 pt2.2 <=? y) && (y <=? Z.max pt1.2 pt2.2).

Definition fill_box (m : mask) (pt1 pt2 : Z * Z) (color : Z) : mask :=
  imap (fun i row =>
    imap (fun j v =>
      if in_box pt1 pt2 (Z.of_nat j) (Z.of_nat i) then saturate_u8 color else v)
      row) m.

Definition fits_c_int (v : Z) : bool :=
  (-2147483648 <=? v) && (v <=? 2147483647).

Definition cv2_rectangle (m : mask) (pt1 pt2 : Z * Z) (color : Z) : option mask :=
  if fits_c_int pt1.1 && fits_c_int pt1.2 && fits_c_int pt2.1 && fits_c_int pt2.2
  then Some (fill_box m pt1 pt2 color)
  else None.

(** ** mask_generator_json_to_mask.py *)

Module MaskGenerator.

Definition CLASS_MAPPING : gmap string Z :=
  list_to_map
    [("background"%string, 0); ("lines"%string, 1); ("object"%string, 2);
     ("person"%string, 3); ("vehicle"%string, 4); ("animal"%string, 5);
     ("marker"%string, 6); ("path"%string, 7)].

Definition DEFAULT_LINE_THICKNESS : Z := 5.

(** One element of ["annotations"] as loaded from the JSON file; a field is
    [None] when [ann.get(...)] finds no such key. *)
Record annotation : Type := {
  label : option string;
  type : option string;
  coordinates_original : option (list coord)
}.

(** The loaded content of one JSON file. *)
Record annotation_data : Type := {
  annotations : option (list annotation);
  original_size : option (list Z)
}.

(** What looking for the original image under [image_dir] finds. *)
Inductive image_file : Type :=
| NoImageDir
| ImageNotFound
| ImageUnreadable
| ImageRead (width height : Z).

Inductive log_msg : Type :=
| InfoSizeFromFile (width height : Z)
| ErrorImageUnreadable
| ErrorImageNotFound
| ErrorNoImageDir
| ErrorInvalidSize
| InfoNoAnnotations
| WarnIncomplete (ann_idx : nat)
| WarnLabelNotInMapping (label : string)
| WarnRectangleCoords (ann_idx : nat)
| WarnLineCoords (ann_idx : nat)
| WarnFreehandPoints (ann_idx : nat)
| WarnUnknownType (ann_type : string)
| ErrorDrawing (ann_idx : nat) (ann_type : string).

(** Truthiness of a string fetched with [.get]: present and non-empty. *)
Definition truthy (s : option string) : option string :=
  match s with
  | Some EmptyString => None
  | other => other
  end.

(** [x1, y1, x2, y2 = map(int, map(round, coords))]: fails (TypeError)
    when an entry is not a number. *)
Definition rounded_scalars (coords : list coord) : option (list Z) :=
  mapM (fun c => match c with Scalar q => Some (Py.round q) | Point _ _ => None end)
       coords.

Section create_mask.

(** The stroking primitives of OpenCV are kept abstract.  [None] stands for
    a raised exception.  [cv2_polylines] includes the conversion of the
    coordinate list to a rounded [int32] array. *)
Variable cv2_line : mask -> Z * Z -> Z * Z -> Z -> Z -> option mask.
Variable cv2_polylines : mask -> list coord -> Z -> Z -> option mask.

(** The [try] block of the loop body, for a known label and class id. *)
Definition draw_shape (line_thickness : Z) (m : mask) (ann_idx : nat)
    (ann_type : string) (coords_original : list coord) (class_id : Z)
  : mask * list log_msg :=
  if String.eqb ann_type "rectangle" then
    if (length coords_original =? 4)%nat then
      match rounded_scalars coords_original with
      | Some [x1; y1; x2; y2] =>
          let pt1 := (Z.min x1 x2, Z.min y1 y2) in
          let pt2 := (Z.max x1 x2, Z.max y1 y2) in
          match cv2_rectangle m pt1 pt2 class_id with
          | Some m' => (m', [])
          | None => (m, [ErrorDrawing ann_idx ann_type])
          end
      | _ => (m, [ErrorDrawing ann_idx ann_type])
      end
    else (m, [WarnRectangleCoords ann_idx])
  else if String.eqb ann_type "line" then
    if (length coords_original =? 4)%nat then
      match rounded_scalars coords_original with
      | Some [x1; y1; x2; y2] =>
          match cv2_line m (x1, y1) (x2, y2) class_id line_thickness with
          | Some m' => (m', [])
          | None => (m, [ErrorDrawing ann_idx ann_type])
          end
      | _ => (m, [ErrorDrawing ann_idx ann_type])
      end
    else (m, [WarnLineCoords ann_idx])
  else if String.eqb ann_type "freehand" then
    if (2 <=? length coords_original)%nat then
      match cv2_polylines m coords_original class_id line_thickness with
      | Some m' => (m', [])
      | None => (m, [ErrorDrawing ann_idx ann_type])
      end
    else (m, [WarnFreehandPoints ann_idx])
  else (m, [WarnUnknownType ann_type]).

(** One iteration of [for ann_idx, ann in enumerate(...)]. *)
Definition draw_annotation (class_to_id_mapping : gmap string Z)
    (line_thickness : Z) (m : mask) (ann_idx : nat) (ann : annotation)
  : mask * list log_msg :=
  match truthy (label ann), truthy (type ann), coordinates_original ann with
  | Some lbl, Some ann_type, Some coords_original =>
      match class_to_id_mapping !! lbl with
      | None => (m, [WarnLabelNotInMapping lbl])
      | Some class_id =>
          draw_shape line_thickness m ann_idx ann_type coords_original class_id
      end
  | _, _, _ => (m, [WarnIncomplete ann_idx])
  end.

Fixpoint draw_all (class_to_id_mapping : gmap string Z) (line_thickness : Z)
    (m : mask) (ann_idx : nat) (anns : list annotation) : mask * list log_msg :=
  match anns with
  | [] => (m, [])
  | ann :: rest =>
      let '(m1, log1) :=
        draw_annotation class_to_id_mapping line_thickness m ann_idx ann in
      let '(m2, log2) :=
        draw_all class_to_id_mapping line_thickness m1 (S ann_idx) rest in
      (m2, log1 ++ log2)
  end.

(** Image size: from the record when it holds a two-element list, otherwise
    from the image file. *)
Definition resolve_size (img_info : annotation_data) (img : image_file)
  : option (Z * Z) * list log_msg :=
  match original_size img_info with
  | Some [w; h] => (Some (w, h), [])
  | _ =>
      match img with
      | ImageRead w h => (Some (w, h), [InfoSizeFromFile w h])
      | ImageUnreadable => (None, [ErrorImageUnreadable])
      | ImageNotFound => (None, [ErrorImageNotFound])
      | NoImageDir => (None, [ErrorNoImageDir])
      end
  end.

(** [create_mask_from_annotations]: the mask with its [(width, height)], or
    [None] for the [return None, None] exits, together with the log. *)
Definition create_mask_from_annotations (annotation_data : annotation_data)
    (img : image_file) (class_to_id_mapping : gmap string Z)
    (line_thickness : Z) : option (mask * (Z * Z)) * list log_msg :=
  match resolve_size annotation_data img with
  | (None, log0) => (None, log0)
  | (Some (width, height), log0) =>
      if (width <=? 0) || (height <=? 0) then (None, log0 ++ [ErrorInvalidSize])
      else
        let m := np_zeros height width in
        match annotations annotation_data with
        | None | Some [] => (Some (m, (width, height)), log0 ++ [InfoNoAnnotations])
        | Some anns =>
            let '(m', log1) :=
              draw_all class_to_id_mapping line_thickness m 0 anns in
            (Some (m', (width, height)), log0 ++ log1)
        end
  end.

End create_mask.

(** The rescaling of [start_mask_generation]:
    [visual_mask[generated_mask_raw == class_id] = int(class_id * scale_factor)]
    for every entry of the table with a non-zero id. *)
Definition assign_where (visual raw : mask) (class_id value : Z) : mask :=
  zip_with (zip_with (fun r v => if r =? class_id then value else v)) raw visual.

Definition scale_factor (class_mapping : gmap string Z) : Q :=
  let num_classes := Z.of_nat (size class_mapping) - 1 in
  if 0 <? num_classes then (255 / inject_Z num_classes)%Q else 255%Q.

Definition rescale_items (items : list (string * Z)) (scale : Q)
    (raw visual : mask) : mask :=
  foldl (fun vis item =>
           if snd item =? 0 then vis
           else assign_where vis raw (snd item)
                  (Py.int (inject_Z (snd item) * scale)))
        visual items.

Definition visual_mask (generated_mask_raw : mask) : mask :=
  rescale_items (map_to_list CLASS_MAPPING) (scale_factor CLASS_MAPPING)
    generated_mask_raw
    (np_zeros (shape generated_mask_raw).1 (shape generated_mask_raw).2).

End MaskGenerator.

(** ** Annotation records shared by the converter and the labeling app *)

Module AnnotationFile.

Record annotation : Type := {
  label : string;
  type : string;
  coordinates_original : list coord
}.

(** The value kept per image: ["annotations"] and ["original_size"]. *)
Record annotation_set : Type := {
  annotations : list annotation;
  original_size : Z * Z
}.

End AnnotationFile.

Import AnnotationFile.

(** ** json_generator_mask_to_json.py *)

Module JsonGenerator.

(** A contour as OpenCV returns it: an array of shape (N, 1, 2). *)
Abbreviation contour := (list (Z * Z)).

(** [cv2.inRange(mask_image, v, v)]. *)
Definition cv2_inRange (mask_image : mask) (lo hi : Z) : mask :=
  map (map (fun v => if (lo <=? v) && (v <=? hi) then 255 else 0)) mask_image.

(** [cv2.contourArea(contour)]: half the absolute value of the sum of
    [prev.x * p.y - prev.y * p.x] over the points, [prev] starting at the
    last point; 0 for an empty contour. *)
Fixpoint cross_sum (prev : Z * Z) (c : contour) : Z :=
  match c with
  | [] => 0
  | p :: rest => (prev.1 * p.2 - prev.2 * p.1) + cross_sum p rest
  end.

Definition cv2_contourArea (c : contour) : Q :=
  match last c with
  | None => 0%Q
  | Some prev => (inject_Z (Z.abs (cross_sum prev c)) / 2)%Q
  end.

(** The value of [contour.squeeze().tolist()]: [squeeze] drops every axis
    of length one, so a one-point contour becomes the flat list [[x, y]]
    and any other contour a list of [[x, y]] pairs. *)
Inductive coordinates : Type :=
| Flat (x y : Z)
| Pairs (points : list (Z * Z)).

Definition squeeze_tolist (c : contour) : coordinates :=
  match c with
  | [p] => Flat p.1 p.2
  | _ => Pairs c
  end.

(** [if not isinstance(coordinates[0], list): coordinates = [coordinates]];
    [None] is the IndexError of [coordinates[0]] on an empty list. *)
Definition normalize (coords : coordinates) : option (list (Z * Z)) :=
  match coords with
  | Flat x y => Some [(x, y)]
  | Pairs [] => None
  | Pairs points => Some points
  end.

Definition to_coords (points : list (Z * Z)) : list coord :=
  map (fun p => Point (inject_Z p.1) (inject_Z p.2)) points.

Section convert.

(** [cv2.findContours(binary_mask, RETR_EXTERNAL, CHAIN_APPROX_SIMPLE)] is
    the library's contour extraction, kept abstract. *)
Variable cv2_findContours : mask -> list contour.

(** The inner loop over the contours of one class; [None] when an exception
    leaves the function. *)
Fixpoint contour_annotations (lbl : string) (contours : list contour)
  : option (list annotation) :=
  match contours with
  | [] => Some []
  | c :: rest =>
      if Qlt_le_dec (cv2_contourArea c) 4 then contour_annotations lbl rest
      else
        match normalize (squeeze_tolist c) with
        | None => None
        | Some points =>
            match contour_annotations lbl rest with
            | None => None
            | Some anns =>
                Some ({| label := lbl; type := "freehand";
                         coordinates_original := to_coords points |} :: anns)
            end
        end
  end.

Fixpoint class_annotations (mask_image : mask) (class_mapping : list (Z * string))
  : option (list annotation) :=
  match class_mapping with
  | [] => Some []
  | (pixel_value, lbl) :: rest =>
      let binary_mask := cv2_inRange mask_image pixel_value pixel_value in
      match contour_annotations lbl (cv2_findContours binary_mask) with
      | None => None
      | Some anns =>
          match class_annotations mask_image rest with
          | None => None
          | Some more => Some (anns ++ more)
          end
      end
  end.

(** [class_mapping] is the dictionary [{pixel_value: label}] in iteration
    order. *)
Definition convert_mask_to_json_data (mask_image : mask)
    (class_mapping : list (Z * string)) : option annotation_set :=
  let '(height, width) := shape mask_image in
  match class_annotations mask_image class_mapping with
  | None => None
  | Some anns => Some {| annotations := anns; original_size := (width, height) |}
  end.

End convert.

End JsonGenerator.

(** ** os.path, POSIX flavour *)

Module OsPath.

(** Splits at the last occurrence of [sep]: the text before it and the text
    after it; [None] when [sep] does not occur. *)
Fixpoint rsplit (sep : ascii) (p : string) : option (string * string) :=
  match p with
  | EmptyString => None
  | String c rest =>
      match rsplit sep rest with
      | Some (a, b) => Some (String c a, b)
      | None => if Ascii.eqb c sep then Some (EmptyString, rest) else None
      end
  end.

Fixpoint all_char (c : ascii) (p : string) : bool :=
  match p with
  | EmptyString => true
  | String d rest => Ascii.eqb d c && all_char c rest
  end.

(** [p.rstrip('/')]. *)
Fixpoint rstrip_slash (p : string) : string :=
  match p with
  | EmptyString => EmptyString
  | String c rest =>
      match rstrip_slash rest with
      | EmptyString => if Ascii.eqb c "/" then EmptyString else String c EmptyString
      | r => String c r
      end
  end.

Definition basename (p : string) : string :=
  match rsplit "/" p with
  | Some (_, b) => b
  | None => p
  end.

Definition dirname (p : string) : string :=
  match rsplit "/" p with
  | Some (a, _) =>
      let head := (a ++ "/")%string in
      if all_char "/" head then head else rstrip_slash head
  | None => EmptyString
  end.

Definition endswith_slash (p : string) : bool :=
  match rsplit "/" p with
  | Some (_, EmptyString) => true
  | _ => false
  end.

Definition join (a b : string) : string :=
  match b with
  | String "/" _ => b
  | _ =>
      match a with
      | EmptyString => b
      | _ => if endswith_slash a then (a ++ b)%string else (a ++ "/" ++ b)%string
      end
  end.

(** [os.path.splitext(p)[0]]: the extension starts at the last dot of the
    last component, unless only dots precede it there. *)
Definition splitext_root (p : string) : string :=
  let '(dir, file) :=
    match rsplit "/" p with
    | Some (a, b) => ((a ++ "/")%string, b)
    | None => (EmptyString, p)
    end in
  match rsplit "." file with
  | Some (root, _) => if all_char "." root then p else (dir ++ root)%string
  | None => p
  end.

End OsPath.

(** ** labeling_app.py *)

Module LabelingApp.

Definition INITIAL_MAGNIFICATION : Q := 1.
Definition MIN_ZOOM_LEVEL : Q := 2 # 100.
Definition MAX_ZOOM_LEVEL : Q := 100.
Definition ZOOM_WHEEL_FACTOR : Q := 104 # 100.
Definition JSON_SUBDIR_NAME : string := "json_data".

(** The two thresholds the view code compares against: [1e-9], below which
    a scale counts as zero, and [1e-5], the smallest zoom change acted on. *)
Definition SCALE_EPSILON : Q := 1 # 1000000000.
Definition ZOOM_EPSILON : Q := 1 # 100000.

(** *** State of the application object *)

Record view_state : Type := {
  base_scale_factor : Q;
  zoom_level : Q;
  effective_scale : Q;
  view_offset_x : Q;
  view_offset_y : Q;
  last_crop_box_original_coords : option (Z * Z * Z * Z)
}.

Record pan_state : Type := {
  pan_start_x_view_root : Z;
  pan_start_y_view_root : Z;
  pan_initial_offset_x : Q;
  pan_initial_offset_y : Q;
  is_panning : bool
}.

Record drawing_state : Type := {
  start_x_canvas : option Q;
  start_y_canvas : option Q;
  current_freehand_points_canvas : list (Q * Q)
}.

(** [original_pil_image] is the loaded image, known here by its
    [(width, height)]; [canvas_width] and [canvas_height] are what
    [canvas.winfo_width()] and [canvas.winfo_height()] answer; the two
    [_var] fields are the values of the tool and class selectors.
    [annotations] is the dictionary image name -> annotation set, in
    insertion order. *)
Record app : Type := {
  image_files : list string;
  current_image_path : option string;
  original_pil_image : option (Z * Z);
  annotations : list (string * annotation_set);
  has_unsaved_changes : bool;
  view : view_state;
  pan : pan_state;
  drawing : drawing_state;
  canvas_width : Z;
  canvas_height : Z;
  drawing_tool_var : string;
  current_class_var : string
}.

Definition set_annotations (v : list (string * annotation_set)) (s : app) : app :=
  {| image_files := image_files s; current_image_path := current_image_path s;
     original_pil_image := original_pil_image s; annotations := v;
     has_unsaved_changes := has_unsaved_changes s; view := view s;
     pan := pan s; drawing := drawing s; canvas_width := canvas_width s;
     canvas_height := canvas_height s; drawing_tool_var := drawing_tool_var s;
     current_class_var := current_class_var s |}.

Definition set_has_unsaved_changes (v : bool) (s : app) : app :=
  {| image_files := image_files s; current_image_path := current_image_path s;
     original_pil_image := original_pil_image s; annotations := annotations s;
     has_unsaved_changes := v; view := view s;
     pan := pan s; drawing := drawing s; canvas_width := canvas_width s;
     canvas_height := canvas_height s; drawing_tool_var := drawing_tool_var s;
     current_class_var := current_class_var s |}.

Definition set_view (v : view_state) (s : app) : app :=
  {| image_files := image_files s; current_image_path := current_image_path s;
     original_pil_image := original_pil_image s; annotations := annotations s;
     has_unsaved_changes := has_unsaved_changes s; view := v;
     pan := pan s; drawing := drawing s; canvas_width := canvas_width s;
     canvas_height := canvas_height s; drawing_tool_var := drawing_tool_var s;
     current_class_var := current_class_var s |}.

Definition set_pan (v : pan_state) (s : app) : app :=
  {| image_files := image_files s; current_image_path := current_image_path s;
     original_pil_image := original_pil_image s; annotations := annotations s;
     has_unsaved_changes := has_unsaved_changes s; view := view s;
     pan := v; drawing := drawing s; canvas_width := canvas_width s;
     canvas_height := canvas_height s; drawing_tool_var := drawing_tool_var s;
     current_class_var := current_class_var s |}.

Definition set_drawing (v : drawing_state) (s : app) : app :=
  {| image_files := image_files s; current_image_path := current_image_path s;
     original_pil_image := original_pil_image s; annotations := annotations s;
     has_unsaved_changes := has_unsaved_changes s; view := view s;
     pan := pan s; drawing := v; canvas_width := canvas_width s;
     canvas_height := canvas_height s; drawing_tool_var := drawing_tool_var s;
     current_class_var := current_class_var s |}.

Definition set_zoom_level (v : Q) (vs : view_state) : view_state :=
  {| base_scale_factor := base_scale_factor vs; zoom_level := v;
     effective_scale := effective_scale vs; view_offset_x := view_offset_x vs;
     view_offset_y := view_offset_y vs;
     last_crop_box_original_coords := last_crop_box_original_coords vs |}.

Definition set_effective_scale (v : Q) (vs : view_state) : view_state :=
  {| base_scale_factor := base_scale_factor vs; zoom_level := zoom_level vs;
     effective_scale := v; view_offset_x := view_offset_x vs;
     view_offset_y := view_offset_y vs;
     last_crop_box_original_coords := last_crop_box_original_coords vs |}.

Definition set_view_offset (vx vy : Q) (vs : view_state) : view_state :=
  {| base_scale_factor := base_scale_factor vs; zoom_level := zoom_level vs;
     effective_scale := effective_scale vs; view_offset_x := vx;
     view_offset_y := vy;
     last_crop_box_original_coords := last_crop_box_original_coords vs |}.

Definition set_last_crop_box (v : option (Z * Z * Z * Z)) (vs : view_state)
  : view_state :=
  {| base_scale_factor := base_scale_factor vs; zoom_level := zoom_level vs;
     effective_scale := effective_scale vs; view_offset_x := view_offset_x vs;
     view_offset_y := view_offset_y vs; last_crop_box_original_coords := v |}.

(** A pointer event: position in the canvas and on the screen. *)
Record event : Type := {
  event_x : Z;
  event_y : Z;
  event_x_root : Z;
  event_y_root : Z
}.

(** [canvas.canvasx] / [canvas.canvasy]: the canvas is never scrolled, so
    a window coordinate is its own canvas coordinate, as a float. *)
Definition canvasx (v : Z) : Q := inject_Z v.

(** *** The annotation dictionary *)

Fixpoint dict_get {V : Type} (d : list (string * V)) (k : string) : option V :=
  match d with
  | [] => None
  | (k', v) :: rest => if String.eqb k' k then Some v else dict_get rest k
  end.

(** [d[k] = v]: replaces the value in place, or appends a new key. *)
Fixpoint dict_set {V : Type} (d : list (string * V)) (k : string) (v : V)
  : list (string * V) :=
  match d with
  | [] => [(k, v)]
  | (k', v') :: rest =>
      if String.eqb k' k then (k, v) :: rest else (k', v') :: dict_set rest k v
  end.

(** *** View manipulation *)

(** One axis of the crop box of [refresh_display]. *)
Definition crop_axis (img_len canvas_len : Z) (offset scale : Q) : Z * Z :=
  let target_crop_len_f := (inject_Z canvas_len / scale)%Q in
  let crop_orig_1_f := (- offset / scale)%Q in
  let crop_orig_1_int := Py.round crop_orig_1_f in
  let crop_len_int := Z.max 1 (Py.round target_crop_len_f) in
  let crop_orig_2_int := crop_orig_1_int + crop_len_int in
  let final_crop_1 := Z.max 0 (Z.min img_len crop_orig_1_int) in
  let final_crop_2 := Z.max 0 (Z.min img_len crop_orig_2_int) in
  let final_crop_2 := if final_crop_2 <=? final_crop_1 then final_crop_1 + 1
                      else final_crop_2 in
  let final_crop_2 := Z.min img_len final_crop_2 in
  let final_crop_1 := if 0 <? final_crop_2 then Z.min final_crop_1 (final_crop_2 - 1)
                      else final_crop_1 in
  let final_crop_1 := Z.max 0 final_crop_1 in
  (final_crop_1, final_crop_2).

(** [refresh_display], as far as it changes the state: it recomputes the
    crop box (the drawing itself leaves no trace in the state). *)
Definition refresh_display (s : app) : app :=
  match original_pil_image s with
  | None => set_view (set_last_crop_box None (view s)) s
  | Some (img_w, img_h) =>
      let current_display_effective_scale := effective_scale (view s) in
      if (canvas_width s <=? 1) || (canvas_height s <=? 1) ||
         (if Qlt_le_dec (Py.abs current_display_effective_scale) SCALE_EPSILON
          then true else false)
      then set_view (set_last_crop_box None (view s)) s
      else
        let '(final_crop_x1, final_crop_x2) :=
          crop_axis img_w (canvas_width s) (view_offset_x (view s))
                    current_display_effective_scale in
        let '(final_crop_y1, final_crop_y2) :=
          crop_axis img_h (canvas_height s) (view_offset_y (view s))
                    current_display_effective_scale in
        set_view (set_last_crop_box
                    (Some (final_crop_x1, final_crop_y1, final_crop_x2, final_crop_y2))
                    (view s)) s
  end.

Definition adjust_zoom (factor : Q) (canvas_x_root canvas_y_root : option Q)
    (s : app) : app :=
  match original_pil_image s with
  | None => s
  | Some _ =>
      if Qlt_le_dec (Py.abs (base_scale_factor (view s))) SCALE_EPSILON then s
      else
        let current_effective_scale :=
          (base_scale_factor (view s) * zoom_level (view s))%Q in
        if Qlt_le_dec (Py.abs current_effective_scale) SCALE_EPSILON then s
        else if (canvas_width s <=? 1) || (canvas_height s <=? 1) then s
        else
          let canvas_center_x :=
            default (inject_Z (canvas_width s) / 2)%Q canvas_x_root in
          let canvas_center_y :=
            default (inject_Z (canvas_height s) / 2)%Q canvas_y_root in
          let orig_x_at_zoom_center :=
            ((canvas_center_x - view_offset_x (view s)) / current_effective_scale)%Q in
          let orig_y_at_zoom_center :=
            ((canvas_center_y - view_offset_y (view s)) / current_effective_scale)%Q in
          let old_zoom_level := zoom_level (view s) in
          let s1 :=
            set_view (set_zoom_level
                        (Py.max MIN_ZOOM_LEVEL
                           (Py.min (zoom_level (view s) * factor)%Q MAX_ZOOM_LEVEL))
                        (view s)) s in
          if Qlt_le_dec (Py.abs (zoom_level (view s1) - old_zoom_level)%Q) ZOOM_EPSILON
          then s1
          else
            let s2 :=
              set_view (set_effective_scale
                          (base_scale_factor (view s1) * zoom_level (view s1))%Q
                          (view s1)) s1 in
            let s3 :=
              set_view (set_view_offset
                          (canvas_center_x - orig_x_at_zoom_center * effective_scale (view s2))%Q
                          (canvas_center_y - orig_y_at_zoom_center * effective_scale (view s2))%Q
                          (view s2)) s2 in
            refresh_display s3
  end.

Definition on_pan_press (ev : event) (s : app) : app :=
  match original_pil_image s with
  | None => s
  | Some _ =>
      set_pan {| is_panning := true;
                 pan_start_x_view_root := event_x_root ev;
                 pan_start_y_view_root := event_y_root ev;
                 pan_initial_offset_x := view_offset_x (view s);
                 pan_initial_offset_y := view_offset_y (view s) |} s
  end.

(** The clamp of [on_pan_drag] along one axis. *)
Definition pan_clamp (canvas_len : Z) (full_eff_img_len new_view_offset : Q) : Q :=
  let limit1 := 0%Q in
  let limit2 := (inject_Z canvas_len - full_eff_img_len)%Q in
  Py.max (Py.min limit1 limit2) (Py.min (Py.max limit1 limit2) new_view_offset).

Definition on_pan_drag (ev : event) (s : app) : app :=
  match is_panning (pan s), original_pil_image s with
  | true, Some (img_w, img_h) =>
      let current_effective_scale_for_pan :=
        (base_scale_factor (view s) * zoom_level (view s))%Q in
      if Qlt_le_dec (Py.abs current_effective_scale_for_pan) SCALE_EPSILON then s
      else
        let delta_x := event_x_root ev - pan_start_x_view_root (pan s) in
        let delta_y := event_y_root ev - pan_start_y_view_root (pan s) in
        let new_view_offset_x := (pan_initial_offset_x (pan s) + inject_Z delta_x)%Q in
        let new_view_offset_y := (pan_initial_offset_y (pan s) + inject_Z delta_y)%Q in
        if (canvas_width s <=? 0) || (canvas_height s <=? 0) then s
        else
          let full_eff_img_width :=
            (inject_Z img_w * current_effective_scale_for_pan)%Q in
          let full_eff_img_height :=
            (inject_Z img_h * current_effective_scale_for_pan)%Q in
          refresh_display
            (set_view (set_view_offset
                         (pan_clamp (canvas_width s) full_eff_img_width new_view_offset_x)
                         (pan_clamp (canvas_height s) full_eff_img_height new_view_offset_y)
                         (view s)) s)
  | _, _ => s
  end.

Definition on_pan_release (ev : event) (s : app) : app :=
  if is_panning (pan s)
  then set_pan {| is_panning := false;
                  pan_start_x_view_root := pan_start_x_view_root (pan s);
                  pan_start_y_view_root := pan_start_y_view_root (pan s);
                  pan_initial_offset_x := pan_initial_offset_x (pan s);
                  pan_initial_offset_y := pan_initial_offset_y (pan s) |} s
  else s.

Definition view_to_original_coords (s : app) (canvas_x canvas_y : Q) : Q * Q :=
  match original_pil_image s, last_crop_box_original_coords (view s) with
  | Some _, Some (crop_ox1, crop_oy1, crop_ox2, crop_oy2) =>
      if Qlt_le_dec (Py.abs (effective_scale (view s))) SCALE_EPSILON
      then (((canvas_x - view_offset_x (view s)) / SCALE_EPSILON)%Q,
            ((canvas_y - view_offset_y (view s)) / SCALE_EPSILON)%Q)
      else
        let cropped_width_orig := crop_ox2 - crop_ox1 in
        let cropped_height_orig := crop_oy2 - crop_oy1 in
        if (canvas_width s <=? 0) || (canvas_height s <=? 0) ||
           (cropped_width_orig <=? 0) || (cropped_height_orig <=? 0)
        then (((canvas_x - view_offset_x (view s)) / effective_scale (view s))%Q,
              ((canvas_y - view_offset_y (view s)) / effective_scale (view s))%Q)
        else
          let prop_x := (canvas_x / inject_Z (canvas_width s))%Q in
          let prop_y := (canvas_y / inject_Z (canvas_height s))%Q in
          ((inject_Z crop_ox1 + prop_x * inject_Z cropped_width_orig)%Q,
           (inject_Z crop_oy1 + prop_y * inject_Z cropped_height_orig)%Q)
  | _, _ => (canvas_x, canvas_y)
  end.

(** [None] stands for the answer [(None, None)]. *)
Definition original_to_view_coords (s : app) (original_x original_y : Q)
  : option (Q * Q) :=
  match original_pil_image s, last_crop_box_original_coords (view s) with
  | Some _, Some (crop_ox1, crop_oy1, crop_ox2, crop_oy2) =>
      if Qlt_le_dec (Py.abs (effective_scale (view s))) SCALE_EPSILON then None
      else
        let cropped_width_orig := crop_ox2 - crop_ox1 in
        let cropped_height_orig := crop_oy2 - crop_oy1 in
        if (cropped_width_orig <=? 0) || (cropped_height_orig <=? 0) ||
           (canvas_width s <=? 0) || (canvas_height s <=? 0)
        then None
        else
          let epsilon := SCALE_EPSILON in
          if Qle_bool (inject_Z crop_ox1 - epsilon) original_x &&
             Qle_bool original_x (inject_Z crop_ox2 + epsilon) &&
             Qle_bool (inject_Z crop_oy1 - epsilon) original_y &&
             Qle_bool original_y (inject_Z crop_oy2 + epsilon)
          then
            let relative_x_in_crop := (original_x - inject_Z crop_ox1)%Q in
            let relative_y_in_crop := (original_y - inject_Z crop_oy1)%Q in
            let prop_x := (relative_x_in_crop / inject_Z cropped_width_orig)%Q in
            let prop_y := (relative_y_in_crop / inject_Z cropped_height_orig)%Q in
            Some ((prop_x * inject_Z (canvas_width s))%Q,
                  (prop_y * inject_Z (canvas_height s))%Q)
          else None
  | _, _ => None
  end.

(** *** Drawing and the annotation store *)

Definition reset_drawing_state (s : app) : app :=
  set_drawing {| start_x_canvas := None; start_y_canvas := None;
                 current_freehand_points_canvas := [] |} s.

(** [not self.start_x_canvas]: unset, or the float [0.0]. *)
Definition falsy (v : option Q) : bool :=
  match v with
  | None => true
  | Some q => Qeq_bool q 0
  end.

(** [self.annotations[img_name]["annotations"].append(ann)], the entry being
    created first when the image has none. *)
Definition append_annotation (d : list (string * annotation_set))
    (img_name : string) (size : Z * Z) (ann : annotation)
  : list (string * annotation_set) :=
  let entry := default {| AnnotationFile.annotations := []; original_size := size |}
                       (dict_get d img_name) in
  dict_set d img_name
    {| AnnotationFile.annotations := AnnotationFile.annotations entry ++ [ann];
       original_size := original_size entry |}.

Definition delete_annotation (index_to_delete : Z) (confirm : bool) (s : app) : app :=
  match current_image_path s with
  | None => s
  | Some path =>
      let img_name := OsPath.basename path in
      match dict_get (annotations s) img_name with
      | None => s
      | Some entry =>
          let annotations_list := AnnotationFile.annotations entry in
          if (0 <=? index_to_delete) &&
             (index_to_delete <? Z.of_nat (length annotations_list))
          then
            if confirm then
              refresh_display
                (set_has_unsaved_changes true
                   (set_annotations
                      (dict_set (annotations s) img_name
                         {| AnnotationFile.annotations :=
                              delete (Z.to_nat index_to_delete) annotations_list;
                            original_size := original_size entry |}) s))
            else s
          else s
      end
  end.

(** Operations that can stop on an exception answer [None]; none of them
    has changed the state when that happens. *)
Definition clear_current_annotations (confirm : bool) (s : app) : option app :=
  match current_image_path s with
  | None => Some s
  | Some path =>
      let img_name := OsPath.basename path in
      if confirm then
        match dict_get (annotations s) img_name with
        | None =>
            match original_pil_image s with
            | None => None
            | Some size =>
                Some (refresh_display
                        (set_has_unsaved_changes true
                           (set_annotations
                              (dict_set (annotations s) img_name
                                 {| AnnotationFile.annotations := [];
                                    original_size := size |}) s)))
            end
        | Some entry =>
            Some (refresh_display
                    (set_has_unsaved_changes true
                       (set_annotations
                          (dict_set (annotations s) img_name
                             {| AnnotationFile.annotations := [];
                                original_size := original_size entry |}) s)))
        end
      else Some s
  end.

(** A press with the select tool deletes the hovered annotation, if any;
    with a drawing tool it records the start of the gesture. *)
Definition on_mouse_press (ev : event) (hovered : option Z) (confirm : bool)
    (s : app) : app :=
  if String.eqb (drawing_tool_var s) "select" then
    match hovered with
    | Some ann_idx_to_delete => delete_annotation ann_idx_to_delete confirm s
    | None => s
    end
  else
    match original_pil_image s with
    | None => s
    | Some _ =>
        if is_panning (pan s) then s
        else
          let sx := canvasx (event_x ev) in
          let sy := canvasx (event_y ev) in
          set_drawing
            {| start_x_canvas := Some sx; start_y_canvas := Some sy;
               current_freehand_points_canvas :=
                 if String.eqb (drawing_tool_var s) "freehand" then [(sx, sy)]
                 else current_freehand_points_canvas (drawing s) |} s
    end.

Definition on_mouse_drag (ev : event) (s : app) : app :=
  if is_panning (pan s) || String.eqb (drawing_tool_var s) "select" ||
     falsy (start_x_canvas (drawing s))
  then s
  else if String.eqb (drawing_tool_var s) "freehand" then
    set_drawing
      {| start_x_canvas := start_x_canvas (drawing s);
         start_y_canvas := start_y_canvas (drawing s);
         current_freehand_points_canvas :=
           current_freehand_points_canvas (drawing s) ++
             [(canvasx (event_x ev), canvasx (event_y ev))] |} s
  else s.

(** *** Floating point in the release handler

    The release handler decides by comparing floats with 1, so the rounding
    of each arithmetic operation matters there.  [rnd] maps the exact result
    of one operation to the float the interpreter computes ([fun q => q] is
    exact arithmetic) and [hypot] is [math.hypot]; both are parameters of
    the handler.  [view_to_original_coords_fl] is [view_to_original_coords]
    with the rounding of every operation written out; a float literal is
    the rounding of its decimal value, and an integer operand is converted
    without error. *)
Definition view_to_original_coords_fl (rnd : Q -> Q) (s : app)
    (canvas_x canvas_y : Q) : Q * Q :=
  match original_pil_image s, last_crop_box_original_coords (view s) with
  | Some _, Some (crop_ox1, crop_oy1, crop_ox2, crop_oy2) =>
      if Qlt_le_dec (Py.abs (effective_scale (view s))) (rnd SCALE_EPSILON)
      then (rnd (rnd (canvas_x - view_offset_x (view s)) / rnd SCALE_EPSILON)%Q,
            rnd (rnd (canvas_y - view_offset_y (view s)) / rnd SCALE_EPSILON)%Q)
      else
        let cropped_width_orig := crop_ox2 - crop_ox1 in
        let cropped_height_orig := crop_oy2 - crop_oy1 in
        if (canvas_width s <=? 0) || (canvas_height s <=? 0) ||
           (cropped_width_orig <=? 0) || (cropped_height_orig <=? 0)
        then (rnd (rnd (canvas_x - view_offset_x (view s))
                   / effective_scale (view s))%Q,
              rnd (rnd (canvas_y - view_offset_y (view s))
                   / effective_scale (view s))%Q)
        else
          let prop_x := rnd (canvas_x / inject_Z (canvas_width s))%Q in
          let prop_y := rnd (canvas_y / inject_Z (canvas_height s))%Q in
          (rnd (inject_Z crop_ox1 + rnd (prop_x * inject_Z cropped_width_orig))%Q,
           rnd (inject_Z crop_oy1 + rnd (prop_y * inject_Z cropped_height_orig))%Q)
  | _, _ => (canvas_x, canvas_y)
  end.

(** The coordinate list a finished gesture yields; the empty list when the
    gesture is too small, [None] when the start ordinate is missing where
    it is used. *)
Definition gesture_coords (rnd : Q -> Q) (hypot : Q -> Q -> Q) (s : app)
    (start_x : Q) (start_y : option Q) (end_x end_y : Q) : option (list coord) :=
  let tool := drawing_tool_var s in
  if String.eqb tool "rectangle" then
    match start_y with
    | None => None
    | Some start_y =>
        let '(orig_x1, orig_y1) := view_to_original_coords_fl rnd s start_x start_y in
        let '(orig_x2, orig_y2) := view_to_original_coords_fl rnd s end_x end_y in
        if Qle_bool 1 (Py.abs (rnd (orig_x1 - orig_x2)%Q)) &&
           Qle_bool 1 (Py.abs (rnd (orig_y1 - orig_y2)%Q))
        then Some [Scalar (Py.min orig_x1 orig_x2); Scalar (Py.min orig_y1 orig_y2);
                   Scalar (Py.max orig_x1 orig_x2); Scalar (Py.max orig_y1 orig_y2)]
        else Some []
    end
  else if String.eqb tool "line" then
    match start_y with
    | None => None
    | Some start_y =>
        let '(orig_x1, orig_y1) := view_to_original_coords_fl rnd s start_x start_y in
        let '(orig_x2, orig_y2) := view_to_original_coords_fl rnd s end_x end_y in
        if Qle_bool 1 (hypot (rnd (orig_x2 - orig_x1)%Q) (rnd (orig_y2 - orig_y1)%Q))
        then Some [Scalar orig_x1; Scalar orig_y1; Scalar orig_x2; Scalar orig_y2]
        else Some []
    end
  else if String.eqb tool "freehand" then
    if (2 <=? length (current_freehand_points_canvas (drawing s)))%nat
    then Some (map (fun p => let '(ox, oy) :=
                               view_to_original_coords_fl rnd s p.1 p.2 in
                             Point ox oy)
                   (current_freehand_points_canvas (drawing s)))
    else Some []
  else Some [].

Definition on_mouse_release (rnd : Q -> Q) (hypot : Q -> Q -> Q) (ev : event)
    (s : app) : option app :=
  if is_panning (pan s) || String.eqb (drawing_tool_var s) "select" ||
     falsy (start_x_canvas (drawing s))
  then Some (reset_drawing_state s)
  else
    let end_x_canvas := canvasx (event_x ev) in
    let end_y_canvas := canvasx (event_y ev) in
    let tool := drawing_tool_var s in
    let lbl := current_class_var s in
    if String.eqb lbl "" then Some (reset_drawing_state s)
    else
      match gesture_coords rnd hypot s (default 0%Q (start_x_canvas (drawing s)))
              (start_y_canvas (drawing s)) end_x_canvas end_y_canvas with
      | None => None
      | Some [] => Some (reset_drawing_state s)
      | Some coords_orig =>
          let ann := {| label := lbl; type := tool;
                        coordinates_original := coords_orig |} in
          match current_image_path s with
          | None => None
          | Some path =>
              let img_name := OsPath.basename path in
              match dict_get (annotations s) img_name, original_pil_image s with
              | None, None => None
              | None, Some size =>
                  Some (reset_drawing_state
                          (set_has_unsaved_changes true
                             (set_annotations
                                (append_annotation (annotations s) img_name size ann) s)))
              | Some entry, _ =>
                  Some (reset_drawing_state
                          (set_has_unsaved_changes true
                             (set_annotations
                                (append_annotation (annotations s) img_name
                                   (original_size entry) ann) s)))
              end
          end
      end.

(** *** Saving *)

(** The annotation directory on disk: the record stored under each path,
    the paths on which opening for writing or removing raises [OSError],
    and whether the directory itself can be created. *)
Record world : Type := {
  files : gmap string annotation_set;
  locked : gset string;
  makedirs_ok : bool
}.

Record counts : Type := {
  saved_count : nat;
  deleted_count : nat;
  error_count : nat
}.

Inductive save_message : Type :=
| CannotSave
| NothingToSave
| DirectoryError
| SaveCompleteWithErrors (c : counts)
| SaveComplete (c : counts)
| NoChangesRequired.

Definition save_path_of (json_dir img_basename : string) : string :=
  let json_basename := (OsPath.splitext_root img_basename ++ ".json")%string in
  OsPath.join json_dir json_basename.

(** The body of [for img_basename, ann_data in self.annotations.items()]. *)
Definition save_entry (json_dir : string) (acc : world * counts)
    (item : string * annotation_set) : world * counts :=
  let '(w, c) := acc in
  let save_path := save_path_of json_dir item.1 in
  match AnnotationFile.annotations item.2 with
  | [] =>
      if decide (is_Some (files w !! save_path)) then
        if decide (save_path ∈ locked w)
        then (w, {| saved_count := saved_count c; deleted_count := deleted_count c;
                    error_count := S (error_count c) |})
        else ({| files := delete save_path (files w); locked := locked w;
                 makedirs_ok := makedirs_ok w |},
              {| saved_count := saved_count c; deleted_count := S (deleted_count c);
                 error_count := error_count c |})
      else (w, c)
  | _ =>
      if decide (save_path ∈ locked w)
      then (w, {| saved_count := saved_count c; deleted_count := deleted_count c;
                  error_count := S (error_count c) |})
      else ({| files := <[save_path := item.2]> (files w); locked := locked w;
               makedirs_ok := makedirs_ok w |},
            {| saved_count := S (saved_count c); deleted_count := deleted_count c;
               error_count := error_count c |})
  end.

Definition json_dir_of (s : app) : string :=
  OsPath.join (OsPath.dirname (default EmptyString (head (image_files s))))
              JSON_SUBDIR_NAME.

Definition save_annotations (s : app) (w : world) : app * world * save_message :=
  match image_files s, annotations s with
  | [], _ => (s, w, CannotSave)
  | _, [] => (s, w, NothingToSave)
  | _, _ =>
      if makedirs_ok w then
        let '(w', c) :=
          foldl (save_entry (json_dir_of s))
                (w, {| saved_count := 0; deleted_count := 0; error_count := 0 |})
                (annotations s) in
        (set_has_unsaved_changes false s, w',
         if (0 <? error_count c)%nat then SaveCompleteWithErrors c
         else if (0 <? saved_count c)%nat || (0 <? deleted_count c)%nat
              then SaveComplete c
              else NoChangesRequired)
      else (s, w, DirectoryError)
  end.

End LabelingApp.

(** * Properties *)

(** ** Rasters *)

Section raster_facts.

Implicit Types (m : mask) (x y : Z).

Lemma pixel_Some m x y v :
  pixel m x y = Some v <->
  0 <= x /\ 0 <= y /\
  exists row, m !! Z.to_nat y = Some row /\ row !! Z.to_nat x = Some v.
Proof.
  unfold pixel. split.
  - destruct (0 <=? x) eqn:Hx, (0 <=? y) eqn:Hy; simpl; try discriminate.
    destruct (m !! Z.to_nat y) as [row|] eqn:Hrow; simpl; try discriminate.
    intros Hv. repeat split; try lia. eauto.
  - intros (Hx & Hy & row & Hrow & Hv).
    rewrite (proj2 (Z.leb_le 0 x) Hx), (proj2 (Z.leb_le 0 y) Hy). simpl.
    rewrite Hrow. exact Hv.
Qed.

Lemma pixel_np_zeros height width x y :
  0 <= x < width -> 0 <= y < height ->
  pixel (np_zeros height width) x y = Some 0.
Proof.
  intros Hx Hy. apply pixel_Some. repeat split; try lia.
  exists (replicate (Z.to_nat width) 0). split.
  - apply lookup_replicate_2. lia.
  - apply lookup_replicate_2. lia.
Qed.

Lemma pixel_np_zeros_Some height width x y v :
  pixel (np_zeros height width) x y = Some v -> v = 0.
Proof.
  intros (_ & _ & row & Hrow & Hv)%pixel_Some.
  apply lookup_replicate in Hrow as [-> _].
  apply lookup_replicate in Hv as [-> _]. reflexivity.
Qed.

Lemma pixel_fill_box m pt1 pt2 color x y :
  pixel (fill_box m pt1 pt2 color) x y =
  (fun v => if in_box pt1 pt2 x y then saturate_u8 color else v) <$> pixel m x y.
Proof.
  unfold pixel, fill_box.
  destruct (0 <=? x) eqn:Hx, (0 <=? y) eqn:Hy; cbn [andb]; try reflexivity.
  apply Z.leb_le in Hx, Hy.
  rewrite list_lookup_imap.
  destruct (m !! Z.to_nat y) as [row|]; [|reflexivity].
  cbn -[in_box imap].
  rewrite list_lookup_imap, !Z2Nat.id by lia.
  reflexivity.
Qed.

End raster_facts.

(** ** The mask generator *)

Module MaskGeneratorSpec.

Import MaskGenerator.

(** The scenario of the specification: one rectangle labelled "lines" on a
    100 x 100 image, its corners given as two pairs, and the same rectangle
    given the way the labeling app stores it, as four numbers. *)
Definition lines_table : gmap string Z := {[ "lines"%string := 1 ]}.

Definition rectangle_as_pairs : annotation_data :=
  {| annotations :=
       Some [ {| label := Some "lines"%string; type := Some "rectangle"%string;
                 coordinates_original := Some [Point 10 10; Point 50 50] |} ];
     original_size := Some [100; 100] |}.

Definition rectangle_as_scalars : annotation_data :=
  {| annotations :=
       Some [ {| label := Some "lines"%string; type := Some "rectangle"%string;
                 coordinates_original :=
                   Some [Scalar 10; Scalar 10; Scalar 50; Scalar 50] |} ];
     original_size := Some [100; 100] |}.

(** What the specification expects of the scenario: value 1 on the
    half-open square, 0 elsewhere. *)
Definition half_open_square (m : mask) : Prop :=
  forall x y, 0 <= x < 100 -> 0 <= y < 100 ->
    pixel m x y =
    Some (if (10 <=? x) && (x <? 50) && (10 <=? y) && (y <? 50) then 1 else 0).

Definition closed_square (m : mask) : Prop :=
  forall x y, 0 <= x < 100 -> 0 <= y < 100 ->
    pixel m x y =
    Some (if (10 <=? x) && (x <=? 50) && (10 <=? y) && (y <=? 50) then 1 else 0).

Section scenario.

Variable cv2_line : mask -> Z * Z -> Z * Z -> Z -> Z -> option mask.
Variable cv2_polylines : mask -> list coord -> Z -> Z -> option mask.

Lemma rectangle_as_pairs_result :
  create_mask_from_annotations cv2_line cv2_polylines rectangle_as_pairs
    NoImageDir lines_table DEFAULT_LINE_THICKNESS
  = (Some (np_zeros 100 100, (100, 100)), [WarnRectangleCoords 0]).
Proof. reflexivity. Qed.

Lemma rectangle_as_scalars_result :
  create_mask_from_annotations cv2_line cv2_polylines rectangle_as_scalars
    NoImageDir lines_table DEFAULT_LINE_THICKNESS
  = (Some (fill_box (np_zeros 100 100) (10, 10) (50, 50) 1, (100, 100)), []).
Proof. reflexivity. Qed.

End scenario.

(** C1 (as amended).  With the corners written as four numbers
    [10, 10, 50, 50] the raster is 100 x 100 and a pixel is 1 exactly when
    10 <= x <= 50 and 10 <= y <= 50, both corners included, and 0
    elsewhere; with the corners written as two pairs the rectangle is
    skipped with a warning and the raster is 100 x 100, all 0. *)
Theorem rectangle_scenario_raster
    (cv2_line : mask -> Z * Z -> Z * Z -> Z -> Z -> option mask)
    (cv2_polylines : mask -> list coord -> Z -> Z -> option mask) :
  (exists m,
      create_mask_from_annotations cv2_line cv2_polylines rectangle_as_scalars
        NoImageDir lines_table DEFAULT_LINE_THICKNESS = (Some (m, (100, 100)), [])
      /\ shape m = (100, 100) /\ closed_square m) /\
  (exists m,
      create_mask_from_annotations cv2_line cv2_polylines rectangle_as_pairs
        NoImageDir lines_table DEFAULT_LINE_THICKNESS
      = (Some (m, (100, 100)), [WarnRectangleCoords 0])
      /\ shape m = (100, 100)
      /\ forall x y, 0 <= x < 100 -> 0 <= y < 100 -> pixel m x y = Some 0).
Proof.
  split.
  - eexists. split; [apply rectangle_as_scalars_result|].
    split; [reflexivity|].
    intros x y Hx Hy. rewrite pixel_fill_box, pixel_np_zeros by lia.
    simpl. unfold in_box. simpl.
    replace (Z.min 10 50) with 10 by reflexivity.
    replace (Z.max 10 50) with 50 by reflexivity.
    reflexivity.
  - eexists. split; [apply rectangle_as_pairs_result|].
    split; [reflexivity|].
    intros x y Hx Hy. apply pixel_np_zeros; lia.
Qed.

(** C1, as stated, fails in either notation of the corners: with two pairs
    nothing is drawn (pixel (10, 10) is 0), and with four numbers the far
    corner is filled too (pixel (50, 50) is 1). *)
Lemma rectangle_scenario_not_half_open :
  ~ (forall cv2_line cv2_polylines,
       exists m log,
         create_mask_from_annotations cv2_line cv2_polylines rectangle_as_pairs
           NoImageDir lines_table DEFAULT_LINE_THICKNESS = (Some (m, (100, 100)), log)
         /\ half_open_square m) /\
  ~ (forall cv2_line cv2_polylines,
       exists m log,
         create_mask_from_annotations cv2_line cv2_polylines rectangle_as_scalars
           NoImageDir lines_table DEFAULT_LINE_THICKNESS = (Some (m, (100, 100)), log)
         /\ half_open_square m).
Proof.
  split; intros H;
    destruct (H (fun _ _ _ _ _ => None) (fun _ _ _ _ => None)) as (m & log & Hm & Hsq).
  - rewrite rectangle_as_pairs_result in Hm. injection Hm as <- _.
    specialize (Hsq 10 10 ltac:(lia) ltac:(lia)). vm_compute in Hsq. discriminate.
  - rewrite rectangle_as_scalars_result in Hm. injection Hm as <- _.
    specialize (Hsq 50 50 ltac:(lia) ltac:(lia)). vm_compute in Hsq. discriminate.
Qed.

(** *** Skipped annotations *)





Section skipping.

Variable cv2_line : mask -> Z * Z -> Z * Z -> Z -> Z -> option mask.
Variable cv2_polylines : mask -> list coord -> Z -> Z -> option mask.
Variable class_to_id_mapping : gmap string Z.
Variable line_thickness : Z.

Local Abbreviation draw_annotation :=
  (draw_annotation cv2_line cv2_polylines class_to_id_mapping line_thickness).
Local Abbreviation draw_all :=
  (draw_all cv2_line cv2_polylines class_to_id_mapping line_thickness).





Lemma draw_all_app m ann_idx anns1 anns2 :
  draw_all m ann_idx (anns1 ++ anns2) =
  let '(m1, log1) := draw_all m ann_idx anns1 in
  let '(m2, log2) := draw_all m1 (ann_idx + length anns1)%nat anns2 in
  (m2, log1 ++ log2).
Proof.
  revert m ann_idx. induction anns1 as [|ann anns1 IH]; intros m ann_idx; simpl.
  - rewrite Nat.add_0_r. destruct (draw_all m ann_idx anns2). reflexivity.
  - destruct (draw_annotation m ann_idx ann) as [m1 log1].
    rewrite IH. destruct (draw_all m1 (S ann_idx) anns1) as [m2 log2].
    replace (ann_idx + S (length anns1))%nat with (S ann_idx + length anns1)%nat by lia.
    destruct (draw_all m2 (S ann_idx + length anns1) anns2) as [m3 log3].
    rewrite app_assoc. reflexivity.
Qed.





End skipping.


(** *** The viewable raster *)

(** Every row of a raster has the length of the first one, as in an array. *)
Definition rectangular (m : mask) : Prop :=
  Forall (fun row => length row = length (default [] (head m))) m.

(** [k] is the identifier of some entry of the built-in class table. *)
Definition is_class_id (k : Z) : Prop :=
  exists class_name, CLASS_MAPPING !! class_name = Some k.

(** The number of entries of the class table other than the background. *)
Definition num_non_background_classes : Z :=
  Z.of_nat (length (filter (fun item => snd item ≠ 0) (map_to_list CLASS_MAPPING))).

(** What the rescaling loop does to one pixel: [r] is the raw value at that
    position, [v] the value the viewable raster holds there so far. *)
Definition rescale_value (items : list (string * Z)) (scale : Q) (r v : Z) : Z :=
  foldl (fun v item =>
           if snd item =? 0 then v
           else if r =? snd item then Py.int (inject_Z (snd item) * scale) else v)
        v items.

Lemma pixel_assign_where visual raw class_id value x y :
  pixel (assign_where visual raw class_id value) x y =
  r ← pixel raw x y; v ← pixel visual x y;
  Some (if r =? class_id then value else v).
Proof.
  unfold pixel, assign_where.
  destruct ((0 <=? x) && (0 <=? y)); [|reflexivity].
  rewrite lookup_zip_with.
  destruct (raw !! Z.to_nat y) as [rrow|]; [|reflexivity].
  destruct (visual !! Z.to_nat y) as [vrow|]; cbn -[zip_with].
  - rewrite lookup_zip_with. reflexivity.
  - destruct (rrow !! Z.to_nat x); reflexivity.
Qed.

Lemma pixel_rescale_items items scale raw visual x y r v :
  pixel raw x y = Some r -> pixel visual x y = Some v ->
  pixel (rescale_items items scale raw visual) x y =
  Some (rescale_value items scale r v).
Proof.
  intros Hr. revert visual v.
  induction items as [|item items IH]; intros visual v Hv; simpl; [exact Hv|].
  apply IH. destruct (item.2 =? 0); [exact Hv|].
  rewrite pixel_assign_where, Hr, Hv. reflexivity.
Qed.

Lemma pixel_zeros_like raw x y r :
  rectangular raw -> pixel raw x y = Some r ->
  pixel (np_zeros (shape raw).1 (shape raw).2) x y = Some 0.
Proof.
  intros Hrect (Hx & Hy & row & Hrow & Hr)%pixel_Some.
  pose proof (lookup_lt_Some _ _ _ Hrow) as Hylt.
  pose proof (lookup_lt_Some _ _ _ Hr) as Hxlt.
  assert (length row = length (default [] (head raw))) as Hlen.
  { unfold rectangular in Hrect. rewrite Forall_forall in Hrect.
    apply Hrect. eapply list_elem_of_lookup_2. exact Hrow. }
  apply pixel_np_zeros; simpl; lia.
Qed.

Lemma pixel_visual_mask raw x y r :
  rectangular raw -> pixel raw x y = Some r ->
  pixel (visual_mask raw) x y =
  Some (rescale_value (map_to_list CLASS_MAPPING) (scale_factor CLASS_MAPPING) r 0).
Proof.
  intros Hrect Hr. unfold visual_mask.
  apply pixel_rescale_items; [exact Hr|].
  eapply pixel_zeros_like; eassumption.
Qed.

Lemma class_ids k : is_class_id k -> In k [0; 1; 2; 3; 4; 5; 6; 7].
Proof.
  intros [class_name Hk]. apply elem_of_map_to_list in Hk.
  let items := eval vm_compute in (map_to_list CLASS_MAPPING) in
  change (map_to_list CLASS_MAPPING) with items in Hk.
  repeat (apply elem_of_cons in Hk as [Hk | Hk];
          [injection Hk as _ <-; simpl; tauto|]).
  inversion Hk.
Qed.

Lemma num_non_background_classes_eq : num_non_background_classes = 7.
Proof. reflexivity. Qed.

(** C7 (as amended).  In the viewable raster a pixel of class id 0 stays 0
    and a pixel of class id k > 0 becomes [int(k * (255 / n))], the product
    cut off towards zero and not rounded, where n = 7 is the number of
    non-background entries of the class table: 36, 72, 109, 145, 182, 218
    and 255 for the ids 1 to 7. *)
Theorem visual_mask_truncates (raw : mask) (x y k : Z) :
  rectangular raw ->
  pixel raw x y = Some k ->
  is_class_id k ->
  (k = 0 -> pixel (visual_mask raw) x y = Some 0) /\
  (0 < k ->
   pixel (visual_mask raw) x y =
     Some (Py.int (inject_Z k * (255 / inject_Z num_non_background_classes))) /\
   Py.int (inject_Z k * (255 / inject_Z num_non_background_classes)) = 255 * k / 7).
Proof.
  intros Hrect Hk Hid.
  rewrite (pixel_visual_mask raw x y k Hrect Hk).
  apply class_ids in Hid. simpl in Hid.
  split.
  - intros ->. reflexivity.
  - intros Hpos.
    destruct Hid as [<- | [<- | [<- | [<- | [<- | [<- | [<- | [<- | []]]]]]]]];
      try lia; split; reflexivity.
Qed.

(** C7, as stated, fails: a pixel of class id 2 becomes 72, while
    round(2 * 255 / 7) is 73. *)
Lemma visual_mask_does_not_round :
  ~ (forall raw x y k,
       rectangular raw -> pixel raw x y = Some k -> is_class_id k -> 0 < k ->
       pixel (visual_mask raw) x y =
         Some (Py.round (inject_Z k * 255 / inject_Z num_non_background_classes))).
Proof.
  intros H.
  specialize (H [[2]] 0 0 2).
  assert (rectangular [[2]]) as Hrect by (repeat constructor).
  assert (is_class_id 2) as Hid by (exists "object"%string; reflexivity).
  specialize (H Hrect eq_refl Hid ltac:(lia)).
  vm_compute in H. discriminate.
Qed.

(** *** Concrete instances *)

Lemma visual_mask_truncates_witness :
  rectangular [[0; 1; 2]] /\ pixel [[0; 1; 2]] 2 0 = Some 2 /\ is_class_id 2 /\
  (2 = 0 -> pixel (visual_mask [[0; 1; 2]]) 2 0 = Some 0) /\
  (0 < 2 ->
   pixel (visual_mask [[0; 1; 2]]) 2 0 =
     Some (Py.int (inject_Z 2 * (255 / inject_Z num_non_background_classes))) /\
   Py.int (inject_Z 2 * (255 / inject_Z num_non_background_classes)) = 255 * 2 / 7).
Proof.
  assert (rectangular [[0; 1; 2]]) as Hrect by (repeat constructor).
  assert (is_class_id 2) as Hid by (exists "object"%string; reflexivity).
  split; [exact Hrect|]. split; [reflexivity|]. split; [exact Hid|].
  exact (visual_mask_truncates [[0; 1; 2]] 2 0 2 Hrect eq_refl Hid).
Defined.


Definition lines_rectangle : annotation :=
  {| label := Some "lines"%string; type := Some "rectangle"%string;
     coordinates_original := Some [Scalar 10; Scalar 10; Scalar 50; Scalar 50] |}.


End MaskGeneratorSpec.

(** ** The mask-to-annotation converter *)

Module JsonGeneratorSpec.

Import JsonGenerator.

Lemma cross_sum_single x y : cross_sum (x, y) [(x, y)] = 0.
Proof. simpl. lia. Qed.

Lemma contourArea_single x y : cv2_contourArea [(x, y)] = (0 / 2)%Q.
Proof.
  unfold cv2_contourArea. cbn [last]. rewrite cross_sum_single. reflexivity.
Qed.

Lemma contourArea_empty : cv2_contourArea [] = 0%Q.
Proof. reflexivity. Qed.

Lemma contour_annotations_app lbl contours1 contours2 :
  contour_annotations lbl (contours1 ++ contours2) =
  anns1 ← contour_annotations lbl contours1;
  anns2 ← contour_annotations lbl contours2;
  Some (anns1 ++ anns2).
Proof.
  induction contours1 as [|c contours1 IH]; simpl.
  - destruct (contour_annotations lbl contours2); reflexivity.
  - destruct (Qlt_le_dec (cv2_contourArea c) 4); [exact IH|].
    destruct (normalize (squeeze_tolist c)); [|reflexivity].
    rewrite IH. destruct (contour_annotations lbl contours1); [|reflexivity].
    simpl. destruct (contour_annotations lbl contours2); reflexivity.
Qed.

Lemma contour_annotations_single lbl x y contours :
  contour_annotations lbl ([(x, y)] :: contours) = contour_annotations lbl contours.
Proof.
  cbn [contour_annotations]. rewrite contourArea_single.
  destruct (Qlt_le_dec (0 / 2) 4) as [_ | Hle]; [reflexivity|].
  exfalso. revert Hle. apply Qlt_not_le. reflexivity.
Qed.

(** The loop over the contours never stops on an exception: the only
    coordinate list [normalize] fails on is that of an empty contour, whose
    area is 0. *)
Lemma contour_annotations_total lbl contours :
  is_Some (contour_annotations lbl contours).
Proof.
  induction contours as [|c contours [anns IH]]; simpl; [eauto|].
  destruct (Qlt_le_dec (cv2_contourArea c) 4) as [_ | Hle]; [eauto|].
  destruct c as [|p [|q c]]; simpl.
  - exfalso. revert Hle. apply Qlt_not_le. reflexivity.
  - rewrite IH. eauto.
  - rewrite IH. eauto.
Qed.

(** C9 (as amended).  A contour of a single point has area 0, which is
    below the noise threshold of 4, so the loop discards it: no annotation
    is emitted for it and no error arises.  The normalisation step itself
    turns the flat pair [x, y] such a contour squeezes to into the one-point
    sequence [[x, y]]. *)
Theorem single_point_contour_discarded (lbl : string) (x y : Z)
    (before after : list contour) :
  (cv2_contourArea [(x, y)] < 4)%Q /\
  contour_annotations lbl (before ++ [(x, y)] :: after) =
    contour_annotations lbl (before ++ after) /\
  is_Some (contour_annotations lbl (before ++ [(x, y)] :: after)) /\
  squeeze_tolist [(x, y)] = Flat x y /\
  normalize (squeeze_tolist [(x, y)]) = Some [(x, y)].
Proof.
  split; [rewrite contourArea_single; reflexivity|].
  split.
  - rewrite !contour_annotations_app, contour_annotations_single. reflexivity.
  - split; [apply contour_annotations_total|]. split; reflexivity.
Qed.

(** C9, as stated, fails: when the extraction yields the one-point contour
    [(1, 1)] for the class "lines", the conversion succeeds with no
    annotation at all, not with a one-point freehand annotation. *)
Lemma single_point_contour_not_emitted :
  ~ (forall (cv2_findContours : mask -> list contour) (mask_image : mask)
            (pixel_value : Z) (lbl : string) (x y : Z),
       cv2_findContours (cv2_inRange mask_image pixel_value pixel_value) = [[(x, y)]] ->
       exists data,
         convert_mask_to_json_data cv2_findContours mask_image [(pixel_value, lbl)]
           = Some data /\
         annotations data =
           [ {| label := lbl; type := "freehand";
                coordinates_original := [Point (inject_Z x) (inject_Z y)] |} ]).
Proof.
  intros H.
  destruct (H (fun _ => [[(1, 1)]]) [[0; 0]; [0; 1]] 1 "lines"%string 1 1 eq_refl)
    as (data & Hconv & Hann).
  vm_compute in Hconv. injection Hconv as <-. discriminate Hann.
Qed.

End JsonGeneratorSpec.

(** ** The labeling app *)

Module LabelingAppSpec.

Import LabelingApp.

Local Open Scope Q_scope.

(** Case analysis on Python's [max], [min] and [abs]. *)
Ltac py_cases :=
  unfold Py.max, Py.min, Py.abs in *;
  repeat match goal with
         | |- context [Qlt_le_dec ?a ?b] => destruct (Qlt_le_dec a b)
         | H : context [Qlt_le_dec ?a ?b] |- _ => destruct (Qlt_le_dec a b)
         end.

Lemma py_min_le_max a b : Py.min a b <= Py.max a b.
Proof. py_cases; lra. Qed.

(** *** Frame properties of [refresh_display] *)

Lemma refresh_display_frame s :
  let s' := refresh_display s in
  base_scale_factor (view s') = base_scale_factor (view s) /\
  zoom_level (view s') = zoom_level (view s) /\
  effective_scale (view s') = effective_scale (view s) /\
  view_offset_x (view s') = view_offset_x (view s) /\
  view_offset_y (view s') = view_offset_y (view s) /\
  annotations s' = annotations s /\
  has_unsaved_changes s' = has_unsaved_changes s /\
  image_files s' = image_files s /\
  current_image_path s' = current_image_path s /\
  original_pil_image s' = original_pil_image s.
Proof.
  unfold refresh_display.
  destruct (original_pil_image s) as [[img_w img_h]|] eqn:Himg; simpl;
    [|rewrite Himg; repeat split].
  match goal with |- context [if ?b then _ else _] => destruct b end; simpl;
    [rewrite Himg; repeat split|].
  repeat match goal with
         | |- context [crop_axis ?a ?b ?c ?d] => destruct (crop_axis a b c d)
         end; simpl.
  rewrite Himg. repeat split.
Qed.

(** *** Panning *)

(** The clamp keeps a value that is already between the limits, and moves
    any other value to the nearer limit. *)
Lemma pan_clamp_spec canvas_len full_eff_img_len new_view_offset :
  let limit2 := inject_Z canvas_len - full_eff_img_len in
  let lo := Py.min 0 limit2 in
  let hi := Py.max 0 limit2 in
  let r := pan_clamp canvas_len full_eff_img_len new_view_offset in
  lo <= r <= hi /\
  (lo <= new_view_offset <= hi -> r == new_view_offset) /\
  (new_view_offset < lo -> r == lo) /\
  (hi < new_view_offset -> r == hi).
Proof.
  unfold pan_clamp. py_cases; repeat split; intros; lra.
Qed.

Lemma on_pan_drag_offsets ev s img_w img_h :
  is_panning (pan s) = true ->
  original_pil_image s = Some (img_w, img_h) ->
  (0 < canvas_width s)%Z -> (0 < canvas_height s)%Z ->
  SCALE_EPSILON <= Py.abs (base_scale_factor (view s) * zoom_level (view s)) ->
  let scale := base_scale_factor (view s) * zoom_level (view s) in
  let s' := on_pan_drag ev s in
  view_offset_x (view s') =
    pan_clamp (canvas_width s) (inject_Z img_w * scale)
      (pan_initial_offset_x (pan s) +
       inject_Z (event_x_root ev - pan_start_x_view_root (pan s))) /\
  view_offset_y (view s') =
    pan_clamp (canvas_height s) (inject_Z img_h * scale)
      (pan_initial_offset_y (pan s) +
       inject_Z (event_y_root ev - pan_start_y_view_root (pan s))).
Proof.
  intros Hpan Himg Hcw Hch Hscale scale s'. subst s'. unfold on_pan_drag.
  rewrite Hpan, Himg.
  destruct (Qlt_le_dec _ SCALE_EPSILON) as [Hlt | _]; [lra|].
  destruct (canvas_width s <=? 0)%Z eqn:Ew; [apply Z.leb_le in Ew; lia|].
  destruct (canvas_height s <=? 0)%Z eqn:Eh; [apply Z.leb_le in Eh; lia|].
  cbn [orb].
  match goal with |- context [refresh_display ?t] =>
    destruct (refresh_display_frame t) as (_ & _ & _ & Hx & Hy & _) end.
  rewrite Hx, Hy. split; reflexivity.
Qed.

(** C4 (as amended).  With an image loaded, a positive canvas size and an
    effective scale of at least 1e-9 in absolute value, a pan gesture (press,
    then drag) adds the pointer displacement to [view_offset] and clamps
    each axis on its own into [min(0, canvas - extent), max(0, canvas -
    extent)], for any displacement.  When the scaled image is smaller than
    the canvas along an axis the two bounds are 0 and canvas - extent, which
    differ: the offset still follows the pointer between them. *)
Theorem pan_clamps_each_axis (s : app) (ev0 ev1 : event) (img_w img_h : Z) :
  original_pil_image s = Some (img_w, img_h) ->
  (0 < canvas_width s)%Z -> (0 < canvas_height s)%Z ->
  SCALE_EPSILON <= Py.abs (base_scale_factor (view s) * zoom_level (view s)) ->
  let scale := base_scale_factor (view s) * zoom_level (view s) in
  let s' := on_pan_drag ev1 (on_pan_press ev0 s) in
  let limit_x := inject_Z (canvas_width s) - inject_Z img_w * scale in
  let limit_y := inject_Z (canvas_height s) - inject_Z img_h * scale in
  let new_x := view_offset_x (view s) + inject_Z (event_x_root ev1 - event_x_root ev0) in
  let new_y := view_offset_y (view s) + inject_Z (event_y_root ev1 - event_y_root ev0) in
  (Py.min 0 limit_x <= view_offset_x (view s') <= Py.max 0 limit_x /\
   Py.min 0 limit_y <= view_offset_y (view s') <= Py.max 0 limit_y) /\
  (Py.min 0 limit_x <= new_x <= Py.max 0 limit_x -> view_offset_x (view s') == new_x) /\
  (Py.min 0 limit_y <= new_y <= Py.max 0 limit_y -> view_offset_y (view s') == new_y) /\
  (new_x < Py.min 0 limit_x -> view_offset_x (view s') == Py.min 0 limit_x) /\
  (Py.max 0 limit_x < new_x -> view_offset_x (view s') == Py.max 0 limit_x) /\
  (new_y < Py.min 0 limit_y -> view_offset_y (view s') == Py.min 0 limit_y) /\
  (Py.max 0 limit_y < new_y -> view_offset_y (view s') == Py.max 0 limit_y) /\
  (0 <= limit_x -> Py.min 0 limit_x == 0 /\ Py.max 0 limit_x == limit_x) /\
  (0 <= limit_y -> Py.min 0 limit_y == 0 /\ Py.max 0 limit_y == limit_y) /\
  (0 < limit_x -> Py.min 0 limit_x < Py.max 0 limit_x) /\
  (0 < limit_y -> Py.min 0 limit_y < Py.max 0 limit_y).
Proof.
  intros Himg Hcw Hch Hscale scale s' limit_x limit_y new_x new_y.
  assert (is_panning (pan (on_pan_press ev0 s)) = true) as Hpan
    by (unfold on_pan_press; rewrite Himg; reflexivity).
  assert (original_pil_image (on_pan_press ev0 s) = Some (img_w, img_h)) as Himg'
    by (unfold on_pan_press; rewrite Himg; exact Himg).
  destruct (on_pan_drag_offsets ev1 (on_pan_press ev0 s) img_w img_h Hpan Himg')
    as [Hx Hy].
  1-3: unfold on_pan_press; rewrite Himg; simpl; assumption.
  fold s' in Hx, Hy.
  unfold on_pan_press in Hx, Hy; rewrite Himg in Hx, Hy; simpl in Hx, Hy.
  fold scale in Hx, Hy. fold new_x in Hx. fold new_y in Hy.
  rewrite Hx, Hy.
  destruct (pan_clamp_spec (canvas_width s) (inject_Z img_w * scale) new_x)
    as (Hbx & Hinx & Hlox & Hhix).
  destruct (pan_clamp_spec (canvas_height s) (inject_Z img_h * scale) new_y)
    as (Hby & Hiny & Hloy & Hhiy).
  fold limit_x in Hbx, Hinx, Hlox, Hhix. fold limit_y in Hby, Hiny, Hloy, Hhiy.
  repeat split; try tauto; try (intros; py_cases; lra).
Qed.

(** A session used for concrete instances: a 50 x 50 image shown at scale 1
    in the middle of a 100 x 100 canvas. *)
Definition small_image_view : view_state :=
  {| base_scale_factor := 1; zoom_level := 1; effective_scale := 1;
     view_offset_x := 25; view_offset_y := 25;
     last_crop_box_original_coords := Some (0, 0, 50, 50)%Z |}.

Definition idle_pan : pan_state :=
  {| pan_start_x_view_root := 0; pan_start_y_view_root := 0;
     pan_initial_offset_x := 0; pan_initial_offset_y := 0; is_panning := false |}.

Definition idle_drawing : drawing_state :=
  {| start_x_canvas := None; start_y_canvas := None;
     current_freehand_points_canvas := [] |}.

Definition small_image_app : app :=
  {| image_files := ["/data/a.png"%string];
     current_image_path := Some "/data/a.png"%string;
     original_pil_image := Some (50, 50)%Z;
     annotations := [];
     has_unsaved_changes := false;
     view := small_image_view; pan := idle_pan; drawing := idle_drawing;
     canvas_width := 100; canvas_height := 100;
     drawing_tool_var := "rectangle"; current_class_var := "object" |}.

Definition pointer (x y : Z) : event :=
  {| event_x := x; event_y := y; event_x_root := x; event_y_root := y |}.

Lemma pan_clamps_each_axis_witness :
  original_pil_image small_image_app = Some (50, 50)%Z /\
  view_offset_x (view (on_pan_drag (pointer 10 0) (on_pan_press (pointer 0 0)
                                                    small_image_app))) == 35.
Proof.
  split; [reflexivity|].
  destruct (pan_clamps_each_axis small_image_app (pointer 0 0) (pointer 10 0) 50 50)
    as (_ & Hx & _).
  - reflexivity.
  - reflexivity.
  - reflexivity.
  - vm_compute. discriminate.
  - rewrite Hx.
    + reflexivity.
    + split; vm_compute; discriminate.
Defined.

(** C4, as stated, fails in its last part: the 50-pixel image above is
    smaller than the 100-pixel canvas, and dragging by 10 pixels moves its
    offset from 25 to 35. *)
Lemma pan_moves_small_image :
  ~ (forall (s : app) (ev0 ev1 : event) (img_w img_h : Z),
       original_pil_image s = Some (img_w, img_h) ->
       (0 < canvas_width s)%Z -> (0 < canvas_height s)%Z ->
       0 < base_scale_factor (view s) * zoom_level (view s) ->
       inject_Z img_w * (base_scale_factor (view s) * zoom_level (view s))
         < inject_Z (canvas_width s) ->
       view_offset_x (view (on_pan_drag ev1 (on_pan_press ev0 s)))
         == view_offset_x (view s)).
Proof.
  intros H.
  specialize (H small_image_app (pointer 0 0) (pointer 10 0) 50%Z 50%Z eq_refl
                eq_refl eq_refl eq_refl eq_refl).
  vm_compute in H. discriminate H.
Qed.

(** *** Coordinate mapping *)

Lemma inject_Z_pos z : (0 < z)%Z -> 0 < inject_Z z.
Proof. intros H. change 0 with (inject_Z 0). rewrite <- Zlt_Qlt. exact H. Qed.

(** One axis of the two mappings: a canvas abscissa is sent into the crop
    box, and the point of the crop box is sent back to the same abscissa. *)
Lemma axis_roundtrip (c : Q) (canvas_len crop_1 crop_2 : Z) :
  (0 < canvas_len)%Z -> (crop_1 < crop_2)%Z ->
  0 <= c <= inject_Z canvas_len ->
  let o := inject_Z crop_1 + c / inject_Z canvas_len * inject_Z (crop_2 - crop_1) in
  inject_Z crop_1 <= o <= inject_Z crop_2 /\
  (o - inject_Z crop_1) / inject_Z (crop_2 - crop_1) * inject_Z canvas_len == c.
Proof.
  intros Hlen Hcrop Hc o.
  pose proof (inject_Z_pos canvas_len Hlen) as Hl.
  assert (0 < inject_Z (crop_2 - crop_1)) as Hw by (apply inject_Z_pos; lia).
  assert (inject_Z crop_2 == inject_Z crop_1 + inject_Z (crop_2 - crop_1)) as Hsum.
  { rewrite <- inject_Z_plus. replace (crop_1 + (crop_2 - crop_1))%Z with crop_2 by lia.
    reflexivity. }
  set (w := inject_Z (crop_2 - crop_1)) in *.
  set (l := inject_Z canvas_len) in *.
  assert (0 <= c / l) as Hp0.
  { apply Qle_shift_div_l; [exact Hl|]. lra. }
  assert (c / l <= 1) as Hp1.
  { apply Qle_shift_div_r; [exact Hl|]. lra. }
  assert (0 <= c / l * w) as Hq0.
  { apply Qmult_le_0_compat; lra. }
  assert (c / l * w <= w) as Hq1.
  { assert (c / l * w <= 1 * w) by (apply Qmult_le_compat_r; lra). lra. }
  split.
  - subst o. lra.
  - subst o. field. split; lra.
Qed.

(** C5.  In a view with an image loaded, a crop box of positive extent, a
    positive canvas size and an effective scale that is not degenerate
    (at least 1e-9 in absolute value), mapping a point of the canvas to
    original coordinates and back is defined and returns the point within
    one pixel on each axis (exactly, in exact arithmetic). *)
Theorem view_roundtrip_within_one_pixel (s : app) (x y : Q)
    (crop_ox1 crop_oy1 crop_ox2 crop_oy2 : Z) :
  is_Some (original_pil_image s) ->
  last_crop_box_original_coords (view s) = Some (crop_ox1, crop_oy1, crop_ox2, crop_oy2) ->
  (crop_ox1 < crop_ox2)%Z -> (crop_oy1 < crop_oy2)%Z ->
  (0 < canvas_width s)%Z -> (0 < canvas_height s)%Z ->
  SCALE_EPSILON <= Py.abs (effective_scale (view s)) ->
  0 <= x <= inject_Z (canvas_width s) ->
  0 <= y <= inject_Z (canvas_height s) ->
  exists vx vy,
    original_to_view_coords s (view_to_original_coords s x y).1
                              (view_to_original_coords s x y).2 = Some (vx, vy) /\
    Qabs (vx - x) <= 1 /\ Qabs (vy - y) <= 1 /\ vx == x /\ vy == y.
Proof.
  intros [img Himg] Hbox Hx12 Hy12 Hcw Hch Hscale Hx Hy.
  destruct (axis_roundtrip x (canvas_width s) crop_ox1 crop_ox2 Hcw Hx12 Hx)
    as [[Hxlo Hxhi] Hxback].
  destruct (axis_roundtrip y (canvas_height s) crop_oy1 crop_oy2 Hch Hy12 Hy)
    as [[Hylo Hyhi] Hyback].
  unfold view_to_original_coords, original_to_view_coords.
  rewrite Himg, Hbox.
  destruct (Qlt_le_dec (Py.abs (effective_scale (view s))) SCALE_EPSILON) as [Hlt | _];
    [lra|].
  destruct (canvas_width s <=? 0)%Z eqn:Ecw; [apply Z.leb_le in Ecw; lia|].
  destruct (canvas_height s <=? 0)%Z eqn:Ech; [apply Z.leb_le in Ech; lia|].
  destruct (crop_ox2 - crop_ox1 <=? 0)%Z eqn:Eow; [apply Z.leb_le in Eow; lia|].
  destruct (crop_oy2 - crop_oy1 <=? 0)%Z eqn:Eoh; [apply Z.leb_le in Eoh; lia|].
  cbn [orb fst snd].
  assert (0 < SCALE_EPSILON) as Heps by reflexivity.
  rewrite !(proj2 (Qle_bool_iff _ _)) by lra.
  cbn [andb].
  eexists _, _. split; [reflexivity|].
  repeat split; try assumption.
  - apply Qabs_Qle_condition. lra.
  - apply Qabs_Qle_condition. lra.
Qed.

(** The crop box [refresh_display] leaves behind always meets the
    conditions above: it is only set when the canvas is laid out and the
    scale is not degenerate, and it has positive extent inside the image. *)
Lemma crop_axis_positive img_len canvas_len offset scale :
  (1 <= img_len)%Z ->
  (0 <= (crop_axis img_len canvas_len offset scale).1
     < (crop_axis img_len canvas_len offset scale).2)%Z /\
  ((crop_axis img_len canvas_len offset scale).2 <= img_len)%Z.
Proof.
  intros Hlen. unfold crop_axis.
  generalize (Py.round (- offset / scale)) as a.
  generalize (Py.round (inject_Z canvas_len / scale)) as b.
  intros b a. cbn [fst snd].
  repeat match goal with
         | |- context [(?u <=? ?v)%Z] => destruct (Z.leb_spec u v)
         | |- context [(?u <? ?v)%Z] => destruct (Z.ltb_spec u v)
         end; lia.
Qed.

Lemma refresh_display_crop_box_valid s img_w img_h x1 y1 x2 y2 :
  original_pil_image s = Some (img_w, img_h) ->
  (1 <= img_w)%Z -> (1 <= img_h)%Z ->
  last_crop_box_original_coords (view (refresh_display s)) = Some (x1, y1, x2, y2) ->
  (x1 < x2)%Z /\ (y1 < y2)%Z /\
  (0 < canvas_width (refresh_display s))%Z /\
  (0 < canvas_height (refresh_display s))%Z /\
  SCALE_EPSILON <= Py.abs (effective_scale (view (refresh_display s))).
Proof.
  intros Himg Hw Hh. unfold refresh_display. rewrite Himg.
  destruct (canvas_width s <=? 1)%Z eqn:Ecw; [discriminate|].
  destruct (canvas_height s <=? 1)%Z eqn:Ech; [discriminate|].
  destruct (Qlt_le_dec _ SCALE_EPSILON) as [? | Hscale]; [discriminate|].
  cbn [orb].
  pose proof (crop_axis_positive img_w (canvas_width s) (view_offset_x (view s))
                (effective_scale (view s)) Hw) as Hx.
  pose proof (crop_axis_positive img_h (canvas_height s) (view_offset_y (view s))
                (effective_scale (view s)) Hh) as Hy.
  destruct (crop_axis img_w _ _ _) as [a1 a2], (crop_axis img_h _ _ _) as [b1 b2].
  simpl in *. intros [= <- <- <- <-].
  apply Z.leb_gt in Ecw, Ech. repeat split; try lia. exact Hscale.
Qed.

Lemma small_image_app_displayed : refresh_display small_image_app = small_image_app.
Proof. reflexivity. Qed.

Lemma view_roundtrip_within_one_pixel_witness :
  exists vx vy,
    original_to_view_coords small_image_app
      (view_to_original_coords small_image_app 30 40).1
      (view_to_original_coords small_image_app 30 40).2 = Some (vx, vy) /\
    Qabs (vx - 30) <= 1 /\ Qabs (vy - 40) <= 1 /\ vx == 30 /\ vy == 40.
Proof.
  apply (view_roundtrip_within_one_pixel small_image_app 30 40 0 0 50 50).
  - exists (50, 50)%Z. reflexivity.
  - reflexivity.
  - reflexivity.
  - reflexivity.
  - reflexivity.
  - reflexivity.
  - vm_compute. discriminate.
  - split; vm_compute; discriminate.
  - split; vm_compute; discriminate.
Defined.

(** *** Zooming *)

(** When the clamped change of zoom is below the threshold, [adjust_zoom]
    returns before it touches the scale, the offsets or the crop box; the
    zoom level itself already holds the clamped value. *)
Lemma adjust_zoom_below_epsilon factor canvas_x_root canvas_y_root s :
  let new_zoom_level :=
    Py.max MIN_ZOOM_LEVEL (Py.min (zoom_level (view s) * factor) MAX_ZOOM_LEVEL) in
  is_Some (original_pil_image s) ->
  SCALE_EPSILON <= Py.abs (base_scale_factor (view s)) ->
  SCALE_EPSILON <= Py.abs (base_scale_factor (view s) * zoom_level (view s)) ->
  (1 < canvas_width s)%Z -> (1 < canvas_height s)%Z ->
  Py.abs (new_zoom_level - zoom_level (view s)) < ZOOM_EPSILON ->
  adjust_zoom factor canvas_x_root canvas_y_root s
  = set_view (set_zoom_level new_zoom_level (view s)) s.
Proof.
  intros new_zoom_level [img Himg] Hbase Hscale Hcw Hch Hsmall.
  unfold adjust_zoom. rewrite Himg.
  destruct (Qlt_le_dec (Py.abs (base_scale_factor (view s))) SCALE_EPSILON); [lra|].
  destruct (Qlt_le_dec (Py.abs (base_scale_factor (view s) * zoom_level (view s)))
              SCALE_EPSILON); [lra|].
  destruct (canvas_width s <=? 1)%Z eqn:Ecw; [apply Z.leb_le in Ecw; lia|].
  destruct (canvas_height s <=? 1)%Z eqn:Ech; [apply Z.leb_le in Ech; lia|].
  cbn [orb]. cbn [view set_view zoom_level set_zoom_level].
  fold new_zoom_level.
  destruct (Qlt_le_dec (Py.abs (new_zoom_level - zoom_level (view s))) ZOOM_EPSILON);
    [reflexivity | lra].
Qed.

(** A view zoomed to 99.999999, one wheel notch below the upper bound. *)
Definition near_max_zoom_app : app :=
  set_view {| base_scale_factor := 1; zoom_level := 99999999 # 1000000;
              effective_scale := 99999999 # 1000000;
              view_offset_x := 0; view_offset_y := 0;
              last_crop_box_original_coords := Some (0, 0, 1, 1)%Z |}
           small_image_app.

(** C6.  The code at a failing input: one wheel notch (factor 1.04) on the
    view above clamps the zoom to 100, a change of 1e-6, below the
    threshold 1e-5.  [adjust_zoom] returns early, yet [zoom_level] has
    moved to 100, while [effective_scale] keeps the old value and no longer
    equals [base_scale_factor * zoom_level]. *)
Theorem adjust_zoom_below_epsilon_moves_zoom_level :
  let s := near_max_zoom_app in
  let s' := adjust_zoom ZOOM_WHEEL_FACTOR (Some 50) (Some 50) s in
  Py.abs (zoom_level (view s') - zoom_level (view s)) < ZOOM_EPSILON /\
  zoom_level (view s') = MAX_ZOOM_LEVEL /\
  ~ zoom_level (view s') == zoom_level (view s) /\
  effective_scale (view s') = effective_scale (view s) /\
  view_offset_x (view s') = view_offset_x (view s) /\
  view_offset_y (view s') = view_offset_y (view s) /\
  ~ effective_scale (view s') == base_scale_factor (view s') * zoom_level (view s').
Proof.
  cbv zeta. repeat split; try reflexivity; vm_compute; discriminate.
Qed.

(** *** The annotation dictionary *)

Lemma dict_get_set_eq {V : Type} (d : list (string * V)) k v :
  dict_get (dict_set d k v) k = Some v.
Proof.
  induction d as [|[k' v'] d IH]; simpl.
  - rewrite String.eqb_refl. reflexivity.
  - destruct (String.eqb k' k) eqn:E; simpl.
    + rewrite String.eqb_refl. reflexivity.
    + rewrite E. exact IH.
Qed.

Lemma dict_get_set_ne {V : Type} (d : list (string * V)) k k' v :
  k <> k' -> dict_get (dict_set d k v) k' = dict_get d k'.
Proof.
  intros Hne. induction d as [|[k0 v0] d IH]; simpl.
  - apply String.eqb_neq in Hne. rewrite Hne. reflexivity.
  - destruct (String.eqb k0 k) eqn:E; simpl.
    + apply String.eqb_eq in E. subst k0.
      apply String.eqb_neq in Hne. rewrite Hne. reflexivity.
    + rewrite IH. reflexivity.
Qed.

Lemma dict_set_keys {V : Type} (d : list (string * V)) k v :
  is_Some (dict_get d k) -> map fst (dict_set d k v) = map fst d.
Proof.
  induction d as [|[k' v'] d IH]; simpl.
  - intros [? [=]].
  - destruct (String.eqb k' k) eqn:E; simpl.
    + apply String.eqb_eq in E. subst k'. reflexivity.
    + intros H. rewrite IH by exact H. reflexivity.
Qed.

Lemma elem_of_dict_set {V : Type} (d : list (string * V)) k v :
  (k, v) ∈ dict_set d k v.
Proof.
  induction d as [|[k' v'] d IH]; simpl.
  - apply elem_of_cons. left. reflexivity.
  - destruct (String.eqb k' k); apply elem_of_cons; [left; reflexivity | right; exact IH].
Qed.

(** After [append_annotation] the new annotation is the last one of the
    image's list. *)
Lemma append_annotation_lookup d img_name size ann :
  exists entry,
    dict_get (append_annotation d img_name size ann) img_name = Some entry /\
    AnnotationFile.annotations entry =
      AnnotationFile.annotations
        (default {| AnnotationFile.annotations := []; original_size := size |}
                 (dict_get d img_name)) ++ [ann].
Proof.
  unfold append_annotation. eexists. split; [apply dict_get_set_eq|]. reflexivity.
Qed.

(** *** Releasing the pointer *)

(** With the identity for [rnd], the mapping of the release handler is the
    mapping in exact arithmetic. *)
Lemma view_to_original_coords_fl_exact s x y :
  view_to_original_coords_fl (fun q => q) s x y = view_to_original_coords s x y.
Proof. reflexivity. Qed.

Lemma gesture_coords_rectangle rnd hypot s start_x start_y end_x end_y :
  drawing_tool_var s = "rectangle"%string ->
  let p1 := view_to_original_coords_fl rnd s start_x start_y in
  let p2 := view_to_original_coords_fl rnd s end_x end_y in
  gesture_coords rnd hypot s start_x (Some start_y) end_x end_y =
  Some (if Qle_bool 1 (Py.abs (rnd (p1.1 - p2.1))) &&
           Qle_bool 1 (Py.abs (rnd (p1.2 - p2.2)))
        then [Scalar (Py.min p1.1 p2.1); Scalar (Py.min p1.2 p2.2);
              Scalar (Py.max p1.1 p2.1); Scalar (Py.max p1.2 p2.2)]
        else []).
Proof.
  intros Htool. unfold gesture_coords. rewrite Htool.
  change (String.eqb "rectangle" "rectangle") with true. cbv iota zeta.
  destruct (view_to_original_coords_fl rnd s start_x start_y) as [ox1 oy1].
  destruct (view_to_original_coords_fl rnd s end_x end_y) as [ox2 oy2].
  cbn [fst snd]. destruct (_ && _)%bool; reflexivity.
Qed.

(** C10 (as amended).  A rectangle that a release appends to the store is
    stored as [min x, min y, max x, max y] of the two corners of the
    gesture mapped to the image, so x1 <= x2 and y1 <= y2, and its extent
    on each axis as the handler computes it, the float [abs(x1 - x2)], is
    at least 1; a gesture whose computed extent is below 1 on some axis
    appends nothing.  In exact arithmetic the computed extent is the extent
    of the stored rectangle, which is then at least 1 itself. *)
Theorem released_rectangle_normalized (rnd : Q -> Q) (hypot : Q -> Q -> Q)
    (s s' : app) (ev : event) :
  drawing_tool_var s = "rectangle"%string ->
  on_mouse_release rnd hypot ev s = Some s' ->
  (annotations s' <> annotations s ->
   exists start_x start_y path entry',
     start_x_canvas (drawing s) = Some start_x /\
     start_y_canvas (drawing s) = Some start_y /\
     current_image_path s = Some path /\
     let p1 := view_to_original_coords_fl rnd s start_x start_y in
     let p2 := view_to_original_coords_fl rnd s
                 (canvasx (event_x ev)) (canvasx (event_y ev)) in
     let x1 := Py.min p1.1 p2.1 in
     let y1 := Py.min p1.2 p2.2 in
     let x2 := Py.max p1.1 p2.1 in
     let y2 := Py.max p1.2 p2.2 in
     dict_get (annotations s') (OsPath.basename path) = Some entry' /\
     AnnotationFile.annotations entry' =
       match dict_get (annotations s) (OsPath.basename path) with
       | Some entry => AnnotationFile.annotations entry
       | None => []
       end ++
       [ {| label := current_class_var s; type := "rectangle";
            coordinates_original := [Scalar x1; Scalar y1; Scalar x2; Scalar y2] |} ] /\
     x1 <= x2 /\ y1 <= y2 /\
     1 <= Py.abs (rnd (p1.1 - p2.1)) /\ 1 <= Py.abs (rnd (p1.2 - p2.2)) /\
     ((forall q, rnd q == q) -> 1 <= x2 - x1 /\ 1 <= y2 - y1)) /\
  (forall start_x start_y,
     start_x_canvas (drawing s) = Some start_x ->
     start_y_canvas (drawing s) = Some start_y ->
     let p1 := view_to_original_coords_fl rnd s start_x start_y in
     let p2 := view_to_original_coords_fl rnd s
                 (canvasx (event_x ev)) (canvasx (event_y ev)) in
     Py.abs (rnd (p1.1 - p2.1)) < 1 \/ Py.abs (rnd (p1.2 - p2.2)) < 1 ->
     annotations s' = annotations s).
Proof.
  intros Htool. unfold on_mouse_release.
  destruct (_ || _ || _)%bool eqn:Hguard.
  { intros [= <-]. split; [intros H; contradiction H; reflexivity | intros; reflexivity]. }
  destruct (String.eqb (current_class_var s) "") eqn:Hlbl.
  { intros [= <-]. split; [intros H; contradiction H; reflexivity | intros; reflexivity]. }
  apply orb_false_iff in Hguard as [_ Hstart].
  destruct (start_x_canvas (drawing s)) as [sx|] eqn:Hsx; [|discriminate].
  destruct (start_y_canvas (drawing s)) as [sy|] eqn:Hsy.
  2:{ unfold gesture_coords. rewrite Htool.
      change (String.eqb "rectangle" "rectangle") with true. cbv iota. discriminate. }
  change (default 0 (Some sx)) with sx.
  rewrite (gesture_coords_rectangle rnd hypot s sx sy _ _ Htool). cbv zeta.
  set (p1 := view_to_original_coords_fl rnd s sx sy).
  set (p2 := view_to_original_coords_fl rnd s (canvasx (event_x ev))
               (canvasx (event_y ev))).
  destruct (Qle_bool 1 (Py.abs (rnd (p1.1 - p2.1)))) eqn:Ex;
    [destruct (Qle_bool 1 (Py.abs (rnd (p1.2 - p2.2)))) eqn:Ey|]; cbn [andb].
  - apply Qle_bool_iff in Ex, Ey. rewrite Htool.
    destruct (current_image_path s) as [path|]; [|discriminate].
    intros Hres. split.
    + intros _. exists sx, sy, path. cbv zeta. fold p1 p2.
      assert (exists size,
                 s' = reset_drawing_state
                        (set_has_unsaved_changes true
                           (set_annotations
                              (append_annotation (annotations s) (OsPath.basename path)
                                 size
                                 {| label := current_class_var s; type := "rectangle";
                                    coordinates_original :=
                                      [Scalar (Py.min p1.1 p2.1);
                                       Scalar (Py.min p1.2 p2.2);
                                       Scalar (Py.max p1.1 p2.1);
                                       Scalar (Py.max p1.2 p2.2)] |}) s)))
        as [size ->].
      { destruct (dict_get (annotations s) (OsPath.basename path)) as [entry|];
          [|destruct (original_pil_image s) as [size|]; [|discriminate]];
          injection Hres as <-; eexists; reflexivity. }
      eexists. split; [reflexivity|]. split; [reflexivity|]. split; [reflexivity|].
      cbn [annotations reset_drawing_state set_drawing set_has_unsaved_changes
           set_annotations].
      split; [unfold append_annotation; apply dict_get_set_eq|].
      cbn [AnnotationFile.annotations].
      split.
      { destruct (dict_get (annotations s) (OsPath.basename path)); reflexivity. }
      split; [py_cases; lra|]. split; [py_cases; lra|].
      split; [exact Ex|]. split; [exact Ey|].
      intros Hexact.
      pose proof (Hexact (p1.1 - p2.1)) as Hdx. pose proof (Hexact (p1.2 - p2.2)) as Hdy.
      clear Hres. clearbody p1 p2. py_cases; split; lra.
    + intros start_x start_y [= <-] [= <-]. cbv zeta. fold p1 p2.
      intros [H | H]; lra.
  - intros [= <-]. split; [intros H; contradiction H; reflexivity | intros; reflexivity].
  - intros [= <-]. split; [intros H; contradiction H; reflexivity | intros; reflexivity].
Qed.

(** A gesture on the small image: press at (10, 10), release at (60, 60). *)
Definition pressed_app : app :=
  on_mouse_press (pointer 10 10) None false small_image_app.

(** That gesture stores the rectangle with the corners (5, 5) and
    (30, 30). *)
Lemma released_rectangle_normalized_witness :
  exists s' entry' x1 y1 x2 y2,
    on_mouse_release (fun q => q) (fun _ _ => 0) (pointer 60 60) pressed_app = Some s' /\
    dict_get (annotations s') "a.png" = Some entry' /\
    AnnotationFile.annotations entry' =
      [ {| label := "object"; type := "rectangle";
           coordinates_original := [Scalar x1; Scalar y1; Scalar x2; Scalar y2] |} ] /\
    x1 == 5 /\ y1 == 5 /\ x2 == 30 /\ y2 == 30 /\
    1 <= x2 - x1 /\ 1 <= y2 - y1.
Proof.
  destruct (on_mouse_release (fun q => q) (fun _ _ => 0) (pointer 60 60) pressed_app)
    as [s'|] eqn:Hrel; [|vm_compute in Hrel; discriminate].
  destruct (released_rectangle_normalized (fun q => q) (fun _ _ => 0) pressed_app s'
              (pointer 60 60) eq_refl Hrel) as [Hstored _].
  destruct Hstored
    as (start_x & start_y & path & entry' & Hsx & Hsy & Hpath & Hget & Hanns
        & _ & _ & _ & _ & Hextent).
  { vm_compute in Hrel. injection Hrel as <-. discriminate. }
  injection Hsx as <-. injection Hsy as <-. injection Hpath as <-.
  exists s', entry'. eexists _, _, _, _. split; [reflexivity|].
  split; [exact Hget|]. split; [exact Hanns|].
  split; [vm_compute; reflexivity|]. split; [vm_compute; reflexivity|].
  split; [vm_compute; reflexivity|]. split; [vm_compute; reflexivity|].
  apply Hextent. intros q. reflexivity.
Defined.

(** A 10 x 10 image filling a 100 x 100 canvas, the rectangle tool pressed
    at (2, 2). *)
Definition tenfold_app : app :=
  on_mouse_press (pointer 2 2) None false
    {| image_files := ["/data/a.png"%string];
       current_image_path := Some "/data/a.png"%string;
       original_pil_image := Some (10, 10)%Z;
       annotations := [];
       has_unsaved_changes := false;
       view := {| base_scale_factor := 10; zoom_level := 1; effective_scale := 10;
                  view_offset_x := 0; view_offset_y := 0;
                  last_crop_box_original_coords := Some (0, 0, 10, 10)%Z |};
       pan := idle_pan; drawing := idle_drawing;
       canvas_width := 100; canvas_height := 100;
       drawing_tool_var := "rectangle"; current_class_var := "object" |}.

(** C10, as stated, fails in binary64 arithmetic: released at (12, 12), the
    gesture above maps to the floats nearest to 0.2 and 1.2, whose
    difference rounds to 1.0 and passes the test, while the stored corners
    are 1 - 2^-54 apart. *)
Lemma released_rectangle_below_one_pixel :
  ~ (forall (hypot : Q -> Q -> Q) (s s' : app) (ev : event) (path : string)
            (entry' : annotation_set) (earlier : list annotation) (lbl : string)
            (x1 y1 x2 y2 : Q),
       drawing_tool_var s = "rectangle"%string ->
       on_mouse_release Py.binary64 hypot ev s = Some s' ->
       annotations s' <> annotations s ->
       current_image_path s = Some path ->
       dict_get (annotations s') (OsPath.basename path) = Some entry' ->
       AnnotationFile.annotations entry' =
         earlier ++
         [ {| label := lbl; type := "rectangle";
              coordinates_original := [Scalar x1; Scalar y1; Scalar x2; Scalar y2] |} ] ->
       x1 <= x2 /\ y1 <= y2 /\ 1 <= x2 - x1 /\ 1 <= y2 - y1).
Proof.
  intros H.
  assert (exists s' entry' x1 y1 x2 y2,
             on_mouse_release Py.binary64 (fun _ _ => 0) (pointer 12 12) tenfold_app
               = Some s' /\
             annotations s' <> annotations tenfold_app /\
             dict_get (annotations s') (OsPath.basename "/data/a.png") = Some entry' /\
             AnnotationFile.annotations entry' =
               [] ++
               [ {| label := "object"; type := "rectangle";
                    coordinates_original :=
                      [Scalar x1; Scalar y1; Scalar x2; Scalar y2] |} ] /\
             x2 - x1 == 1 - (1 # 18014398509481984))
    as (s' & entry' & x1 & y1 & x2 & y2 & Hrel & Hchanged & Hget & Hanns & Hgap).
  { eexists _, _, _, _, _, _. split; [vm_compute; reflexivity|].
    split; [vm_compute; discriminate|]. split; [vm_compute; reflexivity|].
    split; [reflexivity|]. vm_compute. reflexivity. }
  destruct (H (fun _ _ => 0) tenfold_app s' (pointer 12 12) "/data/a.png"%string
              entry' [] "object"%string x1 y1 x2 y2 eq_refl Hrel Hchanged eq_refl
              Hget Hanns) as (_ & _ & Hwide & _).
  rewrite Hgap in Hwide. revert Hwide. apply Qlt_not_le. reflexivity.
Qed.

(** *** Saving *)

Section save_loop.

Variable json_dir : string.

Local Abbreviation path_of item := (save_path_of json_dir (fst item)).

Lemma save_entry_frame w c item :
  locked (save_entry json_dir (w, c) item).1 = locked w /\
  makedirs_ok (save_entry json_dir (w, c) item).1 = makedirs_ok w.
Proof.
  unfold save_entry. cbn [fst snd].
  destruct (AnnotationFile.annotations item.2); repeat case_decide; split; reflexivity.
Qed.

Lemma save_entry_other w c item p :
  p <> path_of item ->
  files (save_entry json_dir (w, c) item).1 !! p = files w !! p.
Proof.
  intros Hne. unfold save_entry. cbn [fst snd].
  destruct (AnnotationFile.annotations item.2); repeat case_decide; cbn [fst files];
    try reflexivity.
  - apply lookup_delete_ne. congruence.
  - apply lookup_insert_ne. congruence.
Qed.

(** The iteration for one image, when its path is not locked: the file
    holds the record if it has annotations, and is absent otherwise. *)
Lemma save_entry_here w c item :
  path_of item ∉ locked w ->
  files (save_entry json_dir (w, c) item).1 !! path_of item =
  match AnnotationFile.annotations item.2 with
  | [] => None
  | _ => Some item.2
  end.
Proof.
  intros Hfree. unfold save_entry. cbn [fst snd].
  destruct (AnnotationFile.annotations item.2); repeat case_decide; cbn [fst files];
    try contradiction.
  - apply lookup_delete_eq.
  - match goal with H : ¬ is_Some _ |- _ => apply eq_None_not_Some in H; exact H end.
  - apply lookup_insert_eq.
Qed.

(** The iteration never creates a record without annotations. *)
Lemma save_entry_no_empty w c item p d :
  files (save_entry json_dir (w, c) item).1 !! p = Some d ->
  AnnotationFile.annotations d = [] ->
  files w !! p = Some d.
Proof.
  unfold save_entry. cbn [fst snd].
  destruct (AnnotationFile.annotations item.2) eqn:Hanns; repeat case_decide;
    cbn [fst files]; try (intros; assumption).
  - intros Hp _. apply lookup_delete_Some in Hp as [_ Hp]. exact Hp.
  - intros Hp Hd. apply lookup_insert_Some in Hp as [[_ <-] | [_ Hp]]; [|exact Hp].
    congruence.
Qed.

Lemma save_loop_frame items w c :
  locked (foldl (save_entry json_dir) (w, c) items).1 = locked w /\
  makedirs_ok (foldl (save_entry json_dir) (w, c) items).1 = makedirs_ok w.
Proof.
  revert w c. induction items as [|item items IH]; intros w c; cbn [foldl]; [auto|].
  destruct (save_entry json_dir (w, c) item) as [w1 c1] eqn:Hstep.
  destruct (IH w1 c1) as [-> ->].
  pose proof (save_entry_frame w c item) as Hf. rewrite Hstep in Hf. exact Hf.
Qed.

Lemma save_loop_other items w c p :
  p ∉ map (fun item => path_of item) items ->
  files (foldl (save_entry json_dir) (w, c) items).1 !! p = files w !! p.
Proof.
  revert w c. induction items as [|item items IH]; intros w c Hp; cbn [foldl]; [reflexivity|].
  cbn [map] in Hp. apply not_elem_of_cons in Hp as [Hne Hp].
  destruct (save_entry json_dir (w, c) item) as [w1 c1] eqn:Hstep.
  rewrite (IH w1 c1 Hp).
  pose proof (save_entry_other w c item p Hne) as Ho. rewrite Hstep in Ho. exact Ho.
Qed.

Lemma save_loop_here items w c item :
  NoDup (map (fun item => path_of item) items) ->
  item ∈ items ->
  path_of item ∉ locked w ->
  files (foldl (save_entry json_dir) (w, c) items).1 !! path_of item =
  match AnnotationFile.annotations item.2 with
  | [] => None
  | _ => Some item.2
  end.
Proof.
  revert w c. induction items as [|item0 items IH]; intros w c Hnd Hin Hfree; cbn [foldl].
  - inversion Hin.
  - cbn [map] in Hnd. apply NoDup_cons in Hnd as [Hfresh Hnd].
    destruct (save_entry json_dir (w, c) item0) as [w1 c1] eqn:Hstep.
    apply elem_of_cons in Hin as [-> | Hin].
    + rewrite (save_loop_other items w1 c1 _ Hfresh).
      pose proof (save_entry_here w c item0 Hfree) as Hh. rewrite Hstep in Hh. exact Hh.
    + apply IH; [exact Hnd | exact Hin |].
      pose proof (save_entry_frame w c item0) as [Hl _]. rewrite Hstep in Hl.
      simpl in Hl. rewrite Hl. exact Hfree.
Qed.

Lemma save_loop_no_empty items w c p d :
  files (foldl (save_entry json_dir) (w, c) items).1 !! p = Some d ->
  AnnotationFile.annotations d = [] ->
  files w !! p = Some d.
Proof.
  revert w c. induction items as [|item items IH]; intros w c Hp Hd; cbn [foldl] in *;
    [exact Hp|].
  destruct (save_entry json_dir (w, c) item) as [w1 c1] eqn:Hstep.
  specialize (IH w1 c1 Hp Hd).
  apply (save_entry_no_empty w c item p d); [|exact Hd].
  rewrite Hstep. exact IH.
Qed.

End save_loop.

(** The record file of every image of the store, in iteration order. *)
Definition record_paths (s : app) : list string :=
  map (fun item => save_path_of (json_dir_of s) (fst item)) (annotations s).

(** The directory after [save_annotations]. *)
Definition saved_world (s : app) (w : world) : world := (save_annotations s w).1.2.

Lemma saved_world_loop s w :
  image_files s <> [] -> makedirs_ok w = true ->
  saved_world s w =
  (foldl (save_entry (json_dir_of s))
         (w, {| saved_count := 0; deleted_count := 0; error_count := 0 |})
         (annotations s)).1.
Proof.
  intros Hfiles Hdir. unfold saved_world, save_annotations.
  destruct (image_files s) as [|first others]; [contradiction|].
  destruct (annotations s) as [|item items] eqn:Hanns; [reflexivity|].
  rewrite Hdir. destruct (foldl _ _ _) as [w' c]. reflexivity.
Qed.

Lemma save_annotations_files s w :
  image_files s <> [] -> makedirs_ok w = true ->
  NoDup (record_paths s) ->
  (forall p, p ∈ record_paths s -> p ∉ locked w) ->
  (forall img_basename ann_data,
      (img_basename, ann_data) ∈ annotations s ->
      files (saved_world s w) !! save_path_of (json_dir_of s) img_basename =
      match AnnotationFile.annotations ann_data with
      | [] => None
      | _ => Some ann_data
      end) /\
  (forall p, p ∉ record_paths s -> files (saved_world s w) !! p = files w !! p).
Proof.
  intros Hfiles Hdir Hnd Hfree. rewrite saved_world_loop by assumption. split.
  - intros img_basename ann_data Hin.
    apply (save_loop_here (json_dir_of s) (annotations s) w _ (img_basename, ann_data));
      [exact Hnd | exact Hin |].
    apply Hfree. unfold record_paths.
    apply (list_elem_of_fmap_2 (fun item => save_path_of (json_dir_of s) item.1) _ _ Hin).
  - intros p Hp. apply save_loop_other. exact Hp.
Qed.

Lemma save_annotations_no_empty s w p d :
  files (saved_world s w) !! p = Some d ->
  AnnotationFile.annotations d = [] ->
  files w !! p = Some d.
Proof.
  unfold saved_world, save_annotations.
  destruct (image_files s) as [|first others]; [intros; assumption|].
  destruct (annotations s) as [|item items] eqn:Hanns; [intros; assumption|].
  destruct (makedirs_ok w); [|intros; assumption].
  destruct (foldl _ _ _) as [w' c] eqn:Hloop. cbn [fst snd].
  intros Hp Hd.
  apply (save_loop_no_empty (json_dir_of s) (item :: items) w
           {| saved_count := 0; deleted_count := 0; error_count := 0 |} p d);
    [|exact Hd].
  rewrite Hloop. exact Hp.
Qed.

(** Deleting the only annotation of the current image leaves its entry in
    the store, with an empty list. *)
Lemma delete_last_annotation s path entry ann :
  current_image_path s = Some path ->
  dict_get (annotations s) (OsPath.basename path) = Some entry ->
  AnnotationFile.annotations entry = [ann] ->
  let s1 := delete_annotation 0 true s in
  annotations s1 =
    dict_set (annotations s) (OsPath.basename path)
      {| AnnotationFile.annotations := []; original_size := original_size entry |} /\
  image_files s1 = image_files s /\
  has_unsaved_changes s1 = true.
Proof.
  intros Hpath Hentry Hone. unfold delete_annotation.
  rewrite Hpath, Hentry, Hone. cbn [length andb Z.leb Z.ltb Z.compare Z.of_nat].
  change (0 <=? 0)%Z with true. change (0 <? Z.of_nat 1)%Z with true. cbn [andb].
  match goal with |- context [refresh_display ?t] =>
    destruct (refresh_display_frame t) as (_ & _ & _ & _ & _ & Ha & Hf & Hi & _) end.
  cbv zeta. rewrite Ha, Hf, Hi. repeat split.
Qed.

(** The directory while the loop of [save_annotations] runs, once the
    entries [items] have been handled. *)
Definition loop_world (s : app) (w : world) (items : list (string * annotation_set))
  : world :=
  (foldl (save_entry (json_dir_of s))
         (w, {| saved_count := 0; deleted_count := 0; error_count := 0 |})
         items).1.

Lemma loop_world_iteration s w before item :
  save_path_of (json_dir_of s) item.1 ∉ locked w ->
  files (loop_world s w (before ++ [item])) !! save_path_of (json_dir_of s) item.1 =
  match AnnotationFile.annotations item.2 with
  | [] => None
  | _ => Some item.2
  end.
Proof.
  intros Hfree. unfold loop_world. rewrite foldl_app. cbn [foldl].
  destruct (foldl (save_entry (json_dir_of s)) _ before) as [w1 c1] eqn:Hloop.
  apply save_entry_here.
  pose proof (save_loop_frame (json_dir_of s) before w
                {| saved_count := 0; deleted_count := 0; error_count := 0 |}) as [Hl _].
  rewrite Hloop in Hl. cbn [fst] in Hl. rewrite Hl. exact Hfree.
Qed.

(** C2 (as amended).  When saving proceeds (an image folder is open, the
    annotation directory can be created) and no file operation fails:
    the loop of [save_annotations] runs over the whole store, and its
    iteration for an image writes that image's record file when the
    annotation list is non-empty and leaves no record file for it when the
    list is empty.  The record file is named by the base name of the image
    without its extension, so "a.jpg" and "a.png" share "a.json".  Provided
    no two images of the store share a record file, this is the state of
    the directory after saving: a record file for every image with
    annotations, none for an image without, every other file untouched; in
    particular, after deleting the last annotation of the current image and
    saving, that image's record file does not exist.  Whatever the
    circumstances, saving never leaves a file with zero annotations that
    was not there before. *)
Theorem save_annotations_records (s : app) (w : world) :
  image_files s <> [] -> makedirs_ok w = true ->
  (forall p, p ∈ record_paths s -> p ∉ locked w) ->
  saved_world s w = loop_world s w (annotations s) /\
  (forall before item after,
      annotations s = before ++ item :: after ->
      files (loop_world s w (before ++ [item])) !! save_path_of (json_dir_of s) item.1 =
      match AnnotationFile.annotations item.2 with
      | [] => None
      | _ => Some item.2
      end) /\
  (NoDup (record_paths s) ->
   (forall img_basename ann_data,
       (img_basename, ann_data) ∈ annotations s ->
       AnnotationFile.annotations ann_data <> [] ->
       files (saved_world s w) !! save_path_of (json_dir_of s) img_basename
         = Some ann_data) /\
   (forall img_basename ann_data,
       (img_basename, ann_data) ∈ annotations s ->
       AnnotationFile.annotations ann_data = [] ->
       files (saved_world s w) !! save_path_of (json_dir_of s) img_basename = None) /\
   (forall p, p ∉ record_paths s -> files (saved_world s w) !! p = files w !! p) /\
   (forall path entry ann,
       current_image_path s = Some path ->
       dict_get (annotations s) (OsPath.basename path) = Some entry ->
       AnnotationFile.annotations entry = [ann] ->
       files (saved_world (delete_annotation 0 true s) w)
         !! save_path_of (json_dir_of s) (OsPath.basename path) = None)) /\
  (forall p d,
      files (saved_world s w) !! p = Some d ->
      AnnotationFile.annotations d = [] -> files w !! p = Some d).
Proof.
  intros Hfiles Hdir Hfree.
  split; [apply saved_world_loop; assumption|].
  split.
  { intros before item after Hsplit. apply loop_world_iteration.
    apply Hfree. unfold record_paths. rewrite Hsplit.
    apply (list_elem_of_fmap_2 (fun item => save_path_of (json_dir_of s) item.1)).
    apply elem_of_app. right. apply elem_of_cons. left. reflexivity. }
  split; [|apply save_annotations_no_empty].
  intros Hnd.
  destruct (save_annotations_files s w Hfiles Hdir Hnd Hfree) as [Hhere Hother].
  split; [|split; [|split]].
  - intros img_basename ann_data Hin Hne. rewrite (Hhere _ _ Hin).
    destruct (AnnotationFile.annotations ann_data); [contradiction | reflexivity].
  - intros img_basename ann_data Hin He. rewrite (Hhere _ _ Hin), He. reflexivity.
  - exact Hother.
  - intros path entry ann Hpath Hentry Hone.
    destruct (delete_last_annotation s path entry ann Hpath Hentry Hone)
      as (Hanns & Himgs & _).
    set (s1 := delete_annotation 0 true s) in *.
    assert (json_dir_of s1 = json_dir_of s) as Hjd
      by (unfold json_dir_of; rewrite Himgs; reflexivity).
    assert (record_paths s1 = record_paths s) as Hrp.
    { unfold record_paths. rewrite Hjd, Hanns.
      rewrite <- !(map_map fst (save_path_of (json_dir_of s))).
      rewrite dict_set_keys by (rewrite Hentry; eauto). reflexivity. }
    destruct (save_annotations_files s1 w) as [Hhere1 _].
    + rewrite Himgs. exact Hfiles.
    + exact Hdir.
    + rewrite Hrp. exact Hnd.
    + rewrite Hrp. exact Hfree.
    + rewrite <- Hjd.
      rewrite (Hhere1 (OsPath.basename path)
                 {| AnnotationFile.annotations := [];
                    original_size := original_size entry |}); [reflexivity|].
      rewrite Hanns. apply elem_of_dict_set.
Qed.

(** A session with two images: "a.png" carries one rectangle, "b.png" has
    had its annotations cleared; and a directory holding an older record
    for each. *)
Definition object_rectangle : annotation :=
  {| label := "object"; type := "rectangle";
     coordinates_original := [Scalar 5; Scalar 5; Scalar 30; Scalar 30] |}.

Definition record_a : annotation_set :=
  {| AnnotationFile.annotations := [object_rectangle]; original_size := (50, 50)%Z |}.

Definition record_b_cleared : annotation_set :=
  {| AnnotationFile.annotations := []; original_size := (50, 50)%Z |}.

Definition record_b_old : annotation_set :=
  {| AnnotationFile.annotations := [object_rectangle; object_rectangle];
     original_size := (50, 50)%Z |}.

Definition two_images_app : app :=
  {| image_files := ["/data/a.png"%string; "/data/b.png"%string];
     current_image_path := Some "/data/a.png"%string;
     original_pil_image := Some (50, 50)%Z;
     annotations := [("a.png"%string, record_a); ("b.png"%string, record_b_cleared)];
     has_unsaved_changes := true;
     view := small_image_view; pan := idle_pan; drawing := idle_drawing;
     canvas_width := 100; canvas_height := 100;
     drawing_tool_var := "rectangle"; current_class_var := "object" |}.

Definition writable_world : world :=
  {| files := {[ "/data/json_data/a.json"%string := record_b_old;
                 "/data/json_data/b.json"%string := record_b_old ]};
     locked := ∅; makedirs_ok := true |}.

Lemma save_annotations_records_witness :
  record_paths two_images_app
    = ["/data/json_data/a.json"%string; "/data/json_data/b.json"%string] /\
  files (saved_world two_images_app writable_world) !! "/data/json_data/a.json"%string
    = Some record_a /\
  files (saved_world two_images_app writable_world) !! "/data/json_data/b.json"%string
    = None /\
  files (saved_world (delete_annotation 0 true two_images_app) writable_world)
    !! "/data/json_data/a.json"%string = None.
Proof.
  assert (image_files two_images_app <> []) as Hfiles by discriminate.
  assert (NoDup (record_paths two_images_app)) as Hnd
    by (apply (bool_decide_unpack _); vm_compute; exact I).
  assert (forall p, p ∈ record_paths two_images_app -> p ∉ locked writable_world)
    as Hfree by (intros p _; apply not_elem_of_empty).
  destruct (save_annotations_records two_images_app writable_world Hfiles eq_refl
              Hfree) as (_ & _ & Hfinal & _).
  destruct (Hfinal Hnd) as (Hfull & Hempty & _ & Hlast).
  split; [reflexivity|]. split; [|split].
  - apply (Hfull "a.png"%string record_a); [|discriminate].
    apply elem_of_cons. left. reflexivity.
  - apply (Hempty "b.png"%string record_b_cleared); [|reflexivity].
    apply elem_of_cons. right. apply elem_of_cons. left. reflexivity.
  - apply (Hlast "/data/a.png"%string record_a object_rectangle); reflexivity.
Defined.

(** Two images of one base name.  In the first session "a.jpg" carries one
    rectangle and "a.png" has had its annotations cleared; in the second
    "a.jpg", the current image, carries one rectangle and so does "a.png". *)
Definition shared_name_app (record_png : annotation_set) : app :=
  {| image_files := ["/data/a.jpg"%string; "/data/a.png"%string];
     current_image_path := Some "/data/a.jpg"%string;
     original_pil_image := Some (50, 50)%Z;
     annotations := [("a.jpg"%string, record_a); ("a.png"%string, record_png)];
     has_unsaved_changes := true;
     view := small_image_view; pan := idle_pan; drawing := idle_drawing;
     canvas_width := 100; canvas_height := 100;
     drawing_tool_var := "rectangle"; current_class_var := "object" |}.

(** C2, as stated, fails when two images of the store share a record file,
    with no file operation failing.  Saving the first session writes
    "a.json" for "a.jpg" and then removes it for "a.png": an image with
    annotations is left without a record file.  In the second session,
    deleting the last annotation of "a.jpg" and saving removes "a.json" and
    then writes it again for "a.png": the record file still exists. *)
Lemma save_annotations_shared_record_file :
  ~ (forall (s : app) (w : world),
       image_files s <> [] -> makedirs_ok w = true ->
       (forall p, p ∈ record_paths s -> p ∉ locked w) ->
       forall img_basename ann_data,
         (img_basename, ann_data) ∈ annotations s ->
         AnnotationFile.annotations ann_data <> [] ->
         files (saved_world s w) !! save_path_of (json_dir_of s) img_basename
           = Some ann_data) /\
  ~ (forall (s : app) (w : world) (path : string) (entry : annotation_set)
            (ann : annotation),
       image_files s <> [] -> makedirs_ok w = true ->
       (forall p, p ∈ record_paths s -> p ∉ locked w) ->
       current_image_path s = Some path ->
       dict_get (annotations s) (OsPath.basename path) = Some entry ->
       AnnotationFile.annotations entry = [ann] ->
       files (saved_world (delete_annotation 0 true s) w)
         !! save_path_of (json_dir_of s) (OsPath.basename path) = None).
Proof.
  split; intros H.
  - assert (("a.jpg"%string, record_a) ∈ annotations (shared_name_app record_b_cleared))
      as Hin by (apply elem_of_cons; left; reflexivity).
    pose proof (H (shared_name_app record_b_cleared) writable_world
                  ltac:(discriminate) eq_refl
                  ltac:(intros p _; apply not_elem_of_empty)
                  "a.jpg"%string record_a Hin ltac:(discriminate)) as Hsaved.
    vm_compute in Hsaved. discriminate Hsaved.
  - pose proof (H (shared_name_app record_a) writable_world "/data/a.jpg"%string
                  record_a object_rectangle
                  ltac:(discriminate) eq_refl
                  ltac:(intros p _; apply not_elem_of_empty)
                  eq_refl eq_refl eq_refl) as Hsaved.
    vm_compute in Hsaved. discriminate Hsaved.
Qed.

(** *** The dirty flag *)

Lemma on_mouse_release_flag rnd hypot ev s s' :
  on_mouse_release rnd hypot ev s = Some s' ->
  annotations s' <> annotations s -> has_unsaved_changes s' = true.
Proof.
  unfold on_mouse_release.
  repeat match goal with
         | |- context [if ?b then _ else _] => destruct b
         | |- context [match ?o with Some _ => _ | None => _ end] => destruct o
         | |- context [match ?l with [] => _ | _ :: _ => _ end] => destruct l
         end;
    intros [= <-] Hchanged; try reflexivity; contradiction Hchanged; reflexivity.
Qed.

Lemma delete_annotation_flag index_to_delete confirm s :
  annotations (delete_annotation index_to_delete confirm s) <> annotations s ->
  has_unsaved_changes (delete_annotation index_to_delete confirm s) = true.
Proof.
  unfold delete_annotation.
  repeat match goal with
         | |- context [if ?b then _ else _] => destruct b
         | |- context [match ?o with Some _ => _ | None => _ end] => destruct o
         end;
    try (intros Hchanged; contradiction Hchanged; reflexivity).
  intros _.
  match goal with |- context [refresh_display ?t] =>
    destruct (refresh_display_frame t) as (_ & _ & _ & _ & _ & _ & Hf & _) end.
  rewrite Hf. reflexivity.
Qed.

Lemma clear_current_annotations_flag s s' :
  clear_current_annotations true s = Some s' ->
  is_Some (current_image_path s) ->
  has_unsaved_changes s' = true.
Proof.
  unfold clear_current_annotations. intros Hclear [path Hpath].
  rewrite Hpath in Hclear.
  destruct (dict_get (annotations s) (OsPath.basename path));
    [|destruct (original_pil_image s); [|discriminate]];
    injection Hclear as <-;
    match goal with |- context [refresh_display ?t] =>
      destruct (refresh_display_frame t) as (_ & _ & _ & _ & _ & _ & Hf & _) end;
    rewrite Hf; reflexivity.
Qed.

(** Once the loop over the store has run, the flag is cleared, whatever
    the count of failed operations. *)
Lemma save_annotations_flag s w :
  image_files s <> [] -> annotations s <> [] -> makedirs_ok w = true ->
  has_unsaved_changes (save_annotations s w).1.1 = false.
Proof.
  intros Hfiles Hanns Hdir. unfold save_annotations.
  destruct (image_files s); [contradiction|].
  destruct (annotations s); [contradiction|].
  rewrite Hdir. destruct (foldl _ _ _) as [w' c]. reflexivity.
Qed.

(** The directory of [writable_world] with the record file of "a.png"
    locked against writing. *)
Definition locked_world : world :=
  {| files := files writable_world;
     locked := {[ "/data/json_data/a.json"%string ]};
     makedirs_ok := true |}.

(** C3.  The code at a failing input: saving the two-image session into a
    directory where the record file of "a.png" cannot be written counts one
    failed operation and leaves the old file in place, and still clears
    [has_unsaved_changes]. *)
Theorem save_with_error_clears_flag :
  has_unsaved_changes two_images_app = true /\
  (save_annotations two_images_app locked_world).2 =
    SaveCompleteWithErrors
      {| saved_count := 0; deleted_count := 1; error_count := 1 |} /\
  files (saved_world two_images_app locked_world) !! "/data/json_data/a.json"%string
    = Some record_b_old /\
  has_unsaved_changes (save_annotations two_images_app locked_world).1.1 = false.
Proof.
  split; [reflexivity|]. split; [vm_compute; reflexivity|].
  split; [vm_compute; reflexivity|]. reflexivity.
Qed.

End LabelingAppSpec.

(** * Further parts of the programs *)

(** ** labeling_app.py: fitting, resizing, wheel zoom *)

Module LabelingAppView.

Import LabelingApp.

Definition set_base_scale_factor (v : Q) (vs : view_state) : view_state :=
  {| base_scale_factor := v; zoom_level := zoom_level vs;
     effective_scale := effective_scale vs; view_offset_x := view_offset_x vs;
     view_offset_y := view_offset_y vs;
     last_crop_box_original_coords := last_crop_box_original_coords vs |}.

(** [_calculate_base_scale_and_initial_offsets]: the answer and the state
    it leaves.  The base scale and the effective scale are assigned before
    the test on the effective scale. *)
Definition _calculate_base_scale_and_initial_offsets (s : app) : bool * app :=
  match original_pil_image s with
  | None => (false, s)
  | Some (original_width, original_height) =>
      if (original_width =? 0)%Z || (original_height =? 0)%Z then (false, s)
      else if (canvas_width s <=? 1)%Z || (canvas_height s <=? 1)%Z then (false, s)
      else
        let ratio_w := (inject_Z (canvas_width s) / inject_Z original_width)%Q in
        let ratio_h := (inject_Z (canvas_height s) / inject_Z original_height)%Q in
        let s1 :=
          set_view (set_base_scale_factor
                      (Py.min ratio_w ratio_h * INITIAL_MAGNIFICATION)%Q (view s)) s in
        let s2 :=
          set_view (set_effective_scale
                      (base_scale_factor (view s1) * zoom_level (view s1))%Q
                      (view s1)) s1 in
        if Qlt_le_dec (Py.abs (effective_scale (view s2))) SCALE_EPSILON
        then (false, s2)
        else
          let full_effective_width :=
            (inject_Z original_width * effective_scale (view s2))%Q in
          let full_effective_height :=
            (inject_Z original_height * effective_scale (view s2))%Q in
          (true,
           set_view (set_view_offset
                       ((inject_Z (canvas_width s) - full_effective_width) / 2)%Q
                       ((inject_Z (canvas_height s) - full_effective_height) / 2)%Q
                       (view s2)) s2)
  end.

Definition reset_view (s : app) : app :=
  let s1 := set_view (set_zoom_level 1%Q (view s)) s in
  refresh_display (_calculate_base_scale_and_initial_offsets s1).2.

(** [handle_resize].  The canvas size is read twice in the same call, with
    nothing in between, so both readings are the size the state holds. *)
Definition handle_resize (s : app) : app :=
  match is_panning (pan s), original_pil_image s with
  | false, Some (original_width_px, original_height_px) =>
      let current_eff_scale_before_resize :=
        (base_scale_factor (view s) * zoom_level (view s))%Q in
      if (canvas_width s <=? 1)%Z || (canvas_height s <=? 1)%Z ||
         (if Qlt_le_dec (Py.abs current_eff_scale_before_resize) SCALE_EPSILON
          then true else false)
      then reset_view s
      else
        let center_canvas_x_before := (inject_Z (canvas_width s) / 2)%Q in
        let center_canvas_y_before := (inject_Z (canvas_height s) / 2)%Q in
        let orig_center_x :=
          ((center_canvas_x_before - view_offset_x (view s))
             / current_eff_scale_before_resize)%Q in
        let orig_center_y :=
          ((center_canvas_y_before - view_offset_y (view s))
             / current_eff_scale_before_resize)%Q in
        if (original_width_px =? 0)%Z || (original_height_px =? 0)%Z then s
        else
          let ratio_w := (inject_Z (canvas_width s) / inject_Z original_width_px)%Q in
          let ratio_h := (inject_Z (canvas_height s) / inject_Z original_height_px)%Q in
          let s1 :=
            set_view (set_base_scale_factor
                        (Py.min ratio_w ratio_h * INITIAL_MAGNIFICATION)%Q (view s)) s in
          let s2 :=
            set_view (set_effective_scale
                        (base_scale_factor (view s1) * zoom_level (view s1))%Q
                        (view s1)) s1 in
          let s3 :=
            if Qlt_le_dec (Py.abs (effective_scale (view s2))) SCALE_EPSILON
            then
              let s2a := set_view (set_effective_scale (1 # 100) (view s2)) s2 in
              set_view (set_zoom_level
                          (if Qlt_le_dec SCALE_EPSILON
                                (Py.abs (base_scale_factor (view s2a)))
                           then (effective_scale (view s2a)
                                   / base_scale_factor (view s2a))%Q
                           else MIN_ZOOM_LEVEL)
                          (view s2a)) s2a
            else s2 in
          let new_center_canvas_x := (inject_Z (canvas_width s) / 2)%Q in
          let new_center_canvas_y := (inject_Z (canvas_height s) / 2)%Q in
          refresh_display
            (set_view (set_view_offset
                         (new_center_canvas_x - orig_center_x * effective_scale (view s3))%Q
                         (new_center_canvas_y - orig_center_y * effective_scale (view s3))%Q
                         (view s3)) s3)
  | _, _ => s
  end.

(** [on_mouse_wheel_zoom]: [delta] is [event.delta]. *)
Definition on_mouse_wheel_zoom (ev : event) (delta : Z) (s : app) : app :=
  if is_panning (pan s) then s
  else
    let factor := if (0 <? delta)%Z then ZOOM_WHEEL_FACTOR
                  else (1 / ZOOM_WHEEL_FACTOR)%Q in
    adjust_zoom factor (Some (inject_Z (event_x ev))) (Some (inject_Z (event_y ev))) s.

(** [on_scroll_zoom]: [num] is [event.num], 4 for scrolling up. *)
Definition on_scroll_zoom (ev : event) (num : Z) (s : app) : app :=
  if is_panning (pan s) then s
  else
    let factor := if (num =? 4)%Z then ZOOM_WHEEL_FACTOR
                  else (1 / ZOOM_WHEEL_FACTOR)%Q in
    adjust_zoom factor (Some (inject_Z (event_x ev))) (Some (inject_Z (event_y ev))) s.

End LabelingAppView.

(** ** labeling_app.py: moving between images *)

Module LabelingAppBrowse.

Import LabelingApp LabelingAppView.

(** The application object together with [current_image_index]. *)
Record browser : Type := {
  session : app;
  current_image_index : Z
}.

Definition set_current_image_path (v : option string) (s : app) : app :=
  {| image_files := image_files s; current_image_path := v;
     original_pil_image := original_pil_image s; annotations := annotations s;
     has_unsaved_changes := has_unsaved_changes s; view := view s;
     pan := pan s; drawing := drawing s; canvas_width := canvas_width s;
     canvas_height := canvas_height s; drawing_tool_var := drawing_tool_var s;
     current_class_var := current_class_var s |}.

Definition set_original_pil_image (v : option (Z * Z)) (s : app) : app :=
  {| image_files := image_files s; current_image_path := current_image_path s;
     original_pil_image := v; annotations := annotations s;
     has_unsaved_changes := has_unsaved_changes s; view := view s;
     pan := pan s; drawing := drawing s; canvas_width := canvas_width s;
     canvas_height := canvas_height s; drawing_tool_var := drawing_tool_var s;
     current_class_var := current_class_var s |}.

(** The record file an image is loaded from. *)
Definition json_path_of (current_image_path : string) : string :=
  let img_name := OsPath.basename current_image_path in
  let img_dir := OsPath.dirname current_image_path in
  let json_basename := (OsPath.splitext_root img_name ++ ".json")%string in
  OsPath.join (OsPath.join img_dir JSON_SUBDIR_NAME) json_basename.

Section browse.

(** [Image.open(path)] followed by [convert("RGB")]: the size of the image,
    or [None] when opening it raises. *)
Variable open_image : string -> option (Z * Z).

(** The record files on disk; a record file that exists is taken to parse. *)
Variable w : world.

Definition load_image_and_annotations (b : browser) : browser :=
  let s := session b in
  if (0 <=? current_image_index b)%Z &&
     (current_image_index b <? Z.of_nat (length (image_files s)))%Z
  then
    match image_files s !! Z.to_nat (current_image_index b) with
    | None => b
    | Some path =>
        let s1 := set_current_image_path (Some path) s in
        let img_name := OsPath.basename path in
        match open_image path with
        | None =>
            {| session := refresh_display (set_original_pil_image None s1);
               current_image_index := current_image_index b |}
        | Some size =>
            let s2 := set_original_pil_image (Some size) s1 in
            let s3 :=
              match dict_get (annotations s2) img_name with
              | Some _ => s2
              | None =>
                  match files w !! json_path_of path with
                  | Some loaded =>
                      set_annotations (dict_set (annotations s2) img_name loaded) s2
                  | None => s2
                  end
              end in
            {| session := reset_view s3;
               current_image_index := current_image_index b |}
        end
    end
  else b.

Definition next_image (b : browser) : browser :=
  match image_files (session b) with
  | [] => b
  | _ =>
      if (current_image_index b <? Z.of_nat (length (image_files (session b))) - 1)%Z
      then load_image_and_annotations
             {| session := session b;
                current_image_index := (current_image_index b + 1)%Z |}
      else b
  end.

Definition prev_image (b : browser) : browser :=
  match image_files (session b) with
  | [] => b
  | _ =>
      if (0 <? current_image_index b)%Z
      then load_image_and_annotations
             {| session := session b;
                current_image_index := (current_image_index b - 1)%Z |}
      else b
  end.

(** [jump_to_image]: [img_num] is the number typed in the entry, [None] when
    the entry is empty or does not read as an integer. *)
Definition jump_to_image (img_num : option Z) (b : browser) : browser :=
  match image_files (session b) with
  | [] => b
  | _ =>
      match img_num with
      | None => b
      | Some n =>
          if (1 <=? n)%Z && (n <=? Z.of_nat (length (image_files (session b))))%Z
          then load_image_and_annotations
                 {| session := session b; current_image_index := (n - 1)%Z |}
          else b
      end
  end.

End browse.

End LabelingAppBrowse.

(** ** mask_generator_json_to_mask.py: finding the image of a record *)

Module MaskGeneratorBatch.

Definition IMAGE_EXTENSIONS : list string :=
  [".png"; ".jpg"; ".jpeg"; ".bmp"; ".tiff"; ".tif"]%string.

Section find.

(** [os.path.exists]. *)
Variable exists_path : string -> bool.

Fixpoint first_existing (image_dir base_name : string) (exts : list string)
  : option string :=
  match exts with
  | [] => None
  | ext :: rest =>
      if exists_path (OsPath.join image_dir (base_name ++ ext)%string)
      then Some (base_name ++ ext)%string
      else first_existing image_dir base_name rest
  end.

Definition find_matching_image (image_dir base_name : string) : option string :=
  first_existing image_dir base_name IMAGE_EXTENSIONS.

End find.

End MaskGeneratorBatch.

(** * Properties of the further parts *)

(** ** The view *)

Module LabelingAppViewSpec.

Import LabelingApp LabelingAppView LabelingAppSpec.

Local Open Scope Q_scope.

(** *** The crop box *)

Lemma refresh_display_crop_box_bounds s img_w img_h x1 y1 x2 y2 :
  original_pil_image s = Some (img_w, img_h) ->
  (1 <= img_w)%Z -> (1 <= img_h)%Z ->
  last_crop_box_original_coords (view (refresh_display s)) = Some (x1, y1, x2, y2) ->
  (0 <= x1 < x2)%Z /\ (x2 <= img_w)%Z /\ (0 <= y1 < y2)%Z /\ (y2 <= img_h)%Z.
Proof.
  intros Himg Hw Hh. unfold refresh_display. rewrite Himg.
  pose proof (crop_axis_positive img_w (canvas_width s) (view_offset_x (view s))
                (effective_scale (view s)) Hw) as Hx.
  pose proof (crop_axis_positive img_h (canvas_height s) (view_offset_y (view s))
                (effective_scale (view s)) Hh) as Hy.
  destruct ((canvas_width s <=? 1)%Z || (canvas_height s <=? 1)%Z ||
            (if Qlt_le_dec (Py.abs (effective_scale (view s))) SCALE_EPSILON
             then true else false)); [intros [=]|].
  destruct (crop_axis img_w _ _ _) as [a1 a2], (crop_axis img_h _ _ _) as [b1 b2].
  cbn [fst snd] in *. intros [= <- <- <- <-]. lia.
Qed.

(** X1.  With an image of at least one pixel loaded, [refresh_display]
    leaves a crop box exactly when the canvas is larger than one pixel on
    both axes and the effective scale is at least 1e-9 in absolute value;
    that crop box lies inside the image and has an extent of at least one
    pixel on each axis. *)
Theorem refresh_display_crop_box_in_image (s : app) (img_w img_h : Z) :
  original_pil_image s = Some (img_w, img_h) ->
  (1 <= img_w)%Z -> (1 <= img_h)%Z ->
  (is_Some (last_crop_box_original_coords (view (refresh_display s))) <->
   (1 < canvas_width s)%Z /\ (1 < canvas_height s)%Z /\
   SCALE_EPSILON <= Py.abs (effective_scale (view s))) /\
  (forall x1 y1 x2 y2,
     last_crop_box_original_coords (view (refresh_display s)) = Some (x1, y1, x2, y2) ->
     (0 <= x1 < x2)%Z /\ (x2 <= img_w)%Z /\ (0 <= y1 < y2)%Z /\ (y2 <= img_h)%Z).
Proof.
  intros Himg Hw Hh. unfold refresh_display. rewrite Himg.
  pose proof (crop_axis_positive img_w (canvas_width s) (view_offset_x (view s))
                (effective_scale (view s)) Hw) as Hx.
  pose proof (crop_axis_positive img_h (canvas_height s) (view_offset_y (view s))
                (effective_scale (view s)) Hh) as Hy.
  destruct (Z.leb_spec (canvas_width s) 1) as [Hcw | Hcw]; cbn [orb].
  { split; [|intros ? ? ? ? [=]]. split; [intros [? [=]] | lia]. }
  destruct (Z.leb_spec (canvas_height s) 1) as [Hch | Hch]; cbn [orb].
  { split; [|intros ? ? ? ? [=]]. split; [intros [? [=]] | lia]. }
  destruct (Qlt_le_dec (Py.abs (effective_scale (view s))) SCALE_EPSILON) as [Hlt | Hle].
  { split; [|intros ? ? ? ? [=]]. split; [intros [? [=]] | intros (_ & _ & H); lra]. }
  destruct (crop_axis img_w _ _ _) as [a1 a2], (crop_axis img_h _ _ _) as [b1 b2].
  cbn [fst snd] in *. split.
  - split; [intros _; auto | intros _; eexists; reflexivity].
  - intros x1 y1 x2 y2 [= <- <- <- <-]. lia.
Qed.

Lemma refresh_display_crop_box_in_image_witness :
  original_pil_image small_image_app = Some (50, 50)%Z /\
  last_crop_box_original_coords (view (refresh_display small_image_app))
    = Some (0, 0, 50, 50)%Z /\
  ((0 <= 0 < 50)%Z /\ (50 <= 50)%Z /\ (0 <= 0 < 50)%Z /\ (50 <= 50)%Z).
Proof.
  split; [reflexivity|]. split; [reflexivity|].
  apply (proj2 (refresh_display_crop_box_in_image small_image_app 50 50 eq_refl
                  ltac:(lia) ltac:(lia)) 0%Z 0%Z 50%Z 50%Z).
  reflexivity.
Defined.

(** *** Mapping between the canvas and the image *)

(** The conditions under which the two mappings use the crop box. *)
Definition crop_box_in_effect (s : app) (crop_ox1 crop_oy1 crop_ox2 crop_oy2 : Z)
  : Prop :=
  is_Some (original_pil_image s) /\
  last_crop_box_original_coords (view s) = Some (crop_ox1, crop_oy1, crop_ox2, crop_oy2) /\
  (crop_ox1 < crop_ox2)%Z /\ (crop_oy1 < crop_oy2)%Z /\
  (0 < canvas_width s)%Z /\ (0 < canvas_height s)%Z /\
  SCALE_EPSILON <= Py.abs (effective_scale (view s)).

Lemma small_image_crop_box : crop_box_in_effect small_image_app 0 0 50 50.
Proof.
  repeat split; try reflexivity.
  - exists (50, 50)%Z. reflexivity.
  - vm_compute. discriminate.
Qed.

Lemma view_to_original_coords_crop s x y crop_ox1 crop_oy1 crop_ox2 crop_oy2 :
  crop_box_in_effect s crop_ox1 crop_oy1 crop_ox2 crop_oy2 ->
  view_to_original_coords s x y =
  (inject_Z crop_ox1 + x / inject_Z (canvas_width s) * inject_Z (crop_ox2 - crop_ox1),
   inject_Z crop_oy1 + y / inject_Z (canvas_height s) * inject_Z (crop_oy2 - crop_oy1)).
Proof.
  intros ([img Himg] & Hbox & Hx12 & Hy12 & Hcw & Hch & Hscale).
  unfold view_to_original_coords. rewrite Himg, Hbox.
  destruct (Qlt_le_dec (Py.abs (effective_scale (view s))) SCALE_EPSILON); [lra|].
  destruct (Z.leb_spec (canvas_width s) 0); [lia|].
  destruct (Z.leb_spec (canvas_height s) 0); [lia|].
  destruct (Z.leb_spec (crop_ox2 - crop_ox1) 0); [lia|].
  destruct (Z.leb_spec (crop_oy2 - crop_oy1) 0); [lia|].
  reflexivity.
Qed.

Lemma original_to_view_coords_crop s ox oy crop_ox1 crop_oy1 crop_ox2 crop_oy2 :
  crop_box_in_effect s crop_ox1 crop_oy1 crop_ox2 crop_oy2 ->
  original_to_view_coords s ox oy =
  if Qle_bool (inject_Z crop_ox1 - SCALE_EPSILON) ox &&
     Qle_bool ox (inject_Z crop_ox2 + SCALE_EPSILON) &&
     Qle_bool (inject_Z crop_oy1 - SCALE_EPSILON) oy &&
     Qle_bool oy (inject_Z crop_oy2 + SCALE_EPSILON)
  then Some ((ox - inject_Z crop_ox1) / inject_Z (crop_ox2 - crop_ox1)
               * inject_Z (canvas_width s),
             (oy - inject_Z crop_oy1) / inject_Z (crop_oy2 - crop_oy1)
               * inject_Z (canvas_height s))
  else None.
Proof.
  intros ([img Himg] & Hbox & Hx12 & Hy12 & Hcw & Hch & Hscale).
  unfold original_to_view_coords. rewrite Himg, Hbox.
  destruct (Qlt_le_dec (Py.abs (effective_scale (view s))) SCALE_EPSILON); [lra|].
  destruct (Z.leb_spec (canvas_width s) 0); [lia|].
  destruct (Z.leb_spec (canvas_height s) 0); [lia|].
  destruct (Z.leb_spec (crop_ox2 - crop_ox1) 0); [lia|].
  destruct (Z.leb_spec (crop_oy2 - crop_oy1) 0); [lia|].
  reflexivity.
Qed.

(** X2.  On a displayed view of an image of at least one pixel (the state
    [refresh_display] leaves, with a crop box), every point within the
    canvas, 0 <= x <= canvas width and 0 <= y <= canvas height, maps to a
    point of the crop box, hence to a point of the image, the mapping being
    computed in exact arithmetic.  Positions outside the canvas are not
    covered. *)
Theorem pointer_maps_into_image (s : app) (img_w img_h : Z) (x y : Q)
    (x1 y1 x2 y2 : Z) :
  original_pil_image s = Some (img_w, img_h) ->
  (1 <= img_w)%Z -> (1 <= img_h)%Z ->
  last_crop_box_original_coords (view (refresh_display s)) = Some (x1, y1, x2, y2) ->
  0 <= x <= inject_Z (canvas_width s) ->
  0 <= y <= inject_Z (canvas_height s) ->
  let p := view_to_original_coords (refresh_display s) x y in
  (inject_Z x1 <= p.1 <= inject_Z x2 /\ inject_Z y1 <= p.2 <= inject_Z y2) /\
  (0 <= p.1 <= inject_Z img_w /\ 0 <= p.2 <= inject_Z img_h).
Proof.
  intros Himg Hw Hh Hbox Hx Hy.
  destruct (refresh_display_crop_box_valid s img_w img_h x1 y1 x2 y2 Himg Hw Hh Hbox)
    as (Hx12 & Hy12 & Hcw & Hch & Hscale).
  destruct (refresh_display_crop_box_bounds s img_w img_h x1 y1 x2 y2 Himg Hw Hh Hbox)
    as (Hx1 & Hx2 & Hy1 & Hy2).
  destruct (refresh_display_frame s) as (_ & _ & _ & _ & _ & _ & _ & _ & _ & Himg').
  assert (canvas_width (refresh_display s) = canvas_width s /\
          canvas_height (refresh_display s) = canvas_height s) as [Hcw' Hch'].
  { unfold refresh_display. destruct (original_pil_image s) as [[? ?]|]; [|split; reflexivity].
    match goal with |- context [if ?b then _ else _] => destruct b end;
      [split; reflexivity|].
    repeat match goal with
           | |- context [crop_axis ?a ?b ?c ?d] => destruct (crop_axis a b c d)
           end. split; reflexivity. }
  assert (crop_box_in_effect (refresh_display s) x1 y1 x2 y2) as Heff.
  { repeat split; try assumption; try lia. rewrite Himg', Himg. eauto. }
  cbv zeta. rewrite (view_to_original_coords_crop _ x y x1 y1 x2 y2 Heff). cbn [fst snd].
  rewrite Hcw', Hch'. rewrite Hcw' in Hcw. rewrite Hch' in Hch.
  destruct (axis_roundtrip x (canvas_width s) x1 x2 Hcw Hx12 Hx) as [Hbx _].
  destruct (axis_roundtrip y (canvas_height s) y1 y2 Hch Hy12 Hy) as [Hby _].
  cbv zeta in Hbx, Hby.
  assert (0 <= inject_Z x1 /\ inject_Z x2 <= inject_Z img_w /\
          0 <= inject_Z y1 /\ inject_Z y2 <= inject_Z img_h) as (? & ? & ? & ?).
  { change 0 with (inject_Z 0). rewrite <- !Zle_Qle. lia. }
  repeat split; lra.
Qed.

Lemma pointer_maps_into_image_witness :
  let p := view_to_original_coords (refresh_display small_image_app) 100 30 in
  (inject_Z 0 <= p.1 <= inject_Z 50 /\ inject_Z 0 <= p.2 <= inject_Z 50) /\
  (0 <= p.1 <= inject_Z 50 /\ 0 <= p.2 <= inject_Z 50).
Proof.
  apply (pointer_maps_into_image small_image_app 50 50 100 30 0 0 50 50).
  - reflexivity.
  - lia.
  - lia.
  - reflexivity.
  - split; vm_compute; discriminate.
  - split; vm_compute; discriminate.
Defined.

(** X3.  While a crop box is in effect, [original_to_view_coords] answers
    exactly for the points of the crop box (within 1e-9 of it) and answers
    [(None, None)] for every other point; a point of the crop box maps into
    the canvas. *)
Theorem original_to_view_defined_on_crop_box (s : app) (ox oy : Q)
    (crop_ox1 crop_oy1 crop_ox2 crop_oy2 : Z) :
  crop_box_in_effect s crop_ox1 crop_oy1 crop_ox2 crop_oy2 ->
  (is_Some (original_to_view_coords s ox oy) <->
   inject_Z crop_ox1 - SCALE_EPSILON <= ox <= inject_Z crop_ox2 + SCALE_EPSILON /\
   inject_Z crop_oy1 - SCALE_EPSILON <= oy <= inject_Z crop_oy2 + SCALE_EPSILON) /\
  (inject_Z crop_ox1 <= ox <= inject_Z crop_ox2 ->
   inject_Z crop_oy1 <= oy <= inject_Z crop_oy2 ->
   exists vx vy,
     original_to_view_coords s ox oy = Some (vx, vy) /\
     0 <= vx <= inject_Z (canvas_width s) /\ 0 <= vy <= inject_Z (canvas_height s)).
Proof.
  intros Heff. rewrite (original_to_view_coords_crop s ox oy _ _ _ _ Heff).
  destruct Heff as (_ & _ & Hx12 & Hy12 & Hcw & Hch & _).
  assert (0 < SCALE_EPSILON) as Heps by reflexivity.
  split.
  - destruct (Qle_bool (inject_Z crop_ox1 - SCALE_EPSILON) ox) eqn:E1;
      destruct (Qle_bool ox (inject_Z crop_ox2 + SCALE_EPSILON)) eqn:E2;
      destruct (Qle_bool (inject_Z crop_oy1 - SCALE_EPSILON) oy) eqn:E3;
      destruct (Qle_bool oy (inject_Z crop_oy2 + SCALE_EPSILON)) eqn:E4;
      cbn [andb];
      try (apply Qle_bool_iff in E1); try (apply Qle_bool_iff in E2);
      try (apply Qle_bool_iff in E3); try (apply Qle_bool_iff in E4);
      (split; [intros [? Hsome]; try discriminate Hsome; tauto |]);
      intros [[H1 H2] [H3 H4]]; try (eexists; reflexivity);
      try (apply Qle_bool_iff in H1; congruence);
      try (apply Qle_bool_iff in H2; congruence);
      try (apply Qle_bool_iff in H3; congruence);
      try (apply Qle_bool_iff in H4; congruence).
  - intros Hox Hoy.
    rewrite !(proj2 (Qle_bool_iff _ _)) by lra. cbn [andb].
    eexists _, _. split; [reflexivity|].
    pose proof (inject_Z_pos _ Hcw) as Hl. pose proof (inject_Z_pos _ Hch) as Hm.
    assert (0 < inject_Z (crop_ox2 - crop_ox1)) as Hwx by (apply inject_Z_pos; lia).
    assert (0 < inject_Z (crop_oy2 - crop_oy1)) as Hwy by (apply inject_Z_pos; lia).
    assert (inject_Z (crop_ox2 - crop_ox1) == inject_Z crop_ox2 - inject_Z crop_ox1) as Hdx.
    { unfold Z.sub. rewrite inject_Z_plus, inject_Z_opp. reflexivity. }
    assert (inject_Z (crop_oy2 - crop_oy1) == inject_Z crop_oy2 - inject_Z crop_oy1) as Hdy.
    { unfold Z.sub. rewrite inject_Z_plus, inject_Z_opp. reflexivity. }
    assert (forall a b l, 0 < b -> 0 < l -> 0 <= a <= b -> 0 <= a / b * l <= l) as Hprop.
    { intros a b l Hb Hl' Ha.
      assert (0 <= a / b) by (apply Qle_shift_div_l; lra).
      assert (a / b <= 1) by (apply Qle_shift_div_r; lra).
      split; [apply Qmult_le_0_compat; lra|].
      assert (a / b * l <= 1 * l) by (apply Qmult_le_compat_r; lra). lra. }
    split; apply Hprop; try assumption; lra.
Qed.

Lemma original_to_view_defined_on_crop_box_witness :
  crop_box_in_effect small_image_app 0 0 50 50 /\
  (is_Some (original_to_view_coords small_image_app 60 10) <->
   inject_Z 0 - SCALE_EPSILON <= 60 <= inject_Z 50 + SCALE_EPSILON /\
   inject_Z 0 - SCALE_EPSILON <= 10 <= inject_Z 50 + SCALE_EPSILON).
Proof.
  split; [exact small_image_crop_box|].
  exact (proj1 (original_to_view_defined_on_crop_box small_image_app 60 10 0 0 50 50
                  small_image_crop_box)).
Defined.

(** X4.  While a crop box is in effect, a point that
    [original_to_view_coords] maps to the canvas is mapped back to itself by
    [view_to_original_coords] (exactly, in exact arithmetic). *)
Theorem original_roundtrip (s : app) (ox oy vx vy : Q)
    (crop_ox1 crop_oy1 crop_ox2 crop_oy2 : Z) :
  crop_box_in_effect s crop_ox1 crop_oy1 crop_ox2 crop_oy2 ->
  original_to_view_coords s ox oy = Some (vx, vy) ->
  (view_to_original_coords s vx vy).1 == ox /\
  (view_to_original_coords s vx vy).2 == oy.
Proof.
  intros Heff. rewrite (original_to_view_coords_crop s ox oy _ _ _ _ Heff).
  rewrite (view_to_original_coords_crop s vx vy _ _ _ _ Heff).
  destruct Heff as (_ & _ & Hx12 & Hy12 & Hcw & Hch & _).
  destruct (_ && _)%bool; [|discriminate].
  intros [= <- <-]. cbn [fst snd].
  pose proof (inject_Z_pos _ Hcw) as Hl. pose proof (inject_Z_pos _ Hch) as Hm.
  assert (0 < inject_Z (crop_ox2 - crop_ox1)) as Hwx by (apply inject_Z_pos; lia).
  assert (0 < inject_Z (crop_oy2 - crop_oy1)) as Hwy by (apply inject_Z_pos; lia).
  split; field; split; lra.
Qed.

Lemma original_roundtrip_witness :
  exists vx vy,
    original_to_view_coords small_image_app 20 35 = Some (vx, vy) /\
    (view_to_original_coords small_image_app vx vy).1 == 20 /\
    (view_to_original_coords small_image_app vx vy).2 == 35.
Proof.
  eexists _, _. split; [vm_compute; reflexivity|].
  apply (original_roundtrip small_image_app 20 35 _ _ 0 0 50 50 small_image_crop_box).
  vm_compute. reflexivity.
Defined.

(** *** Zooming *)

(** The change of zoom is acted on: [adjust_zoom] passes its guards and the
    clamped zoom level differs from the current one by at least 1e-5. *)
Definition zoom_acts (factor : Q) (s : app) : Prop :=
  is_Some (original_pil_image s) /\
  SCALE_EPSILON <= Py.abs (base_scale_factor (view s)) /\
  SCALE_EPSILON <= Py.abs (base_scale_factor (view s) * zoom_level (view s)) /\
  (1 < canvas_width s)%Z /\ (1 < canvas_height s)%Z /\
  ZOOM_EPSILON <=
    Py.abs (Py.max MIN_ZOOM_LEVEL (Py.min (zoom_level (view s) * factor) MAX_ZOOM_LEVEL)
            - zoom_level (view s)).

(** The view [adjust_zoom] leaves when the change is acted on. *)
Lemma adjust_zoom_acting factor canvas_x_root canvas_y_root s :
  zoom_acts factor s ->
  let new_zoom_level :=
    Py.max MIN_ZOOM_LEVEL (Py.min (zoom_level (view s) * factor) MAX_ZOOM_LEVEL) in
  let current_effective_scale := base_scale_factor (view s) * zoom_level (view s) in
  let canvas_center_x := default (inject_Z (canvas_width s) / 2) canvas_x_root in
  let canvas_center_y := default (inject_Z (canvas_height s) / 2) canvas_y_root in
  let s' := adjust_zoom factor canvas_x_root canvas_y_root s in
  base_scale_factor (view s') = base_scale_factor (view s) /\
  zoom_level (view s') = new_zoom_level /\
  effective_scale (view s') = base_scale_factor (view s) * new_zoom_level /\
  view_offset_x (view s') =
    canvas_center_x - (canvas_center_x - view_offset_x (view s)) / current_effective_scale
                      * (base_scale_factor (view s) * new_zoom_level) /\
  view_offset_y (view s') =
    canvas_center_y - (canvas_center_y - view_offset_y (view s)) / current_effective_scale
                      * (base_scale_factor (view s) * new_zoom_level).
Proof.
  intros ([img Himg] & Hbase & Hscale & Hcw & Hch & Hact). cbv zeta.
  unfold adjust_zoom. rewrite Himg.
  destruct (Qlt_le_dec (Py.abs (base_scale_factor (view s))) SCALE_EPSILON); [lra|].
  destruct (Qlt_le_dec (Py.abs (base_scale_factor (view s) * zoom_level (view s)))
              SCALE_EPSILON); [lra|].
  destruct (Z.leb_spec (canvas_width s) 1); [lia|].
  destruct (Z.leb_spec (canvas_height s) 1); [lia|].
  cbn [orb]. cbn [view set_view zoom_level set_zoom_level].
  destruct (Qlt_le_dec _ ZOOM_EPSILON) as [Hlt | _]; [lra|].
  match goal with |- context [refresh_display ?t] =>
    destruct (refresh_display_frame t) as (Hb & Hz & He & Hx & Hy & _) end.
  rewrite Hb, Hz, He, Hx, Hy. repeat split.
Qed.

Lemma clamped_zoom_in_bounds z :
  MIN_ZOOM_LEVEL <= Py.max MIN_ZOOM_LEVEL (Py.min z MAX_ZOOM_LEVEL) <= MAX_ZOOM_LEVEL.
Proof. unfold MIN_ZOOM_LEVEL, MAX_ZOOM_LEVEL. py_cases; lra. Qed.

(** X5.  [adjust_zoom] keeps the zoom level between [MIN_ZOOM_LEVEL] and
    [MAX_ZOOM_LEVEL], whatever the factor and the pivot. *)
Theorem adjust_zoom_keeps_zoom_bounds (factor : Q) (canvas_x_root canvas_y_root : option Q)
    (s : app) :
  MIN_ZOOM_LEVEL <= zoom_level (view s) <= MAX_ZOOM_LEVEL ->
  MIN_ZOOM_LEVEL <= zoom_level (view (adjust_zoom factor canvas_x_root canvas_y_root s))
    <= MAX_ZOOM_LEVEL.
Proof.
  intros Hz. unfold adjust_zoom.
  destruct (original_pil_image s); [|exact Hz].
  destruct (Qlt_le_dec (Py.abs (base_scale_factor (view s))) SCALE_EPSILON); [exact Hz|].
  destruct (Qlt_le_dec (Py.abs (base_scale_factor (view s) * zoom_level (view s)))
              SCALE_EPSILON); [exact Hz|].
  destruct ((canvas_width s <=? 1)%Z || (canvas_height s <=? 1)%Z); [exact Hz|].
  cbn [view set_view zoom_level set_zoom_level].
  destruct (Qlt_le_dec _ ZOOM_EPSILON).
  - apply clamped_zoom_in_bounds.
  - match goal with |- context [refresh_display ?t] =>
      destruct (refresh_display_frame t) as (_ & Hz' & _) end.
    rewrite Hz'. apply clamped_zoom_in_bounds.
Qed.

Lemma adjust_zoom_keeps_zoom_bounds_witness :
  MIN_ZOOM_LEVEL <= zoom_level (view small_image_app) <= MAX_ZOOM_LEVEL /\
  MIN_ZOOM_LEVEL <= zoom_level (view (adjust_zoom 1000 None None small_image_app))
    <= MAX_ZOOM_LEVEL.
Proof.
  assert (MIN_ZOOM_LEVEL <= zoom_level (view small_image_app) <= MAX_ZOOM_LEVEL) as H
    by (split; vm_compute; discriminate).
  split; [exact H|].
  exact (adjust_zoom_keeps_zoom_bounds 1000 None None small_image_app H).
Defined.




(** X7.  At the upper bound, zooming in further changes nothing in the
    view: the zoom level stays at [MAX_ZOOM_LEVEL] and the scale, the
    offsets and the crop box are untouched. *)
Theorem zoom_in_at_max_changes_nothing (factor : Q) (canvas_x_root canvas_y_root : option Q)
    (s : app) :
  zoom_level (view s) == MAX_ZOOM_LEVEL -> 1 <= factor ->
  let s' := adjust_zoom factor canvas_x_root canvas_y_root s in
  zoom_level (view s') == MAX_ZOOM_LEVEL /\
  base_scale_factor (view s') = base_scale_factor (view s) /\
  effective_scale (view s') = effective_scale (view s) /\
  view_offset_x (view s') = view_offset_x (view s) /\
  view_offset_y (view s') = view_offset_y (view s) /\
  last_crop_box_original_coords (view s') = last_crop_box_original_coords (view s).
Proof.
  intros Hmax Hfactor. cbv zeta. unfold adjust_zoom.
  destruct (original_pil_image s); [|repeat split; exact Hmax].
  destruct (Qlt_le_dec (Py.abs (base_scale_factor (view s))) SCALE_EPSILON);
    [repeat split; exact Hmax|].
  destruct (Qlt_le_dec (Py.abs (base_scale_factor (view s) * zoom_level (view s)))
              SCALE_EPSILON); [repeat split; exact Hmax|].
  destruct ((canvas_width s <=? 1)%Z || (canvas_height s <=? 1)%Z);
    [repeat split; exact Hmax|].
  cbn [view set_view zoom_level set_zoom_level].
  assert (MAX_ZOOM_LEVEL <= zoom_level (view s) * factor) as Hbig.
  { unfold MAX_ZOOM_LEVEL in *.
    assert (zoom_level (view s) * 1 <= zoom_level (view s) * factor).
    { rewrite !(Qmult_comm (zoom_level (view s))). apply Qmult_le_compat_r; lra. }
    lra. }
  assert (Py.max MIN_ZOOM_LEVEL (Py.min (zoom_level (view s) * factor) MAX_ZOOM_LEVEL)
          == MAX_ZOOM_LEVEL) as Hclamp.
  { unfold MIN_ZOOM_LEVEL, MAX_ZOOM_LEVEL in *. py_cases; lra. }
  destruct (Qlt_le_dec _ ZOOM_EPSILON) as [_ | Hge].
  - repeat split. exact Hclamp.
  - exfalso. unfold ZOOM_EPSILON in Hge.
    set (nz := Py.max _ _) in *. py_cases; lra.
Qed.

Lemma zoom_in_at_max_changes_nothing_witness :
  zoom_level (view (adjust_zoom ZOOM_WHEEL_FACTOR None None
                      (set_view (set_zoom_level 100 small_image_view) small_image_app)))
    == MAX_ZOOM_LEVEL.
Proof.
  apply (zoom_in_at_max_changes_nothing ZOOM_WHEEL_FACTOR None None
           (set_view (set_zoom_level 100 small_image_view) small_image_app)).
  - reflexivity.
  - vm_compute. discriminate.
Defined.

(** [refresh_display] changes nothing but the crop box. *)
Lemma refresh_display_sets_crop_box s :
  exists crop, refresh_display s = set_view (set_last_crop_box crop (view s)) s.
Proof.
  unfold refresh_display.
  destruct (original_pil_image s) as [[img_w img_h]|]; [|eauto].
  match goal with |- context [if ?b then _ else _] => destruct b end; [eauto|].
  repeat match goal with
         | |- context [crop_axis ?a ?b ?c ?d] => destruct (crop_axis a b c d)
         end.
  eauto.
Qed.

(** What [adjust_zoom] never touches. *)
Lemma adjust_zoom_frame factor canvas_x_root canvas_y_root s :
  let s' := adjust_zoom factor canvas_x_root canvas_y_root s in
  original_pil_image s' = original_pil_image s /\
  canvas_width s' = canvas_width s /\ canvas_height s' = canvas_height s /\
  pan s' = pan s /\ annotations s' = annotations s /\
  has_unsaved_changes s' = has_unsaved_changes s /\
  base_scale_factor (view s') = base_scale_factor (view s).
Proof.
  cbv zeta. unfold adjust_zoom.
  destruct (original_pil_image s) eqn:Himg; [|rewrite Himg; repeat split].
  repeat match goal with
         | |- context [if ?b then _ else _] => destruct b
         end; try (rewrite ?Himg; repeat split; assumption).
  match goal with |- context [refresh_display ?t] =>
    destruct (refresh_display_sets_crop_box t) as [crop ->] end.
  cbn. rewrite Himg. repeat split.
Qed.

Lemma clamp_inside t :
  MIN_ZOOM_LEVEL <= t <= MAX_ZOOM_LEVEL ->
  Py.max MIN_ZOOM_LEVEL (Py.min t MAX_ZOOM_LEVEL) == t.
Proof. unfold MIN_ZOOM_LEVEL, MAX_ZOOM_LEVEL. intros H. py_cases; lra. Qed.

Lemma abs_at_least a e : e <= a \/ a <= - e -> 0 <= e -> e <= Py.abs a.
Proof. intros H He. py_cases; lra. Qed.

Lemma abs_mult a b : Py.abs (a * b) == Py.abs a * Py.abs b.
Proof.
  unfold Py.abs.
  destruct (Qlt_le_dec (a * b) 0), (Qlt_le_dec a 0), (Qlt_le_dec b 0);
    try ring; nra.
Qed.

(** X8.  One wheel notch up followed by one notch down at the same pointer
    position brings back the zoom level, the scale and the offsets (in
    exact arithmetic), provided the notch up is not clamped at
    [MAX_ZOOM_LEVEL]. *)
Theorem wheel_up_then_down_restores_view (s : app) (ev : event) :
  is_panning (pan s) = false ->
  is_Some (original_pil_image s) ->
  SCALE_EPSILON <= Py.abs (base_scale_factor (view s)) ->
  SCALE_EPSILON <= Py.abs (base_scale_factor (view s) * zoom_level (view s)) ->
  (1 < canvas_width s)%Z -> (1 < canvas_height s)%Z ->
  MIN_ZOOM_LEVEL <= zoom_level (view s) ->
  zoom_level (view s) * ZOOM_WHEEL_FACTOR <= MAX_ZOOM_LEVEL ->
  let s' := on_mouse_wheel_zoom ev (-1) (on_mouse_wheel_zoom ev 1 s) in
  zoom_level (view s') == zoom_level (view s) /\
  effective_scale (view s') == base_scale_factor (view s) * zoom_level (view s) /\
  view_offset_x (view s') == view_offset_x (view s) /\
  view_offset_y (view s') == view_offset_y (view s).
Proof.
  intros Hpan Himg Hbase Hscale Hcw Hch Hmin Hmax. cbv zeta.
  set (z := zoom_level (view s)) in *. set (b := base_scale_factor (view s)) in *.
  assert (0 < z) as Hz by (unfold MIN_ZOOM_LEVEL in Hmin; lra).
  assert (~ b == 0) as Hb0 by (intros H0; unfold SCALE_EPSILON in Hbase; py_cases; lra).
  assert (~ ZOOM_WHEEL_FACTOR == 0) as Hf by (unfold ZOOM_WHEEL_FACTOR; discriminate).
  (* the notch up *)
  pose proof (clamp_inside (z * ZOOM_WHEEL_FACTOR)) as Hup.
  assert (zoom_acts ZOOM_WHEEL_FACTOR s) as Hact1.
  { unfold zoom_acts. fold z b. repeat split; try assumption.
    apply abs_at_least; [left | vm_compute; discriminate].
    unfold MIN_ZOOM_LEVEL, ZOOM_EPSILON, ZOOM_WHEEL_FACTOR in *.
    assert (Hup' := Hup ltac:(lra)). lra. }
  set (s1 := on_mouse_wheel_zoom ev 1 s).
  assert (s1 = adjust_zoom ZOOM_WHEEL_FACTOR (Some (inject_Z (event_x ev)))
                 (Some (inject_Z (event_y ev))) s) as Hs1.
  { unfold s1, on_mouse_wheel_zoom. rewrite Hpan. reflexivity. }
  destruct (adjust_zoom_acting ZOOM_WHEEL_FACTOR (Some (inject_Z (event_x ev)))
              (Some (inject_Z (event_y ev))) s Hact1) as (Hb1 & Hz1 & _ & Hx1 & Hy1).
  destruct (adjust_zoom_frame ZOOM_WHEEL_FACTOR (Some (inject_Z (event_x ev)))
              (Some (inject_Z (event_y ev))) s) as (Hi1 & Hcw1 & Hch1 & Hp1 & _).
  cbv zeta in *. rewrite <- Hs1 in *. fold z b in Hb1, Hz1, Hx1, Hy1.
  cbn [default from_option] in Hx1, Hy1. unfold id in Hx1, Hy1.
  assert (MIN_ZOOM_LEVEL <= z * ZOOM_WHEEL_FACTOR <= MAX_ZOOM_LEVEL) as Hin1
    by (unfold MIN_ZOOM_LEVEL, ZOOM_WHEEL_FACTOR in *; lra).
  specialize (Hup Hin1).
  remember (Py.max MIN_ZOOM_LEVEL (Py.min (z * ZOOM_WHEEL_FACTOR) MAX_ZOOM_LEVEL))
    as z1 eqn:Ez1. clear Ez1.
  (* the notch down *)
  assert (z1 * (1 / ZOOM_WHEEL_FACTOR) == z) as Hback.
  { rewrite Hup. field. exact Hf. }
  pose proof (clamp_inside (z1 * (1 / ZOOM_WHEEL_FACTOR))) as Hdown.
  assert (MIN_ZOOM_LEVEL <= z1 * (1 / ZOOM_WHEEL_FACTOR) <= MAX_ZOOM_LEVEL) as Hin2.
  { rewrite Hback. unfold MIN_ZOOM_LEVEL, MAX_ZOOM_LEVEL, ZOOM_WHEEL_FACTOR in *. lra. }
  specialize (Hdown Hin2).
  assert (zoom_acts (1 / ZOOM_WHEEL_FACTOR) s1) as Hact2.
  { unfold zoom_acts. rewrite Hi1, Hcw1, Hch1, Hb1, Hz1.
    repeat split; try assumption.
    - rewrite (abs_mult b z1). rewrite (abs_mult b z) in Hscale.
      assert (Py.abs z1 == z1) as -> by
        (unfold MIN_ZOOM_LEVEL, ZOOM_WHEEL_FACTOR in *; py_cases; lra).
      assert (Py.abs z == z) as Hzabs by (py_cases; lra).
      rewrite Hzabs in Hscale. rewrite Hup.
      unfold ZOOM_WHEEL_FACTOR, SCALE_EPSILON in *. lra.
    - apply abs_at_least; [right | vm_compute; discriminate].
      unfold MIN_ZOOM_LEVEL, ZOOM_EPSILON, ZOOM_WHEEL_FACTOR in *. lra. }
  assert (on_mouse_wheel_zoom ev (-1) s1
          = adjust_zoom (1 / ZOOM_WHEEL_FACTOR) (Some (inject_Z (event_x ev)))
              (Some (inject_Z (event_y ev))) s1) as Hs2.
  { unfold on_mouse_wheel_zoom. rewrite Hp1, Hpan. reflexivity. }
  rewrite Hs2.
  destruct (adjust_zoom_acting (1 / ZOOM_WHEEL_FACTOR) (Some (inject_Z (event_x ev)))
              (Some (inject_Z (event_y ev))) s1 Hact2) as (_ & Hz2 & He2 & Hx2 & Hy2).
  cbv zeta in *. rewrite Hz1 in Hz2, He2, Hx2, Hy2. rewrite Hb1 in He2, Hx2, Hy2.
  cbn [default from_option] in Hx2, Hy2. unfold id in Hx2, Hy2.
  rewrite Hz2, He2, Hx2, Hy2, Hx1, Hy1, Hdown, Hback.
  assert (~ z1 == 0) as Hz10
    by (unfold MIN_ZOOM_LEVEL, ZOOM_WHEEL_FACTOR in *; lra).
  split; [reflexivity|].
  split; [reflexivity|].
  split; field; repeat split; try assumption; lra.
Qed.

Lemma wheel_up_then_down_restores_view_witness :
  zoom_level (view (on_mouse_wheel_zoom (pointer 40 60) (-1)
                      (on_mouse_wheel_zoom (pointer 40 60) 1 small_image_app)))
    == zoom_level (view small_image_app).
Proof.
  apply (wheel_up_then_down_restores_view small_image_app (pointer 40 60)).
  - reflexivity.
  - exists (50, 50)%Z. reflexivity.
  - vm_compute. discriminate.
  - vm_compute. discriminate.
  - reflexivity.
  - reflexivity.
  - vm_compute. discriminate.
  - vm_compute. discriminate.
Defined.

(** *** Fitting the image to the canvas *)









(** *** Resizing the window *)



(** *** What the view operations leave alone *)

Lemma set_crop_box_keeps_store crop s :
  let s' := set_view (set_last_crop_box crop (view s)) s in
  annotations s' = annotations s /\
  has_unsaved_changes s' = has_unsaved_changes s /\
  current_image_path s' = current_image_path s /\
  image_files s' = image_files s.
Proof. repeat split. Qed.

Lemma refresh_display_keeps_store s :
  annotations (refresh_display s) = annotations s /\
  has_unsaved_changes (refresh_display s) = has_unsaved_changes s /\
  current_image_path (refresh_display s) = current_image_path s /\
  image_files (refresh_display s) = image_files s.
Proof.
  destruct (refresh_display_sets_crop_box s) as [crop ->]. repeat split.
Qed.

Lemma reset_view_keeps_store s :
  annotations (reset_view s) = annotations s /\
  has_unsaved_changes (reset_view s) = has_unsaved_changes s /\
  current_image_path (reset_view s) = current_image_path s /\
  image_files (reset_view s) = image_files s.
Proof.
  unfold reset_view.
  destruct (refresh_display_keeps_store
              (_calculate_base_scale_and_initial_offsets
                 (set_view (set_zoom_level 1 (view s)) s)).2) as (-> & -> & -> & ->).
  unfold _calculate_base_scale_and_initial_offsets.
  cbn [original_pil_image set_view].
  destruct (original_pil_image s) as [[? ?]|]; [|repeat split].
  repeat match goal with
         | |- context [if ?b then _ else _] => destruct b
         end; repeat split.
Qed.

(** X11.  Zooming, panning, resetting the view and resizing the window
    never change the annotations, the dirty flag, the current image or the
    list of images. *)
Theorem view_operations_keep_store (s : app) (ev : event) (factor : Q)
    (canvas_x_root canvas_y_root : option Q) :
  Forall (fun s' =>
            annotations s' = annotations s /\
            has_unsaved_changes s' = has_unsaved_changes s /\
            current_image_path s' = current_image_path s /\
            image_files s' = image_files s)
         [adjust_zoom factor canvas_x_root canvas_y_root s;
          on_pan_press ev s; on_pan_drag ev s; on_pan_release ev s;
          refresh_display s; reset_view s; handle_resize s].
Proof.
  repeat apply Forall_cons_2; try apply Forall_nil_2.
  - unfold adjust_zoom.
    destruct (original_pil_image s); [|repeat split].
    repeat match goal with
           | |- context [if ?b then _ else _] => destruct b
           end; try (repeat split; fail).
    match goal with |- context [refresh_display ?t] =>
      destruct (refresh_display_keeps_store t) as (-> & -> & -> & ->) end.
    repeat split.
  - unfold on_pan_press. destruct (original_pil_image s); repeat split.
  - unfold on_pan_drag.
    destruct (is_panning (pan s)); [|repeat split].
    destruct (original_pil_image s) as [[? ?]|]; [|repeat split].
    repeat match goal with
           | |- context [if ?b then _ else _] => destruct b
           end; try (repeat split; fail).
    match goal with |- context [refresh_display ?t] =>
      destruct (refresh_display_keeps_store t) as (-> & -> & -> & ->) end.
    repeat split.
  - unfold on_pan_release. destruct (is_panning (pan s)); repeat split.
  - apply refresh_display_keeps_store.
  - apply reset_view_keeps_store.
  - unfold handle_resize.
    destruct (is_panning (pan s)); [repeat split|].
    destruct (original_pil_image s) as [[? ?]|]; [|repeat split].
    destruct (_ || _ || _)%bool; [apply reset_view_keeps_store|].
    destruct (_ || _)%bool; [repeat split|].
    match goal with |- context [refresh_display ?t] =>
      destruct (refresh_display_keeps_store t) as (-> & -> & -> & ->) end.
    destruct (Qlt_le_dec _ SCALE_EPSILON); repeat split.
Qed.

End LabelingAppViewSpec.

(** ** The annotation store *)

Module LabelingAppStoreSpec.

Import LabelingApp LabelingAppSpec.

Local Open Scope Q_scope.

(** X12.  [delete_annotation] on the current image: with an index in range
    and the confirmation given, exactly the annotation at that index leaves
    the list (the others keep their order), the image size and the entries
    of the other images stay, and the dirty flag is set; with an index out
    of range, or the confirmation declined, nothing changes. *)
Theorem delete_annotation_removes_one (s : app) (index_to_delete : Z)
    (path : string) (entry : annotation_set) :
  current_image_path s = Some path ->
  dict_get (annotations s) (OsPath.basename path) = Some entry ->
  let annotations_list := AnnotationFile.annotations entry in
  let i := Z.to_nat index_to_delete in
  ((0 <= index_to_delete < Z.of_nat (length annotations_list))%Z ->
   let s' := delete_annotation index_to_delete true s in
   dict_get (annotations s') (OsPath.basename path) =
     Some {| AnnotationFile.annotations := take i annotations_list
                                            ++ drop (S i) annotations_list;
             original_size := original_size entry |} /\
   S (length (take i annotations_list ++ drop (S i) annotations_list))
     = length annotations_list /\
   (forall other, other <> OsPath.basename path ->
      dict_get (annotations s') other = dict_get (annotations s) other) /\
   map fst (annotations s') = map fst (annotations s) /\
   has_unsaved_changes s' = true) /\
  ((index_to_delete < 0 \/ Z.of_nat (length annotations_list) <= index_to_delete)%Z ->
   forall confirm, delete_annotation index_to_delete confirm s = s) /\
  delete_annotation index_to_delete false s = s.
Proof.
  intros Hpath Hentry annotations_list i.
  unfold delete_annotation. rewrite Hpath, Hentry. fold annotations_list.
  split; [|split].
  - intros Hrange.
    destruct (Z.leb_spec 0 index_to_delete); [|lia].
    destruct (Z.ltb_spec index_to_delete (Z.of_nat (length annotations_list))); [|lia].
    cbn [andb]. cbv zeta.
    match goal with |- context [refresh_display ?t] =>
      destruct (refresh_display_frame t) as (_ & _ & _ & _ & _ & Ha & Hf & _) end.
    rewrite Ha, Hf.
    cbn [annotations set_annotations set_has_unsaved_changes has_unsaved_changes].
    fold i. rewrite delete_take_drop.
    split; [apply dict_get_set_eq|].
    split.
    { rewrite length_app, length_take, length_drop. unfold i. lia. }
    split; [intros other Hne; apply dict_get_set_ne; congruence|].
    split; [apply dict_set_keys; rewrite Hentry; eauto | reflexivity].
  - intros Hout confirm.
    destruct (Z.leb_spec 0 index_to_delete);
      destruct (Z.ltb_spec index_to_delete (Z.of_nat (length annotations_list)));
      cbn [andb]; try reflexivity; lia.
  - destruct (_ && _)%bool; reflexivity.
Qed.

Lemma delete_annotation_removes_one_witness :
  dict_get (annotations (delete_annotation 0 true two_images_app)) "a.png" =
    Some {| AnnotationFile.annotations := []; original_size := (50, 50)%Z |}.
Proof.
  destruct (delete_annotation_removes_one two_images_app 0 "/data/a.png"%string record_a
              eq_refl eq_refl) as (Hin & _).
  destruct (Hin ltac:(cbn; lia)) as (Hget & _).
  exact Hget.
Defined.

(** X13.  [clear_current_annotations], once confirmed, keeps the record of
    the current image with its image size and an empty annotation list
    (creating it from the loaded image when the image had none), leaves the
    other images alone and sets the dirty flag; declined, it changes
    nothing. *)
Theorem clear_keeps_the_record (s s' : app) (path : string) :
  current_image_path s = Some path ->
  clear_current_annotations true s = Some s' ->
  (exists size,
     dict_get (annotations s') (OsPath.basename path) =
       Some {| AnnotationFile.annotations := []; original_size := size |} /\
     match dict_get (annotations s) (OsPath.basename path) with
     | Some entry => size = original_size entry
     | None => original_pil_image s = Some size
     end) /\
  (forall other, other <> OsPath.basename path ->
     dict_get (annotations s') other = dict_get (annotations s) other) /\
  has_unsaved_changes s' = true /\
  clear_current_annotations false s = Some s.
Proof.
  intros Hpath. unfold clear_current_annotations. rewrite Hpath.
  destruct (dict_get (annotations s) (OsPath.basename path)) as [entry|] eqn:Hentry;
    [|destruct (original_pil_image s) as [size|]; [|discriminate]];
    intros [= <-];
    match goal with |- context [refresh_display ?t] =>
      destruct (refresh_display_frame t) as (_ & _ & _ & _ & _ & Ha & Hf & _) end;
    rewrite Ha, Hf;
    cbn [annotations set_annotations set_has_unsaved_changes has_unsaved_changes];
    (split; [eexists; split; [apply dict_get_set_eq | reflexivity]|]);
    (split; [intros other Hne; apply dict_get_set_ne; congruence|]);
    split; reflexivity.
Qed.

Lemma clear_keeps_the_record_witness :
  exists s',
    clear_current_annotations true two_images_app = Some s' /\
    has_unsaved_changes s' = true /\
    dict_get (annotations s') "b.png" = dict_get (annotations two_images_app) "b.png".
Proof.
  eexists. split; [reflexivity|].
  destruct (clear_keeps_the_record two_images_app _ "/data/a.png"%string eq_refl eq_refl)
    as (_ & Hother & Hflag & _).
  split; [exact Hflag|]. apply Hother. discriminate.
Defined.

(** *** Finished gestures *)

(** What a release that passes its guards does: either the gesture yields
    no coordinates and only the drawing state is reset, or one annotation
    with the gesture's coordinates is appended for the current image. *)
Lemma on_mouse_release_cases rnd hypot ev s s' :
  on_mouse_release rnd hypot ev s = Some s' ->
  s' = reset_drawing_state s \/
  exists start_x path size coords,
    start_x_canvas (drawing s) = Some start_x /\
    current_image_path s = Some path /\
    gesture_coords rnd hypot s start_x (start_y_canvas (drawing s))
      (canvasx (event_x ev)) (canvasx (event_y ev)) = Some coords /\
    coords <> [] /\ current_class_var s <> ""%string /\
    is_panning (pan s) = false /\
    s' = reset_drawing_state
           (set_has_unsaved_changes true
              (set_annotations
                 (append_annotation (annotations s) (OsPath.basename path) size
                    {| label := current_class_var s; type := drawing_tool_var s;
                       coordinates_original := coords |}) s)).
Proof.
  unfold on_mouse_release.
  destruct (is_panning (pan s)) eqn:Hpan; [intros [= <-]; left; reflexivity|].
  destruct (String.eqb (drawing_tool_var s) "select");
    [intros [= <-]; left; reflexivity|].
  destruct (start_x_canvas (drawing s)) as [start_x|] eqn:Hsx;
    [|intros [= <-]; left; reflexivity].
  destruct (falsy (Some start_x)); [intros [= <-]; left; reflexivity|].
  cbn [orb].
  destruct (String.eqb_spec (current_class_var s) ""); [intros [= <-]; left; reflexivity|].
  change (default 0 (Some start_x)) with start_x.
  destruct (gesture_coords rnd hypot s start_x (start_y_canvas (drawing s))
              (canvasx (event_x ev)) (canvasx (event_y ev))) as [[|c coords]|] eqn:Hg;
    [intros [= <-]; left; reflexivity | | discriminate].
  destruct (current_image_path s) as [path|]; [|discriminate].
  destruct (dict_get (annotations s) (OsPath.basename path)) as [entry|];
    [|destruct (original_pil_image s) as [size|]; [|discriminate]];
    intros [= <-]; right; eexists start_x, path, _, (c :: coords);
    repeat split; try reflexivity; try assumption; discriminate.
Qed.

(** X14.  A release of the pointer always resets the drawing state, and
    changes the store by at most one annotation: it is appended at the end
    of the current image's list, carries the selected class (which is not
    empty), the selected tool as its type and a non-empty coordinate list,
    and the dirty flag is set; the entries of the other images stay.  This
    holds whatever the rounding of the float operations. *)
Theorem release_appends_at_most_one (rnd : Q -> Q) (hypot : Q -> Q -> Q)
    (s s' : app) (ev : event) :
  on_mouse_release rnd hypot ev s = Some s' ->
  drawing s' = {| start_x_canvas := None; start_y_canvas := None;
                  current_freehand_points_canvas := [] |} /\
  (annotations s' = annotations s /\
     has_unsaved_changes s' = has_unsaved_changes s \/
   exists path entry' ann,
     current_image_path s = Some path /\
     dict_get (annotations s') (OsPath.basename path) = Some entry' /\
     AnnotationFile.annotations entry' =
       match dict_get (annotations s) (OsPath.basename path) with
       | Some entry => AnnotationFile.annotations entry
       | None => []
       end ++ [ann] /\
     label ann = current_class_var s /\ label ann <> ""%string /\
     type ann = drawing_tool_var s /\
     coordinates_original ann <> [] /\
     (forall other, other <> OsPath.basename path ->
        dict_get (annotations s') other = dict_get (annotations s) other) /\
     has_unsaved_changes s' = true).
Proof.
  intros Hrel.
  destruct (on_mouse_release_cases rnd hypot ev s s' Hrel)
    as [-> | (start_x & path & size & coords & _ & Hpath & _ & Hne & Hlbl & _ & ->)].
  - split; [reflexivity|]. left. split; reflexivity.
  - split; [reflexivity|]. right.
    cbn [annotations reset_drawing_state set_drawing set_has_unsaved_changes
         set_annotations has_unsaved_changes].
    eexists path, _, _. split; [exact Hpath|].
    split; [unfold append_annotation; apply dict_get_set_eq|].
    cbn [AnnotationFile.annotations label type coordinates_original].
    split.
    { destruct (dict_get (annotations s) (OsPath.basename path)); reflexivity. }
    repeat split; try assumption.
    intros other Hother. unfold append_annotation.
    apply dict_get_set_ne. congruence.
Qed.

Lemma release_appends_at_most_one_witness :
  exists s',
    on_mouse_release (fun q => q) (fun _ _ => 0) (pointer 60 60) pressed_app = Some s' /\
    drawing s' = {| start_x_canvas := None; start_y_canvas := None;
                    current_freehand_points_canvas := [] |}.
Proof.
  eexists. split; [vm_compute; reflexivity|].
  exact (proj1 (release_appends_at_most_one (fun q => q) (fun _ _ => 0) pressed_app _
                  (pointer 60 60) eq_refl)).
Defined.

(** X15.  What a release stores for the other two tools.  A line is stored
    as its two end points in the order drawn, mapped to the image, and only
    when their distance as the handler computes it, [math.hypot] of the
    float differences, is at least 1; a freehand stroke is stored as one
    point for each recorded canvas point, mapped to the image, and only when
    at least two were recorded. *)
Theorem released_line_and_freehand (rnd : Q -> Q) (hypot : Q -> Q -> Q)
    (s s' : app) (ev : event) :
  on_mouse_release rnd hypot ev s = Some s' ->
  annotations s' <> annotations s ->
  exists start_x path size coords,
    start_x_canvas (drawing s) = Some start_x /\
    annotations s' =
      append_annotation (annotations s) (OsPath.basename path) size
        {| label := current_class_var s; type := drawing_tool_var s;
           coordinates_original := coords |} /\
    (drawing_tool_var s = "line"%string ->
     exists start_y,
       start_y_canvas (drawing s) = Some start_y /\
       let p1 := view_to_original_coords_fl rnd s start_x start_y in
       let p2 := view_to_original_coords_fl rnd s
                   (canvasx (event_x ev)) (canvasx (event_y ev)) in
       coords = [Scalar p1.1; Scalar p1.2; Scalar p2.1; Scalar p2.2] /\
       1 <= hypot (rnd (p2.1 - p1.1)) (rnd (p2.2 - p1.2))) /\
    (drawing_tool_var s = "freehand"%string ->
     coords = map (fun p => Point (view_to_original_coords_fl rnd s p.1 p.2).1
                                  (view_to_original_coords_fl rnd s p.1 p.2).2)
                  (current_freehand_points_canvas (drawing s)) /\
     (2 <= length coords)%nat /\
     length coords = length (current_freehand_points_canvas (drawing s))).
Proof.
  intros Hrel Hchanged.
  destruct (on_mouse_release_cases rnd hypot ev s s' Hrel)
    as [-> | (start_x & path & size & coords & Hsx & Hpath & Hg & Hne & _ & _ & ->)].
  { contradiction Hchanged. reflexivity. }
  exists start_x, path, size, coords. split; [exact Hsx|]. split; [reflexivity|].
  unfold gesture_coords in Hg. split.
  - intros Htool. rewrite Htool in Hg.
    change (String.eqb "line" "rectangle") with false in Hg.
    change (String.eqb "line" "line") with true in Hg. cbv iota in Hg.
    destruct (start_y_canvas (drawing s)) as [start_y|]; [|discriminate].
    exists start_y. split; [reflexivity|]. cbv zeta.
    destruct (view_to_original_coords_fl rnd s start_x start_y) as [ox1 oy1].
    destruct (view_to_original_coords_fl rnd s (canvasx (event_x ev))
                (canvasx (event_y ev))) as [ox2 oy2].
    cbn [fst snd].
    destruct (Qle_bool 1 _) eqn:Hlen; injection Hg as <-; [|contradiction Hne; reflexivity].
    split; [reflexivity|]. apply Qle_bool_iff. exact Hlen.
  - intros Htool. rewrite Htool in Hg.
    change (String.eqb "freehand" "rectangle") with false in Hg.
    change (String.eqb "freehand" "line") with false in Hg.
    change (String.eqb "freehand" "freehand") with true in Hg. cbv iota in Hg.
    destruct (Nat.leb_spec 2 (length (current_freehand_points_canvas (drawing s))))
      as [Hlen | Hlen]; injection Hg as <-; [|contradiction Hne; reflexivity].
    split.
    + apply map_ext. intros p.
      destruct (view_to_original_coords_fl rnd s p.1 p.2). reflexivity.
    + rewrite length_map. split; [exact Hlen | reflexivity].
Qed.

(** A freehand stroke of three points on the small image. *)
Definition stroke_app : app :=
  set_drawing {| start_x_canvas := Some 10; start_y_canvas := Some 10;
                 current_freehand_points_canvas := [(10, 10); (20, 30); (40, 40)] |}
    {| image_files := image_files small_image_app;
       current_image_path := current_image_path small_image_app;
       original_pil_image := original_pil_image small_image_app;
       annotations := []; has_unsaved_changes := false;
       view := small_image_view; pan := idle_pan; drawing := idle_drawing;
       canvas_width := 100; canvas_height := 100;
       drawing_tool_var := "freehand"; current_class_var := "path" |}.

Lemma released_line_and_freehand_witness :
  exists s' start_x path size coords,
    on_mouse_release Py.binary64 (fun _ _ => 0) (pointer 40 40) stroke_app = Some s' /\
    start_x_canvas (drawing stroke_app) = Some start_x /\
    annotations s' =
      append_annotation (annotations stroke_app) (OsPath.basename path) size
        {| label := current_class_var stroke_app; type := drawing_tool_var stroke_app;
           coordinates_original := coords |} /\
    length coords = 3%nat.
Proof.
  eexists.
  destruct (released_line_and_freehand Py.binary64 (fun _ _ => 0) stroke_app _
              (pointer 40 40) eq_refl)
    as (start_x & path & size & coords & Hsx & Hann & _ & Hfree).
  - vm_compute. discriminate.
  - exists start_x, path, size, coords. split; [reflexivity|].
    split; [exact Hsx|]. split; [exact Hann|].
    destruct (Hfree eq_refl) as (_ & _ & Hlen). rewrite Hlen. reflexivity.
Defined.

End LabelingAppStoreSpec.

(** ** Moving between images *)

Module LabelingAppBrowseSpec.

Import LabelingApp LabelingAppView LabelingAppBrowse LabelingAppSpec LabelingAppViewSpec.

Section browsing.

Variable open_image : string -> option (Z * Z).
Variable w : world.

Local Abbreviation load := (load_image_and_annotations open_image w).

(** The index designates an image of the list. *)
Definition index_valid (b : browser) : Prop :=
  (0 <= current_image_index b < Z.of_nat (length (image_files (session b))))%Z.

(** What loading does to the parts of the state other than the view: the
    index and the list of images stay, the dirty flag stays, and the store
    either stays or gains the record read from disk for an image it did not
    hold. *)
Lemma load_image_and_annotations_effect b :
  let b' := load b in
  current_image_index b' = current_image_index b /\
  image_files (session b') = image_files (session b) /\
  has_unsaved_changes (session b') = has_unsaved_changes (session b) /\
  (annotations (session b') = annotations (session b) \/
   exists path loaded,
     image_files (session b) !! Z.to_nat (current_image_index b) = Some path /\
     is_Some (open_image path) /\
     dict_get (annotations (session b)) (OsPath.basename path) = None /\
     files w !! json_path_of path = Some loaded /\
     annotations (session b') =
       dict_set (annotations (session b)) (OsPath.basename path) loaded) /\
  (index_valid b ->
   current_image_path (session b') =
     image_files (session b) !! Z.to_nat (current_image_index b)).
Proof.
  cbv zeta. unfold load_image_and_annotations, index_valid.
  destruct (Z.leb_spec 0 (current_image_index b));
    [|cbn [andb]; repeat split; try (left; reflexivity); lia].
  destruct (Z.ltb_spec (current_image_index b)
              (Z.of_nat (length (image_files (session b)))));
    [|cbn [andb]; repeat split; try (left; reflexivity); lia].
  cbn [andb].
  destruct (image_files (session b) !! Z.to_nat (current_image_index b))
    as [path|] eqn:Hpath.
  2:{ apply lookup_ge_None in Hpath. lia. }
  destruct (open_image path) as [size|] eqn:Hopen; cbn [session current_image_index].
  - destruct (reset_view_keeps_store
                match dict_get (annotations (set_original_pil_image (Some size)
                                    (set_current_image_path (Some path) (session b))))
                        (OsPath.basename path) with
                | Some _ => set_original_pil_image (Some size)
                              (set_current_image_path (Some path) (session b))
                | None =>
                    match files w !! json_path_of path with
                    | Some loaded =>
                        set_annotations
                          (dict_set (annotations (set_original_pil_image (Some size)
                                       (set_current_image_path (Some path) (session b))))
                             (OsPath.basename path) loaded)
                          (set_original_pil_image (Some size)
                             (set_current_image_path (Some path) (session b)))
                    | None => set_original_pil_image (Some size)
                                (set_current_image_path (Some path) (session b))
                    end
                end) as (Ha & Hf & Hp & Hi).
    rewrite Ha, Hf, Hp, Hi.
    cbn [annotations set_original_pil_image set_current_image_path].
    destruct (dict_get (annotations (session b)) (OsPath.basename path)) eqn:Hget;
      [repeat split; left; reflexivity|].
    destruct (files w !! json_path_of path) as [loaded|] eqn:Hfile;
      [|repeat split; left; reflexivity].
    repeat split. right. exists path, loaded. repeat split; eauto.
  - destruct (refresh_display_keeps_store
                (set_original_pil_image None
                   (set_current_image_path (Some path) (session b))))
      as (Ha & Hf & Hp & Hi).
    rewrite Ha, Hf, Hp, Hi. repeat split. left. reflexivity.
Qed.

(** X16.  Loading an image never replaces or drops a record the store
    already holds, and never touches the dirty flag: edits made in the
    session survive moving to another image and back. *)
Theorem load_keeps_session_records (b : browser) (img_name : string)
    (entry : annotation_set) :
  dict_get (annotations (session b)) img_name = Some entry ->
  dict_get (annotations (session (load b))) img_name = Some entry /\
  has_unsaved_changes (session (load b)) = has_unsaved_changes (session b).
Proof.
  intros Hentry.
  destruct (load_image_and_annotations_effect b) as (_ & _ & Hflag & Hstore & _).
  split; [|exact Hflag].
  destruct Hstore as [-> | (path & loaded & _ & _ & Hnone & _ & ->)]; [exact Hentry|].
  rewrite dict_get_set_ne; [exact Hentry|].
  intros <-. congruence.
Qed.

(** X17.  Moving with "next", "previous" and "go to image" keeps the index
    inside the list of images, which itself does not change: "next" on the
    last image, "previous" on the first and a number outside 1..n do
    nothing, and after a move the current image is the one at the index. *)
Theorem navigation_keeps_index_valid (b : browser) (img_num : option Z) :
  index_valid b ->
  Forall (fun b' =>
            index_valid b' /\
            image_files (session b') = image_files (session b) /\
            (b' = b \/
             current_image_path (session b') =
               image_files (session b) !! Z.to_nat (current_image_index b')))
         [next_image open_image w b; prev_image open_image w b;
          jump_to_image open_image w img_num b] /\
  ((current_image_index b = Z.of_nat (length (image_files (session b))) - 1)%Z ->
   next_image open_image w b = b) /\
  (current_image_index b = 0%Z -> prev_image open_image w b = b) /\
  (forall n, (n < 1 \/ Z.of_nat (length (image_files (session b))) < n)%Z ->
             jump_to_image open_image w (Some n) b = b).
Proof.
  intros Hvalid. unfold index_valid in Hvalid.
  assert (forall i,
            (0 <= i < Z.of_nat (length (image_files (session b))))%Z ->
            let b' := load {| session := session b; current_image_index := i |} in
            index_valid b' /\
            image_files (session b') = image_files (session b) /\
            (b' = b \/
             current_image_path (session b') =
               image_files (session b) !! Z.to_nat (current_image_index b'))) as Hmove.
  { intros i Hi b'.
    destruct (load_image_and_annotations_effect
                {| session := session b; current_image_index := i |})
      as (Hidx & Hfiles & _ & _ & Hpath).
    fold b' in Hidx, Hfiles, Hpath. cbn [session current_image_index] in *.
    unfold index_valid. rewrite Hidx, Hfiles.
    split; [exact Hi|]. split; [reflexivity|]. right. apply Hpath.
    unfold index_valid. cbn [session current_image_index]. exact Hi. }
  assert (index_valid b /\ image_files (session b) = image_files (session b) /\
          (b = b \/ current_image_path (session b) =
                    image_files (session b) !! Z.to_nat (current_image_index b)))
    as Hstay by (split; [exact Hvalid | split; [reflexivity | left; reflexivity]]).
  split; [|split; [|split]].
  - repeat apply Forall_cons_2; try apply Forall_nil_2.
    + unfold next_image. destruct (image_files (session b)) eqn:Hfiles; [cbn in Hvalid; lia|].
      rewrite <- Hfiles in *.
      destruct (Z.ltb_spec (current_image_index b)
                  (Z.of_nat (length (image_files (session b))) - 1)); [|exact Hstay].
      apply Hmove. lia.
    + unfold prev_image. destruct (image_files (session b)) eqn:Hfiles; [cbn in Hvalid; lia|].
      rewrite <- Hfiles in *.
      destruct (Z.ltb_spec 0 (current_image_index b)); [|exact Hstay].
      apply Hmove. lia.
    + unfold jump_to_image. destruct (image_files (session b)) eqn:Hfiles; [cbn in Hvalid; lia|].
      rewrite <- Hfiles in *.
      destruct img_num as [n|]; [|exact Hstay].
      destruct (Z.leb_spec 1 n); [|exact Hstay].
      destruct (Z.leb_spec n (Z.of_nat (length (image_files (session b)))));
        [|exact Hstay].
      cbn [andb]. apply Hmove. lia.
  - intros Hlast. unfold next_image. destruct (image_files (session b)); [reflexivity|].
    destruct (Z.ltb_spec (current_image_index b) (Z.of_nat (length (s :: l)) - 1));
      [lia | reflexivity].
  - intros Hfirst. unfold prev_image. destruct (image_files (session b)); [reflexivity|].
    destruct (Z.ltb_spec 0 (current_image_index b)); [lia | reflexivity].
  - intros n Hout. unfold jump_to_image.
    destruct (image_files (session b)) eqn:Hfiles; [reflexivity|]. rewrite <- Hfiles in *.
    destruct (Z.leb_spec 1 n);
      destruct (Z.leb_spec n (Z.of_nat (length (image_files (session b)))));
      cbn [andb]; try reflexivity; lia.
Qed.

End browsing.

Lemma load_keeps_session_records_witness :
  dict_get
    (annotations
       (session
          (load_image_and_annotations (fun _ => Some (50, 50)%Z) writable_world
             {| session := two_images_app; current_image_index := 1 |})))
    "a.png"
  = Some record_a.
Proof.
  exact (proj1 (load_keeps_session_records (fun _ => Some (50, 50)%Z) writable_world
                  {| session := two_images_app; current_image_index := 1 |}
                  "a.png"%string record_a eq_refl)).
Defined.

Lemma navigation_keeps_index_valid_witness :
  index_valid {| session := two_images_app; current_image_index := 0 |} /\
  index_valid (next_image (fun _ => Some (50, 50)%Z) writable_world
                 {| session := two_images_app; current_image_index := 0 |}).
Proof.
  assert (index_valid {| session := two_images_app; current_image_index := 0 |}) as H
    by (unfold index_valid; cbn; lia).
  split; [exact H|].
  destruct (navigation_keeps_index_valid (fun _ => Some (50, 50)%Z) writable_world
              {| session := two_images_app; current_image_index := 0 |} None H)
    as (Hall & _).
  apply Forall_cons in Hall as [(Hvalid & _) _]. exact Hvalid.
Defined.

End LabelingAppBrowseSpec.

(** ** The mask generator: size, paint order, viewable raster, image lookup *)

Module MaskGeneratorRasterSpec.

Import MaskGenerator MaskGeneratorSpec MaskGeneratorBatch.

(** [m] has [height] rows of [width] pixels each. *)
Definition has_shape (m : mask) (height width : Z) : Prop :=
  Z.of_nat (length m) = height /\
  Forall (fun row => Z.of_nat (length row) = width) m.

Lemma np_zeros_has_shape height width :
  0 <= height -> 0 <= width -> has_shape (np_zeros height width) height width.
Proof.
  intros Hh Hw. unfold has_shape, np_zeros. split.
  - rewrite length_replicate. lia.
  - apply Forall_replicate. rewrite length_replicate. lia.
Qed.

Lemma fill_box_has_shape m pt1 pt2 color height width :
  has_shape m height width -> has_shape (fill_box m pt1 pt2 color) height width.
Proof.
  intros [Hlen Hrows]. unfold has_shape, fill_box. split.
  - rewrite length_imap. exact Hlen.
  - apply Forall_lookup. intros i row Hrow.
    rewrite list_lookup_imap in Hrow.
    destruct (m !! i) as [row0|] eqn:Hrow0; [|discriminate].
    injection Hrow as <-. rewrite length_imap.
    rewrite Forall_lookup in Hrows. exact (Hrows i row0 Hrow0).
Qed.

Lemma cv2_rectangle_has_shape m pt1 pt2 color m' height width :
  cv2_rectangle m pt1 pt2 color = Some m' ->
  has_shape m height width -> has_shape m' height width.
Proof.
  unfold cv2_rectangle. destruct (_ && _)%bool; [|discriminate].
  intros [= <-]. apply fill_box_has_shape.
Qed.

Lemma has_shape_shape m height width :
  has_shape m height width -> 0 < height -> shape m = (height, width).
Proof.
  intros [Hlen Hrows] Hpos. unfold shape.
  destruct m as [|row m]; [simpl in Hlen; lia|].
  apply Forall_cons in Hrows as [Hrow _]. simpl in *. congruence.
Qed.

Section result_shape.

Variable cv2_line : mask -> Z * Z -> Z * Z -> Z -> Z -> option mask.
Variable cv2_polylines : mask -> list coord -> Z -> Z -> option mask.
Variable class_to_id_mapping : gmap string Z.
Variable line_thickness : Z.

(** The stroking primitives draw in place: the raster keeps its
    dimensions. *)
Hypothesis cv2_line_in_place :
  forall m pt1 pt2 color thickness m' height width,
    cv2_line m pt1 pt2 color thickness = Some m' ->
    has_shape m height width -> has_shape m' height width.
Hypothesis cv2_polylines_in_place :
  forall m pts color thickness m' height width,
    cv2_polylines m pts color thickness = Some m' ->
    has_shape m height width -> has_shape m' height width.

Lemma draw_shape_has_shape m ann_idx ann_type coords class_id height width :
  has_shape m height width ->
  has_shape (draw_shape cv2_line cv2_polylines line_thickness m ann_idx ann_type
               coords class_id).1 height width.
Proof.
  intros Hm. unfold draw_shape.
  repeat (match goal with
          | |- context [cv2_rectangle ?a ?b ?c ?d] =>
              destruct (cv2_rectangle a b c d) eqn:?
          | |- context [cv2_line ?a ?b ?c ?d ?e] =>
              destruct (cv2_line a b c d e) eqn:?
          | |- context [cv2_polylines ?a ?b ?c ?d] =>
              destruct (cv2_polylines a b c d) eqn:?
          | |- context [if ?b then _ else _] => destruct b
          | |- context [match ?o with Some _ => _ | None => _ end] => destruct o
          | |- context [match ?l with [] => _ | _ :: _ => _ end] => destruct l
          end; cbn [fst]; try exact Hm);
    eauto using cv2_rectangle_has_shape.
Qed.

Lemma draw_all_has_shape m ann_idx anns height width :
  has_shape m height width ->
  has_shape (draw_all cv2_line cv2_polylines class_to_id_mapping line_thickness
               m ann_idx anns).1 height width.
Proof.
  revert m ann_idx. induction anns as [|ann anns IH]; intros m ann_idx Hm;
    cbn [draw_all]; [exact Hm|].
  assert (has_shape (draw_annotation cv2_line cv2_polylines class_to_id_mapping
                       line_thickness m ann_idx ann).1 height width) as Hone.
  { unfold draw_annotation.
    destruct (truthy (label ann)), (truthy (type ann)), (coordinates_original ann);
      try exact Hm.
    destruct (class_to_id_mapping !! _); [|exact Hm].
    apply draw_shape_has_shape. exact Hm. }
  destruct (draw_annotation _ _ _ _ m ann_idx ann) as [m1 log1].
  specialize (IH m1 (S ann_idx) Hone).
  destruct (draw_all _ _ _ _ m1 (S ann_idx) anns) as [m2 log2]. exact IH.
Qed.

Lemma result_shape_of_create_mask (annotation_data : annotation_data)
    (img : image_file) :
  match (create_mask_from_annotations cv2_line cv2_polylines annotation_data img
           class_to_id_mapping line_thickness).1 with
  | Some (m, size) =>
      exists width height,
        (resolve_size annotation_data img).1 = Some (width, height) /\
        0 < width /\ 0 < height /\ size = (width, height) /\
        has_shape m height width /\ shape m = (height, width)
  | None =>
      (resolve_size annotation_data img).1 = None \/
      exists width height,
        (resolve_size annotation_data img).1 = Some (width, height) /\
        (width <= 0 \/ height <= 0)
  end.
Proof.
  unfold create_mask_from_annotations.
  destruct (resolve_size annotation_data img) as [[[width height]|] log0];
    cbn [fst]; [|left; reflexivity].
  destruct (Z.leb_spec width 0) as [Hw|Hw]; cbn [orb fst].
  { right. exists width, height. split; [reflexivity | left; exact Hw]. }
  destruct (Z.leb_spec height 0) as [Hh|Hh]; cbn [fst].
  { right. exists width, height. split; [reflexivity | right; exact Hh]. }
  assert (has_shape (np_zeros height width) height width) as Hzero
    by (apply np_zeros_has_shape; lia).
  destruct (annotations annotation_data) as [[|ann anns]|]; cbn [fst].
  - exists width, height. repeat split; try assumption.
    + apply Hzero.
    + apply Hzero.
    + apply has_shape_shape; assumption.
  - pose proof (draw_all_has_shape (np_zeros height width) 0 (ann :: anns)
                  height width Hzero) as Hdrawn.
    destruct (draw_all _ _ _ _ (np_zeros height width) 0 (ann :: anns)) as [m' log1].
    cbn [fst] in *. exists width, height. repeat split; try assumption.
    + apply Hdrawn.
    + apply Hdrawn.
    + apply has_shape_shape; assumption.
  - exists width, height. repeat split; try assumption.
    + apply Hzero.
    + apply Hzero.
    + apply has_shape_shape; assumption.
Qed.

End result_shape.

(** X19.  [create_mask_from_annotations] returns a raster exactly when the
    image size can be determined (from the record or from the image file)
    and both dimensions are positive; the raster then has [height] rows of
    [width] pixels and is returned with the size [(width, height)],
    whatever the annotations are.  The stroking primitives are assumed to
    draw in place. *)
Theorem create_mask_result_shape
    (cv2_line : mask -> Z * Z -> Z * Z -> Z -> Z -> option mask)
    (cv2_polylines : mask -> list coord -> Z -> Z -> option mask)
    (class_to_id_mapping : gmap string Z) (line_thickness : Z)
    (annotation_data : annotation_data) (img : image_file) :
  (forall m pt1 pt2 color thickness m' height width,
      cv2_line m pt1 pt2 color thickness = Some m' ->
      has_shape m height width -> has_shape m' height width) ->
  (forall m pts color thickness m' height width,
      cv2_polylines m pts color thickness = Some m' ->
      has_shape m height width -> has_shape m' height width) ->
  match (create_mask_from_annotations cv2_line cv2_polylines annotation_data img
           class_to_id_mapping line_thickness).1 with
  | Some (m, size) =>
      exists width height,
        (resolve_size annotation_data img).1 = Some (width, height) /\
        0 < width /\ 0 < height /\ size = (width, height) /\
        has_shape m height width /\ shape m = (height, width)
  | None =>
      (resolve_size annotation_data img).1 = None \/
      exists width height,
        (resolve_size annotation_data img).1 = Some (width, height) /\
        (width <= 0 \/ height <= 0)
  end.
Proof.
  intros Hline Hpoly.
  apply result_shape_of_create_mask; assumption.
Qed.

(** A line primitive that marks the first end point, for the instance
    below. *)
Definition mark_first_point (m : mask) (pt1 pt2 : Z * Z) (color thickness : Z)
  : option mask :=
  Some (fill_box m pt1 pt1 color).

Definition one_line : annotation_data :=
  {| annotations :=
       Some [ {| label := Some "lines"%string; type := Some "line"%string;
                 coordinates_original :=
                   Some [Scalar 1; Scalar 1; Scalar 3; Scalar 2] |} ];
     original_size := None |}.

Lemma create_mask_result_shape_witness :
  exists m, (create_mask_from_annotations mark_first_point (fun _ _ _ _ => None)
               one_line (ImageRead 4 3) lines_table DEFAULT_LINE_THICKNESS).1
            = Some (m, (4, 3)) /\ has_shape m 3 4.
Proof.
  pose proof (create_mask_result_shape mark_first_point (fun _ _ _ _ => None)
                lines_table DEFAULT_LINE_THICKNESS one_line (ImageRead 4 3)) as H.
  destruct (create_mask_from_annotations mark_first_point (fun _ _ _ _ => None)
              one_line (ImageRead 4 3) lines_table DEFAULT_LINE_THICKNESS).1
    as [[m size]|] eqn:Hres; [|vm_compute in Hres; discriminate].
  destruct H as (width & height & Hsize & _ & _ & -> & Hshape & _).
  - intros m0 pt1 pt2 color thickness m' h w [= <-].
    apply fill_box_has_shape.
  - intros m0 pts color thickness m' h w [=].
  - injection Hsize as <- <-. exists m. split; [reflexivity | exact Hshape].
Defined.

(** *** Paint order *)

Section paint_order.

Variable cv2_line : mask -> Z * Z -> Z * Z -> Z -> Z -> option mask.
Variable cv2_polylines : mask -> list coord -> Z -> Z -> option mask.
Variable class_to_id_mapping : gmap string Z.
Variable line_thickness : Z.

Lemma in_box_sorted x1 y1 x2 y2 x y :
  in_box (Z.min x1 x2, Z.min y1 y2) (Z.max x1 x2, Z.max y1 y2) x y =
  (Z.min x1 x2 <=? x) && (x <=? Z.max x1 x2) &&
  (Z.min y1 y2 <=? y) && (y <=? Z.max y1 y2).
Proof.
  unfold in_box. cbn [fst snd].
  rewrite (Z.min_l (Z.min x1 x2) (Z.max x1 x2)) by lia.
  rewrite (Z.max_r (Z.min x1 x2) (Z.max x1 x2)) by lia.
  rewrite (Z.min_l (Z.min y1 y2) (Z.max y1 y2)) by lia.
  rewrite (Z.max_r (Z.min y1 y2) (Z.max y1 y2)) by lia.
  reflexivity.
Qed.

(** The sorted corners fit a C [int] exactly when the four coordinates
    do. *)
Lemma cv2_rectangle_sorted m x1 y1 x2 y2 color :
  cv2_rectangle m (Z.min x1 x2, Z.min y1 y2) (Z.max x1 x2, Z.max y1 y2) color =
  if fits_c_int x1 && fits_c_int y1 && fits_c_int x2 && fits_c_int y2
  then Some (fill_box m (Z.min x1 x2, Z.min y1 y2) (Z.max x1 x2, Z.max y1 y2) color)
  else None.
Proof.
  unfold cv2_rectangle. cbn [fst snd].
  assert (fits_c_int (Z.min x1 x2) && fits_c_int (Z.min y1 y2) &&
          fits_c_int (Z.max x1 x2) && fits_c_int (Z.max y1 y2) =
          fits_c_int x1 && fits_c_int y1 && fits_c_int x2 && fits_c_int y2) as ->.
  { apply Bool.eq_iff_eq_true. unfold fits_c_int.
    rewrite !andb_true_iff, !Z.leb_le. lia. }
  reflexivity.
Qed.

Lemma draw_rectangle_annotation m ann_idx lbl class_id a b c d :
  lbl <> EmptyString -> class_to_id_mapping !! lbl = Some class_id ->
  draw_annotation cv2_line cv2_polylines class_to_id_mapping line_thickness m ann_idx
    {| label := Some lbl; type := Some "rectangle"%string;
       coordinates_original := Some [Scalar a; Scalar b; Scalar c; Scalar d] |}
  = if fits_c_int (Py.round a) && fits_c_int (Py.round b) &&
       fits_c_int (Py.round c) && fits_c_int (Py.round d)
    then (fill_box m
            (Z.min (Py.round a) (Py.round c), Z.min (Py.round b) (Py.round d))
            (Z.max (Py.round a) (Py.round c), Z.max (Py.round b) (Py.round d))
            class_id, [])
    else (m, [ErrorDrawing ann_idx "rectangle"]).
Proof.
  intros Hlbl Hid. unfold draw_annotation. cbn [label type coordinates_original].
  destruct lbl as [|ch lbl]; [contradiction|].
  cbn [truthy]. rewrite Hid. unfold draw_shape.
  cbn -[Py.round Z.min Z.max cv2_rectangle fits_c_int].
  rewrite cv2_rectangle_sorted. destruct (_ && _)%bool; reflexivity.
Qed.

End paint_order.

(** X20.  For a valid image size, the annotations are painted in list
    order and a later one paints over the earlier ones.  When the last
    annotation is a rectangle with a non-empty label of the class table
    whose id fits a C [int], and its four rounded coordinates fit a C
    [int], the raster carries that class id (saturated to 0..255)
    on every pixel between the rounded corners, both included and in
    whichever order the corners are given, and elsewhere is the raster of
    the preceding annotations alone.  When a rounded coordinate does not
    fit a C [int], the drawing call fails: the raster is that of the
    preceding annotations and the log holds the drawing error of this
    annotation. *)
Theorem last_rectangle_paints_over
    (cv2_line : mask -> Z * Z -> Z * Z -> Z -> Z -> option mask)
    (cv2_polylines : mask -> list coord -> Z -> Z -> option mask)
    (class_to_id_mapping : gmap string Z) (line_thickness : Z)
    (img : image_file) (size : option (list Z)) (before : list annotation)
    (lbl : string) (class_id : Z) (a b c d : Q) (width height : Z) :
  (resolve_size {| annotations := Some before; original_size := size |} img).1
    = Some (width, height) ->
  0 < width -> 0 < height ->
  lbl <> EmptyString -> class_to_id_mapping !! lbl = Some class_id ->
  fits_c_int class_id = true ->
  let result :=
    create_mask_from_annotations cv2_line cv2_polylines
      {| annotations :=
           Some (before ++
                 [ {| label := Some lbl; type := Some "rectangle"%string;
                      coordinates_original :=
                        Some [Scalar a; Scalar b; Scalar c; Scalar d] |} ]);
         original_size := size |}
      img class_to_id_mapping line_thickness in
  exists m0 m,
    (create_mask_from_annotations cv2_line cv2_polylines
       {| annotations := Some before; original_size := size |}
       img class_to_id_mapping line_thickness).1 = Some (m0, (width, height)) /\
    result.1 = Some (m, (width, height)) /\
    (fits_c_int (Py.round a) && fits_c_int (Py.round b) &&
     fits_c_int (Py.round c) && fits_c_int (Py.round d) = true ->
     forall x y,
       pixel m x y =
       (fun v =>
          if (Z.min (Py.round a) (Py.round c) <=? x) &&
             (x <=? Z.max (Py.round a) (Py.round c)) &&
             (Z.min (Py.round b) (Py.round d) <=? y) &&
             (y <=? Z.max (Py.round b) (Py.round d))
          then saturate_u8 class_id else v) <$> pixel m0 x y) /\
    (fits_c_int (Py.round a) && fits_c_int (Py.round b) &&
     fits_c_int (Py.round c) && fits_c_int (Py.round d) = false ->
     m = m0 /\ ErrorDrawing (length before) "rectangle" ∈ result.2).
Proof.
  intros Hsize Hw Hh Hlbl Hid _ result. subst result.
  unfold create_mask_from_annotations, resolve_size in *.
  cbn [annotations original_size] in *.
  destruct (match size with Some [w; h] => _ | _ => _ end) as [[[w h]|] log0];
    cbn [fst] in Hsize; [|discriminate].
  injection Hsize as -> ->.
  destruct (Z.leb_spec width 0); [lia|].
  destruct (Z.leb_spec height 0); [lia|]. cbn [orb].
  pose proof (draw_all_app cv2_line cv2_polylines class_to_id_mapping line_thickness
                (np_zeros height width) 0 before
                [ {| label := Some lbl; type := Some "rectangle"%string;
                     coordinates_original :=
                       Some [Scalar a; Scalar b; Scalar c; Scalar d] |} ]) as Happ.
  cbn [draw_all] in Happ.
  destruct (draw_all cv2_line cv2_polylines class_to_id_mapping line_thickness
              (np_zeros height width) 0 before) as [m0 log1] eqn:Hbefore.
  rewrite (draw_rectangle_annotation cv2_line cv2_polylines class_to_id_mapping
             line_thickness m0 (0 + length before) lbl class_id a b c d Hlbl Hid)
    in Happ.
  revert Happ.
  destruct (before ++ _) as [|ann0 rest] eqn:Hlist.
  { destruct before; discriminate. }
  rewrite <- Hlist. intros Happ. rewrite Happ.
  exists m0.
  destruct (fits_c_int (Py.round a) && fits_c_int (Py.round b) &&
            fits_c_int (Py.round c) && fits_c_int (Py.round d)).
  - eexists. split; [|split; [reflexivity|split; [|discriminate]]].
    + destruct before as [|ann1 before]; [|reflexivity].
      cbn [draw_all] in Hbefore. injection Hbefore as <- _. reflexivity.
    + intros _ x y. cbn [fst]. rewrite pixel_fill_box, in_box_sorted. reflexivity.
  - exists m0. split; [|split; [reflexivity|split; [discriminate|]]].
    + destruct before as [|ann1 before]; [|reflexivity].
      cbn [draw_all] in Hbefore. injection Hbefore as <- _. reflexivity.
    + intros _. split; [reflexivity|]. simpl.
      apply elem_of_app. right. apply elem_of_app. right.
      apply elem_of_cons. left. reflexivity.
Qed.

Lemma last_rectangle_paints_over_witness :
  exists m0 m,
    (create_mask_from_annotations (fun _ _ _ _ _ => None) (fun _ _ _ _ => None)
       {| annotations := Some [lines_rectangle]; original_size := Some [100; 100] |}
       NoImageDir CLASS_MAPPING DEFAULT_LINE_THICKNESS).1 = Some (m0, (100, 100)) /\
    (create_mask_from_annotations (fun _ _ _ _ _ => None) (fun _ _ _ _ => None)
       {| annotations :=
            Some ([lines_rectangle] ++
                  [ {| label := Some "object"%string; type := Some "rectangle"%string;
                       coordinates_original :=
                         Some [Scalar 60; Scalar 40; Scalar 30; Scalar 20] |} ]);
          original_size := Some [100; 100] |}
       NoImageDir CLASS_MAPPING DEFAULT_LINE_THICKNESS).1 = Some (m, (100, 100)) /\
    forall x y,
      pixel m x y =
      (fun v =>
         if (Z.min (Py.round 60) (Py.round 30) <=? x) &&
            (x <=? Z.max (Py.round 60) (Py.round 30)) &&
            (Z.min (Py.round 40) (Py.round 20) <=? y) &&
            (y <=? Z.max (Py.round 40) (Py.round 20))
         then saturate_u8 2 else v) <$> pixel m0 x y.
Proof.
  destruct (last_rectangle_paints_over (fun _ _ _ _ _ => None) (fun _ _ _ _ => None)
              CLASS_MAPPING DEFAULT_LINE_THICKNESS NoImageDir (Some [100; 100])
              [lines_rectangle] "object"%string 2 60 40 30 20 100 100)
    as (m0 & m & Hbefore & Hafter & Hin & _).
  - reflexivity.
  - lia.
  - lia.
  - discriminate.
  - reflexivity.
  - reflexivity.
  - exists m0, m. split; [exact Hbefore|]. split; [exact Hafter|].
    apply Hin. reflexivity.
Defined.

(** *** The viewable raster, continued *)

Lemma rescale_value_other items scale r v :
  (forall item, item ∈ items -> snd item <> 0 -> r <> snd item) ->
  rescale_value items scale r v = v.
Proof.
  revert v. induction items as [|item items IH]; intros v Hother; [reflexivity|].
  cbn [rescale_value foldl].
  assert (forall it, it ∈ items -> it.2 <> 0 -> r <> it.2) as Hrest
    by (intros it Hit; apply Hother; apply elem_of_cons; right; exact Hit).
  destruct (Z.eqb_spec item.2 0) as [_|Hnz]; [apply IH, Hrest|].
  destruct (Z.eqb_spec r item.2) as [Heq|_]; [|apply IH, Hrest].
  exfalso. apply (Hother item); [apply elem_of_cons; left; reflexivity | exact Hnz | exact Heq].
Qed.

Lemma pixel_rescale_items_None items scale raw visual x y :
  pixel raw x y = None -> pixel visual x y = None ->
  pixel (rescale_items items scale raw visual) x y = None.
Proof.
  intros Hr. revert visual.
  induction items as [|item items IH]; intros visual Hv; cbn [rescale_items foldl];
    [exact Hv|].
  apply IH. destruct (item.2 =? 0); [exact Hv|].
  rewrite pixel_assign_where, Hr. reflexivity.
Qed.

Lemma pixel_zeros_like_None raw x y :
  rectangular raw -> pixel raw x y = None ->
  pixel (np_zeros (shape raw).1 (shape raw).2) x y = None.
Proof.
  intros Hrect Hnone.
  destruct (pixel (np_zeros (shape raw).1 (shape raw).2) x y) as [v|] eqn:Hz;
    [|reflexivity].
  exfalso. apply pixel_Some in Hz as (Hx & Hy & row & Hrow & Hv).
  unfold np_zeros, shape in Hrow, Hv. cbn [fst snd] in Hrow, Hv.
  apply lookup_replicate in Hrow as [-> Hylt].
  apply lookup_replicate in Hv as [_ Hxlt].
  rewrite Nat2Z.id in Hylt, Hxlt.
  destruct (lookup_lt_is_Some_2 raw (Z.to_nat y) Hylt) as [row Hrow].
  assert (length row = length (default [] (head raw))) as Hlen.
  { unfold rectangular in Hrect. rewrite Forall_forall in Hrect.
    apply Hrect. eapply list_elem_of_lookup_2. exact Hrow. }
  rewrite <- Hlen in Hxlt.
  destruct (lookup_lt_is_Some_2 row (Z.to_nat x) Hxlt) as [r Hr].
  assert (pixel raw x y = Some r) as Hsome
    by (apply pixel_Some; repeat split; eauto).
  congruence.
Qed.

(** X21.  The viewable raster has a pixel exactly where the class raster has
    one; its values lie between 0 and 255, and a pixel is non-zero exactly
    when the class raster holds there the id of a non-background class of
    the table: background pixels and pixels of a value outside the table
    stay black. *)
Theorem visual_mask_marks_classes (raw : mask) (x y : Z) :
  rectangular raw ->
  match pixel raw x y with
  | None => pixel (visual_mask raw) x y = None
  | Some k =>
      exists v, pixel (visual_mask raw) x y = Some v /\ 0 <= v <= 255 /\
                (0 < v <-> is_class_id k /\ k <> 0)
  end.
Proof.
  intros Hrect.
  destruct (pixel raw x y) as [k|] eqn:Hk.
  2:{ unfold visual_mask. apply pixel_rescale_items_None; [exact Hk|].
      apply pixel_zeros_like_None; assumption. }
  rewrite (pixel_visual_mask raw x y k Hrect Hk). eexists. split; [reflexivity|].
  destruct (decide (k ∈ [1; 2; 3; 4; 5; 6; 7])) as [Hin | Hout].
  - assert (is_class_id k /\ k <> 0 /\
            0 < rescale_value (map_to_list CLASS_MAPPING) (scale_factor CLASS_MAPPING) k 0
              <= 255) as (Hid & Hnz & Hrange).
    { repeat (apply elem_of_cons in Hin as [-> | Hin];
              [split; [| split; [lia | vm_compute; split; [reflexivity | discriminate]]]|]);
        [exists "lines"%string | exists "object"%string | exists "person"%string
        | exists "vehicle"%string | exists "animal"%string | exists "marker"%string
        | exists "path"%string | inversion Hin]; reflexivity. }
    split; [lia|]. split; [intros _; split; assumption | intros _; lia].
  - rewrite rescale_value_other.
    + split; [lia|]. split; [lia|]. intros [Hid Hnz]. exfalso. apply Hout.
      apply class_ids in Hid. cbn [In] in Hid.
      destruct Hid as [<- | [<- | [<- | [<- | [<- | [<- | [<- | [<- | []]]]]]]]];
        [congruence | ..]; apply (bool_decide_unpack _); reflexivity.
    + intros [class_name id] Hitem Hnz ->. apply Hout. cbn [snd] in *.
      apply elem_of_map_to_list in Hitem.
      assert (is_class_id id) as Hid by (exists class_name; exact Hitem).
      apply class_ids in Hid. cbn [In] in Hid.
      destruct Hid as [<- | [<- | [<- | [<- | [<- | [<- | [<- | [<- | []]]]]]]]];
        [congruence | ..]; apply (bool_decide_unpack _); reflexivity.
Qed.

Lemma visual_mask_marks_classes_witness :
  exists v, pixel (visual_mask [[0; 9; 2]]) 2 0 = Some v /\ 0 <= v <= 255 /\
            (0 < v <-> is_class_id 2 /\ 2 <> 0).
Proof.
  assert (rectangular [[0; 9; 2]]) as Hrect by (repeat constructor).
  exact (visual_mask_marks_classes [[0; 9; 2]] 2 0 Hrect).
Defined.

(** *** The image of a record *)

(** X22.  [find_matching_image] tries the extensions .png, .jpg, .jpeg,
    .bmp, .tiff, .tif in this order and returns the base name with the
    first one for which the file exists in the image folder, so that a .png
    is preferred to a .jpg of the same name; it returns nothing exactly when
    no such file exists. *)
Theorem find_matching_image_first (exists_path : string -> bool)
    (image_dir base_name : string) :
  match find_matching_image exists_path image_dir base_name with
  | Some image_name =>
      exists before ext after,
        IMAGE_EXTENSIONS = before ++ ext :: after /\
        image_name = (base_name ++ ext)%string /\
        exists_path (OsPath.join image_dir image_name) = true /\
        forall e, e ∈ before ->
          exists_path (OsPath.join image_dir (base_name ++ e)%string) = false
  | None =>
      forall e, e ∈ IMAGE_EXTENSIONS ->
        exists_path (OsPath.join image_dir (base_name ++ e)%string) = false
  end.
Proof.
  unfold find_matching_image. generalize IMAGE_EXTENSIONS as exts.
  induction exts as [|ext exts IH]; cbn [first_existing].
  - intros e He. inversion He.
  - destruct (exists_path (OsPath.join image_dir (base_name ++ ext)%string)) eqn:Hext.
    + exists [], ext, exts. repeat split; [exact Hext|]. intros e He. inversion He.
    + destruct (first_existing exists_path image_dir base_name exts) as [image_name|].
      * destruct IH as (before & ext' & after & -> & -> & Hfound & Hbefore).
        exists (ext :: before), ext', after. repeat split; [exact Hfound|].
        intros e [-> | He]%elem_of_cons; [exact Hext | apply Hbefore, He].
      * intros e [-> | He]%elem_of_cons; [exact Hext | apply IH, He].
Qed.

End MaskGeneratorRasterSpec.

(** ** The converter: which annotations are emitted *)

Module JsonGeneratorOutputSpec.

Import JsonGenerator JsonGeneratorSpec.

(** The annotation emitted for a contour of the class [lbl]. *)
Definition contour_annotation (lbl : string) (c : contour) : annotation :=
  {| label := lbl; type := "freehand"; coordinates_original := to_coords c |}.

Lemma cross_sum_pair p q : cross_sum q [p; q] = 0.
Proof. cbn [cross_sum]. lia. Qed.

(** A contour of fewer than three points encloses no area. *)
Lemma contourArea_short c :
  (length c < 3)%nat -> (cv2_contourArea c == 0)%Q.
Proof.
  destruct c as [|p [|q [|r c]]]; cbn [length]; intros Hlen; try lia.
  - reflexivity.
  - destruct p as [x y]. rewrite contourArea_single. reflexivity.
  - unfold cv2_contourArea. cbn [last]. rewrite cross_sum_pair. reflexivity.
Qed.

Lemma big_contour_length c :
  (4 <= cv2_contourArea c)%Q -> (3 <= length c)%nat.
Proof.
  intros Harea. destruct (le_lt_dec 3 (length c)) as [Hle | Hlt]; [exact Hle|].
  apply contourArea_short in Hlt. rewrite Hlt in Harea.
  exfalso. revert Harea. apply Qlt_not_le. reflexivity.
Qed.

Lemma normalize_big_contour c :
  (4 <= cv2_contourArea c)%Q -> normalize (squeeze_tolist c) = Some c.
Proof.
  intros Hlen%big_contour_length.
  destruct c as [|p [|q [|r c]]]; cbn [length] in Hlen; try lia. reflexivity.
Qed.

Section emitted.

Variable cv2_findContours : mask -> list contour.

Lemma contour_annotations_elem lbl contours anns :
  contour_annotations lbl contours = Some anns ->
  forall ann,
    ann ∈ anns <->
    exists c, c ∈ contours /\ (4 <= cv2_contourArea c)%Q /\
              ann = contour_annotation lbl c.
Proof.
  revert anns. induction contours as [|c contours IH]; intros anns;
    cbn [contour_annotations].
  - intros [= <-] ann. split.
    + intros Hin. inversion Hin.
    + intros (c & Hin & _). inversion Hin.
  - destruct (Qlt_le_dec (cv2_contourArea c) 4) as [Hsmall | Hbig].
    + intros Hrest ann. rewrite (IH anns Hrest ann). split.
      * intros (c' & Hin & Hrem). exists c'. split; [|exact Hrem].
        apply elem_of_cons. right. exact Hin.
      * intros (c' & [-> | Hin]%elem_of_cons & Harea & Hann).
        -- exfalso. revert Harea. apply Qlt_not_le. exact Hsmall.
        -- exists c'. auto.
    + rewrite (normalize_big_contour c Hbig).
      destruct (contour_annotations lbl contours) as [rest|]; [|discriminate].
      intros [= <-] ann. rewrite elem_of_cons, (IH rest eq_refl ann). split.
      * intros [-> | (c' & Hin & Hrem)].
        -- exists c. split; [apply elem_of_cons; left; reflexivity|].
           split; [exact Hbig | reflexivity].
        -- exists c'. split; [|exact Hrem]. apply elem_of_cons. right. exact Hin.
      * intros (c' & [-> | Hin]%elem_of_cons & Harea & Hann).
        -- left. exact Hann.
        -- right. exists c'. auto.
Qed.

Lemma class_annotations_total mask_image class_mapping :
  is_Some (class_annotations cv2_findContours mask_image class_mapping).
Proof.
  induction class_mapping as [|[pixel_value lbl] class_mapping [more IH]];
    cbn [class_annotations]; [eauto|].
  destruct (contour_annotations_total lbl
              (cv2_findContours (cv2_inRange mask_image pixel_value pixel_value)))
    as [anns ->].
  rewrite IH. eauto.
Qed.

Lemma class_annotations_elem mask_image class_mapping anns :
  class_annotations cv2_findContours mask_image class_mapping = Some anns ->
  forall ann,
    ann ∈ anns <->
    exists pixel_value lbl c,
      (pixel_value, lbl) ∈ class_mapping /\
      c ∈ cv2_findContours (cv2_inRange mask_image pixel_value pixel_value) /\
      (4 <= cv2_contourArea c)%Q /\ ann = contour_annotation lbl c.
Proof.
  revert anns.
  induction class_mapping as [|[pixel_value lbl] class_mapping IH]; intros anns;
    cbn [class_annotations].
  - intros [= <-] ann. split.
    + intros Hin. inversion Hin.
    + intros (pv & l & c & Hin & _). inversion Hin.
  - destruct (contour_annotations lbl
                (cv2_findContours (cv2_inRange mask_image pixel_value pixel_value)))
      as [here|] eqn:Hhere; [|discriminate].
    destruct (class_annotations cv2_findContours mask_image class_mapping)
      as [more|]; [|discriminate].
    intros [= <-] ann.
    rewrite elem_of_app, (contour_annotations_elem _ _ _ Hhere ann),
      (IH more eq_refl ann).
    split.
    + intros [(c & Hin & Hrem) | (pv & l & c & Hin & Hrem)].
      * exists pixel_value, lbl, c. split; [apply elem_of_cons; left; reflexivity|].
        split; [exact Hin | exact Hrem].
      * exists pv, l, c. split; [apply elem_of_cons; right; exact Hin | exact Hrem].
    + intros (pv & l & c & [[= -> ->] | Hin]%elem_of_cons & Hrem).
      * left. exists c. exact Hrem.
      * right. exists pv, l, c. auto.
Qed.

Lemma convert_annotations_elem mask_image class_mapping data :
  convert_mask_to_json_data cv2_findContours mask_image class_mapping = Some data ->
  forall ann,
    ann ∈ annotations data <->
    exists pixel_value lbl c,
      (pixel_value, lbl) ∈ class_mapping /\
      c ∈ cv2_findContours (cv2_inRange mask_image pixel_value pixel_value) /\
      (4 <= cv2_contourArea c)%Q /\ ann = contour_annotation lbl c.
Proof.
  unfold convert_mask_to_json_data.
  destruct (shape mask_image) as [height width].
  destruct (class_annotations cv2_findContours mask_image class_mapping)
    as [anns|] eqn:Hanns; [|discriminate].
  intros [= <-]. cbn [annotations]. apply class_annotations_elem. exact Hanns.
Qed.

End emitted.

(** X23.  [convert_mask_to_json_data] never fails, whatever contours the
    extraction returns; the record it builds carries the size of the mask
    as (width, height), and its annotations are exactly the contours of
    area 4 or more found for the classes of the mapping, each as a
    "freehand" annotation labelled with its class. *)
Theorem convert_emits_the_big_contours
    (cv2_findContours : mask -> list contour) (mask_image : mask)
    (class_mapping : list (Z * string)) :
  exists data,
    convert_mask_to_json_data cv2_findContours mask_image class_mapping = Some data /\
    original_size data = ((shape mask_image).2, (shape mask_image).1) /\
    forall ann,
      ann ∈ annotations data <->
      exists pixel_value lbl c,
        (pixel_value, lbl) ∈ class_mapping /\
        c ∈ cv2_findContours (cv2_inRange mask_image pixel_value pixel_value) /\
        (4 <= cv2_contourArea c)%Q /\
        ann = {| label := lbl; type := "freehand";
                 coordinates_original := to_coords c |}.
Proof.
  unfold convert_mask_to_json_data.
  destruct (shape mask_image) as [height width].
  destruct (class_annotations_total cv2_findContours mask_image class_mapping)
    as [anns Hanns].
  rewrite Hanns. eexists. split; [reflexivity|]. split; [reflexivity|].
  cbn [annotations]. apply class_annotations_elem. exact Hanns.
Qed.

(** An annotation of the converter as the mask generator reads it back
    from the JSON file: the three keys are present. *)
Definition as_loaded (ann : annotation) : MaskGenerator.annotation :=
  {| MaskGenerator.label := Some (label ann);
     MaskGenerator.type := Some (type ann);
     MaskGenerator.coordinates_original := Some (coordinates_original ann) |}.

(** X24.  Every annotation the converter emits is a "freehand" annotation
    of at least three points with integer coordinates.  Read back by the
    mask generator, whose loop asks a freehand stroke for two points, it is
    handed to the stroking primitive when its label is a key of the
    generator's class table; when its label is not in that table (the
    labels of the converter are free text) the loop skips it with the
    warning for an unknown label, and when its label is the empty string
    the loop skips it as incomplete. *)
Theorem emitted_annotation_is_drawable
    (cv2_findContours : mask -> list contour) (mask_image : mask)
    (class_mapping : list (Z * string)) (data : annotation_set) (ann : annotation)
    (cv2_line : mask -> Z * Z -> Z * Z -> Z -> Z -> option mask)
    (cv2_polylines : mask -> list coord -> Z -> Z -> option mask)
    (class_to_id_mapping : gmap string Z)
    (line_thickness : Z) (m : mask) (ann_idx : nat) :
  convert_mask_to_json_data cv2_findContours mask_image class_mapping = Some data ->
  ann ∈ annotations data ->
  type ann = "freehand"%string /\
  (3 <= length (coordinates_original ann))%nat /\
  Forall (fun p => exists x y, p = Point (inject_Z x) (inject_Z y))
         (coordinates_original ann) /\
  MaskGenerator.draw_annotation cv2_line cv2_polylines class_to_id_mapping
    line_thickness m ann_idx (as_loaded ann) =
  if String.eqb (label ann) "" then (m, [MaskGenerator.WarnIncomplete ann_idx])
  else
    match class_to_id_mapping !! label ann with
    | Some class_id =>
        match cv2_polylines m (coordinates_original ann) class_id line_thickness with
        | Some m' => (m', [])
        | None => (m, [MaskGenerator.ErrorDrawing ann_idx "freehand"])
        end
    | None => (m, [MaskGenerator.WarnLabelNotInMapping (label ann)])
    end.
Proof.
  intros Hconv Hin.
  destruct (convert_annotations_elem cv2_findContours mask_image
              class_mapping data Hconv ann) as [Hsound _].
  destruct (Hsound Hin) as (pixel_value & lbl & c & _ & _ & Harea & ->).
  apply big_contour_length in Harea.
  unfold contour_annotation in *. cbn [label type coordinates_original] in *.
  unfold to_coords.
  rewrite length_map.
  split; [reflexivity|]. split; [exact Harea|]. split.
  - apply Forall_map, Forall_forall. intros p _. eauto.
  - unfold MaskGenerator.draw_annotation, as_loaded.
    cbn [MaskGenerator.label MaskGenerator.type MaskGenerator.coordinates_original
         label type coordinates_original].
    destruct lbl as [|ch lbl]; [reflexivity|].
    cbn [MaskGenerator.truthy]. change (String.eqb (String ch lbl) "") with false.
    cbv iota.
    destruct (class_to_id_mapping !! String ch lbl) as [class_id|]; [|reflexivity].
    unfold MaskGenerator.draw_shape. cbn [String.eqb Ascii.eqb Bool.eqb].
    rewrite length_map.
    destruct (Nat.leb_spec 2 (length c)) as [_|Hlt]; [reflexivity | lia].
Qed.

(** A 4 x 4 block of the class 1 in a 6 x 6 mask, with its outline as the
    extraction returns it. *)
Definition block_mask : mask :=
  [[0; 0; 0; 0; 0; 0]; [0; 1; 1; 1; 1; 0]; [0; 1; 1; 1; 1; 0];
   [0; 1; 1; 1; 1; 0]; [0; 1; 1; 1; 1; 0]; [0; 0; 0; 0; 0; 0]].

Definition block_outline (binary_mask : mask) : list contour :=
  [[(1, 1); (1, 4); (4, 4); (4, 1)]].

Lemma emitted_annotation_is_drawable_witness :
  exists data ann,
    convert_mask_to_json_data block_outline block_mask [(1, "lines"%string)]
      = Some data /\
    ann ∈ annotations data /\
    type ann = "freehand"%string /\
    (3 <= length (coordinates_original ann))%nat /\
    MaskGenerator.draw_annotation (fun _ _ _ _ _ => None) (fun m _ _ _ => Some m)
      MaskGenerator.CLASS_MAPPING 5 [] 0%nat (as_loaded ann) = ([], []).
Proof.
  eexists. eexists.
  split; [reflexivity|].
  assert ({| label := "lines"%string; type := "freehand"%string;
             coordinates_original :=
               to_coords [(1, 1); (1, 4); (4, 4); (4, 1)] |}
          ∈ [ {| label := "lines"%string; type := "freehand"%string;
                 coordinates_original :=
                   to_coords [(1, 1); (1, 4); (4, 4); (4, 1)] |} ]) as Hin
    by (apply elem_of_cons; left; reflexivity).
  split; [exact Hin|].
  destruct (emitted_annotation_is_drawable block_outline block_mask
              [(1, "lines"%string)] _ _ (fun _ _ _ _ _ => None)
              (fun m _ _ _ => Some m) MaskGenerator.CLASS_MAPPING 5 [] 0%nat
              eq_refl Hin) as (Hty & Hlen & _ & Hdraw).
  split; [exact Hty|]. split; [exact Hlen|].
  rewrite Hdraw. reflexivity.
Defined.

End JsonGeneratorOutputSpec.

(** ** Saving with failures, saving twice *)

Module LabelingAppSaveSpec.

Import LabelingApp LabelingAppSpec.

Lemma world_eq (a b : world) :
  files a = files b -> locked a = locked b -> makedirs_ok a = makedirs_ok b -> a = b.
Proof. destruct a, b. cbn. intros -> -> ->. reflexivity. Qed.

Section save_loop_general.

Variable json_dir : string.

Local Abbreviation path_of item := (save_path_of json_dir (fst item)).

(** The last record of the list stored under the path [p]. *)
Fixpoint last_record (p : string) (items : list (string * annotation_set))
  : option (string * annotation_set) :=
  match items with
  | [] => None
  | item :: rest =>
      match last_record p rest with
      | Some found => Some found
      | None => if decide (path_of item = p) then Some item else None
      end
  end.

Lemma save_entry_locked w c item p :
  p ∈ locked w -> files (save_entry json_dir (w, c) item).1 !! p = files w !! p.
Proof.
  intros Hlocked. destruct (decide (p = path_of item)) as [-> | Hne];
    [|apply save_entry_other; exact Hne].
  unfold save_entry. cbn [fst snd].
  destruct (AnnotationFile.annotations item.2); repeat case_decide; cbn [fst files];
    try reflexivity; contradiction.
Qed.

Lemma save_loop_locked items w c p :
  p ∈ locked w ->
  files (foldl (save_entry json_dir) (w, c) items).1 !! p = files w !! p.
Proof.
  revert w c. induction items as [|item items IH]; intros w c Hp; cbn [foldl];
    [reflexivity|].
  destruct (save_entry json_dir (w, c) item) as [w1 c1] eqn:Hstep.
  pose proof (save_entry_frame json_dir w c item) as [Hl _].
  pose proof (save_entry_locked w c item p Hp) as Hsame.
  rewrite Hstep in Hl, Hsame. cbn [fst] in Hl, Hsame.
  rewrite IH by (rewrite Hl; exact Hp). exact Hsame.
Qed.

(** Along the loop, the last record stored under a path that is not locked
    decides what the path holds. *)
Lemma save_loop_last items w c p :
  p ∉ locked w ->
  files (foldl (save_entry json_dir) (w, c) items).1 !! p =
  match last_record p items with
  | None => files w !! p
  | Some item =>
      match AnnotationFile.annotations item.2 with
      | [] => None
      | _ => Some item.2
      end
  end.
Proof.
  revert w c. induction items as [|item items IH]; intros w c Hp;
    cbn [foldl last_record]; [reflexivity|].
  destruct (save_entry json_dir (w, c) item) as [w1 c1] eqn:Hstep.
  pose proof (save_entry_frame json_dir w c item) as [Hl _].
  rewrite Hstep in Hl. cbn [fst] in Hl.
  rewrite IH by (rewrite Hl; exact Hp).
  destruct (last_record p items) as [found|]; [reflexivity|].
  destruct (decide (path_of item = p)) as [<- | Hne].
  - pose proof (save_entry_here json_dir w c item Hp) as Hhere.
    rewrite Hstep in Hhere. exact Hhere.
  - pose proof (save_entry_other json_dir w c item p ltac:(congruence)) as Hother.
    rewrite Hstep in Hother. exact Hother.
Qed.

Lemma last_record_app_here before item after :
  path_of item ∉ map (fun it => path_of it) after ->
  last_record (path_of item) (before ++ item :: after) = Some item.
Proof.
  intros Hafter.
  assert (last_record (path_of item) after = None) as Hnone.
  { induction after as [|it after IH]; [reflexivity|].
    cbn [map] in Hafter. apply not_elem_of_cons in Hafter as [Hne Hafter].
    cbn [last_record]. rewrite (IH Hafter).
    destruct (decide (path_of it = path_of item)); [congruence | reflexivity]. }
  induction before as [|it before IH]; cbn [Datatypes.app last_record].
  - rewrite Hnone. destruct (decide (path_of item = path_of item)); congruence.
  - rewrite IH. reflexivity.
Qed.

(** Running the loop a second time, on the directory the first run left,
    changes no file. *)
Lemma save_loop_twice items w c c' p :
  files (foldl (save_entry json_dir)
           ((foldl (save_entry json_dir) (w, c) items).1, c') items).1 !! p =
  files (foldl (save_entry json_dir) (w, c) items).1 !! p.
Proof.
  pose proof (save_loop_frame json_dir items w c) as [Hl _].
  destruct (decide (p ∈ locked w)) as [Hlocked | Hfree].
  - apply save_loop_locked. rewrite Hl. exact Hlocked.
  - rewrite save_loop_last by (rewrite Hl; exact Hfree).
    rewrite (save_loop_last items w c p Hfree).
    destruct (last_record p items); reflexivity.
Qed.

End save_loop_general.

Lemma save_annotations_store s w :
  annotations (save_annotations s w).1.1 = annotations s /\
  image_files (save_annotations s w).1.1 = image_files s /\
  locked (saved_world s w) = locked w /\
  makedirs_ok (saved_world s w) = makedirs_ok w.
Proof.
  unfold saved_world, save_annotations.
  destruct (image_files s) as [|first others] eqn:Hfiles; [repeat split; assumption|].
  destruct (annotations s) as [|item items] eqn:Hanns; [repeat split; assumption|].
  destruct (makedirs_ok w) eqn:Hdir; [|repeat split; assumption].
  pose proof (save_loop_frame (json_dir_of s) (item :: items) w
                {| saved_count := 0; deleted_count := 0; error_count := 0 |})
    as [Hl Hm].
  destruct (foldl _ _ _) as [w' c]. cbn [fst snd] in *.
  repeat split; try assumption. congruence.
Qed.

(** X25.  A file operation that fails does not stop the save: whatever
    paths refuse to be written or removed, the record of an image whose own
    path is writable, and which is the last of the store with that path, is
    written when it has annotations and removed when it has none.  A path
    that refuses keeps its content, and the store itself is not changed by
    saving. *)
Theorem save_isolates_failures (s : app) (w : world)
    (before after : list (string * annotation_set))
    (item : string * annotation_set) :
  image_files s <> [] -> makedirs_ok w = true ->
  annotations s = before ++ item :: after ->
  save_path_of (json_dir_of s) item.1 ∉ locked w ->
  save_path_of (json_dir_of s) item.1
    ∉ map (fun it => save_path_of (json_dir_of s) it.1) after ->
  files (saved_world s w) !! save_path_of (json_dir_of s) item.1 =
    match AnnotationFile.annotations item.2 with
    | [] => None
    | _ => Some item.2
    end /\
  (forall p, p ∈ locked w -> files (saved_world s w) !! p = files w !! p) /\
  annotations (save_annotations s w).1.1 = annotations s.
Proof.
  intros Hfiles Hdir Hsplit Hfree Hlast.
  rewrite saved_world_loop by assumption.
  split; [|split].
  - rewrite save_loop_last by exact Hfree.
    rewrite Hsplit, last_record_app_here by exact Hlast. reflexivity.
  - intros p Hp. apply save_loop_locked. exact Hp.
  - apply save_annotations_store.
Qed.

Lemma save_isolates_failures_witness :
  files (saved_world two_images_app locked_world)
    !! save_path_of (json_dir_of two_images_app) "b.png" = None /\
  files (saved_world two_images_app locked_world) !! "/data/json_data/a.json"%string
    = files locked_world !! "/data/json_data/a.json"%string.
Proof.
  destruct (save_isolates_failures two_images_app locked_world
              [("a.png"%string, record_a)] [] ("b.png"%string, record_b_cleared))
    as (Hb & Ha & _).
  - discriminate.
  - reflexivity.
  - reflexivity.
  - unfold locked_world. cbn [locked]. apply not_elem_of_singleton.
    vm_compute. discriminate.
  - apply not_elem_of_nil.
  - split; [exact Hb|]. apply Ha. unfold locked_world. cbn [locked].
    apply elem_of_singleton. reflexivity.
Defined.

(** X26.  Saving a second time without an edit in between leaves the
    directory exactly as the first save left it, whether or not file
    operations fail. *)
Theorem save_twice_changes_nothing (s : app) (w : world) :
  saved_world (save_annotations s w).1.1 (saved_world s w) = saved_world s w.
Proof.
  destruct (save_annotations_store s w) as (Hanns & Himgs & Hlocked & Hmk).
  assert (json_dir_of (save_annotations s w).1.1 = json_dir_of s) as Hjd
    by (unfold json_dir_of; rewrite Himgs; reflexivity).
  destruct (decide (image_files s = [])) as [Hnone | Hfiles].
  { unfold saved_world at 1. unfold save_annotations at 1. rewrite Himgs, Hnone.
    reflexivity. }
  destruct (makedirs_ok w) eqn:Hdir.
  2:{ assert ((save_annotations s w).1 = (s, w)) as Hrefused.
      { unfold save_annotations. rewrite Hdir.
        destruct (image_files s); [reflexivity|].
        destruct (annotations s); reflexivity. }
      unfold saved_world. rewrite Hrefused. cbn [fst snd]. rewrite Hrefused.
      reflexivity. }
  rewrite (saved_world_loop (save_annotations s w).1.1 (saved_world s w))
    by (rewrite ?Himgs; assumption).
  rewrite Hanns, Hjd.
  pose proof (saved_world_loop s w Hfiles Hdir) as Hfirst.
  apply world_eq.
  - apply map_eq. intros p. rewrite Hfirst. apply save_loop_twice.
  - pose proof (save_loop_frame (json_dir_of s) (annotations s) (saved_world s w)
                  {| saved_count := 0; deleted_count := 0; error_count := 0 |})
      as [Hl _]. exact Hl.
  - pose proof (save_loop_frame (json_dir_of s) (annotations s) (saved_world s w)
                  {| saved_count := 0; deleted_count := 0; error_count := 0 |})
      as [_ Hm]. exact Hm.
Qed.

End LabelingAppSaveSpec.

(** ** Saving, then opening the folder again *)

Module LabelingAppReloadSpec.

Import LabelingApp LabelingAppView LabelingAppBrowse LabelingAppSpec.
Import LabelingAppViewSpec LabelingAppSaveSpec.

(** X18.  A record written by [save_annotations] is read back by a new
    session.  When the save proceeds, the image has at least one
    annotation, its record file can be written, and no later entry of the
    store shares that record file (the file is named by the base name
    without the extension, so "a.jpg" and "a.png" share "a.json"), then
    loading the image, in the same folder and its file opening as an image,
    into a store that has no record for it puts exactly the saved record
    into the store, makes the image the current one and leaves the dirty
    flag as it was, whatever happens to the other record files. *)
Theorem saved_record_is_loaded_back (open_image : string -> option (Z * Z))
    (s fresh : app) (disk : world) (i : nat) (path : string)
    (ann_data : annotation_set) (before after : list (string * annotation_set)) :
  image_files s <> [] -> makedirs_ok disk = true ->
  annotations s = before ++ (OsPath.basename path, ann_data) :: after ->
  save_path_of (json_dir_of s) (OsPath.basename path) ∉ locked disk ->
  save_path_of (json_dir_of s) (OsPath.basename path)
    ∉ map (fun it => save_path_of (json_dir_of s) it.1) after ->
  AnnotationFile.annotations ann_data <> [] ->
  OsPath.dirname path = OsPath.dirname (default EmptyString (head (image_files s))) ->
  image_files fresh !! i = Some path ->
  dict_get (annotations fresh) (OsPath.basename path) = None ->
  is_Some (open_image path) ->
  let b' := load_image_and_annotations open_image (saved_world s disk)
              {| session := fresh; current_image_index := Z.of_nat i |} in
  dict_get (annotations (session b')) (OsPath.basename path) = Some ann_data /\
  current_image_path (session b') = Some path /\
  has_unsaved_changes (session b') = has_unsaved_changes fresh.
Proof.
  intros Hfiles Hdir Hsplit Hfree Hlast Hne Hfolder Hpath Hnone [size Hopen] b'.
  assert (save_path_of (json_dir_of s) (OsPath.basename path) = json_path_of path)
    as Hsame.
  { unfold save_path_of, json_path_of, json_dir_of. rewrite Hfolder. reflexivity. }
  assert (files (saved_world s disk) !! json_path_of path = Some ann_data) as Hfile.
  { rewrite <- Hsame, saved_world_loop by assumption.
    rewrite save_loop_last by exact Hfree.
    rewrite Hsplit.
    pose proof (last_record_app_here (json_dir_of s) before
                  (OsPath.basename path, ann_data) after Hlast) as Hrec.
    cbn [fst] in Hrec. rewrite Hrec. cbn [snd]. destruct (AnnotationFile.annotations ann_data);
      [contradiction | reflexivity]. }
  pose proof (lookup_lt_Some _ _ _ Hpath) as Hlt.
  subst b'. unfold load_image_and_annotations. cbn [session current_image_index].
  destruct (Z.leb_spec 0 (Z.of_nat i)); [|lia].
  destruct (Z.ltb_spec (Z.of_nat i) (Z.of_nat (length (image_files fresh)))); [|lia].
  cbn [andb]. rewrite Nat2Z.id, Hpath, Hopen. cbn [session].
  cbn [annotations set_original_pil_image set_current_image_path].
  rewrite Hnone, Hfile.
  match goal with |- context [reset_view ?t] =>
    destruct (reset_view_keeps_store t) as (Ha & Hf & Hp & _) end.
  rewrite Ha, Hf, Hp.
  cbn [annotations set_annotations has_unsaved_changes current_image_path
       set_original_pil_image set_current_image_path].
  split; [apply dict_get_set_eq|]. split; reflexivity.
Qed.

(** The two-image session saved to disk, the record file of "b.png" being
    locked, then opened again from an empty store. *)
Definition reopened_app : app :=
  {| image_files := image_files two_images_app;
     current_image_path := None; original_pil_image := None;
     annotations := []; has_unsaved_changes := false;
     view := small_image_view; pan := idle_pan; drawing := idle_drawing;
     canvas_width := 100; canvas_height := 100;
     drawing_tool_var := "rectangle"; current_class_var := "object" |}.

Definition other_locked_world : world :=
  {| files := files writable_world;
     locked := {[ "/data/json_data/b.json"%string ]};
     makedirs_ok := true |}.

Lemma saved_record_is_loaded_back_witness :
  dict_get
    (annotations
       (session
          (load_image_and_annotations (fun _ => Some (50, 50)%Z)
             (saved_world two_images_app other_locked_world)
             {| session := reopened_app; current_image_index := Z.of_nat 0 |})))
    (OsPath.basename "/data/a.png")
  = Some record_a.
Proof.
  apply (saved_record_is_loaded_back (fun _ => Some (50, 50)%Z) two_images_app
           reopened_app other_locked_world 0 "/data/a.png"%string record_a
           [] [("b.png"%string, record_b_cleared)]).
  - discriminate.
  - reflexivity.
  - reflexivity.
  - unfold other_locked_world. cbn [locked]. apply not_elem_of_singleton.
    vm_compute. discriminate.
  - cbn [map]. intros Hin. apply elem_of_cons in Hin as [Heq | Hin].
    + vm_compute in Heq. discriminate Heq.
    + inversion Hin.
  - discriminate.
  - reflexivity.
  - reflexivity.
  - reflexivity.
  - eexists. reflexivity.
Defined.

End LabelingAppReloadSpec.

(** ** A whole gesture: press, drags, release *)

Module LabelingAppGestureSpec.

Import LabelingApp LabelingAppSpec.

(** The state in the middle of a gesture begun at [(x0, y0)]. *)
Definition in_gesture (s : app) (x0 y0 : Q) (points : list (Q * Q)) : app :=
  set_drawing {| start_x_canvas := Some x0; start_y_canvas := Some y0;
                 current_freehand_points_canvas := points |} s.

Definition canvas_point (ev : event) : Q * Q :=
  (canvasx (event_x ev), canvasx (event_y ev)).

Definition drags (evs : list event) (s : app) : app :=
  foldl (fun st ev => on_mouse_drag ev st) s evs.

Lemma falsy_canvasx x : falsy (Some (canvasx x)) = Z.eqb x 0.
Proof.
  unfold falsy, canvasx, Qeq_bool, inject_Z. cbn [Qnum Qden].
  rewrite Z.mul_1_r. reflexivity.
Qed.

Lemma drag_freehand ev s x0 y0 points :
  drawing_tool_var s = "freehand"%string -> is_panning (pan s) = false ->
  falsy (Some x0) = false ->
  on_mouse_drag ev (in_gesture s x0 y0 points) =
  in_gesture s x0 y0 (points ++ [canvas_point ev]).
Proof.
  intros Htool Hpan Hx0. unfold on_mouse_drag.
  cbn [in_gesture set_drawing pan drawing drawing_tool_var start_x_canvas
       start_y_canvas current_freehand_points_canvas].
  rewrite Hpan, Htool, Hx0. reflexivity.
Qed.

Lemma drags_freehand evs s x0 y0 points :
  drawing_tool_var s = "freehand"%string -> is_panning (pan s) = false ->
  falsy (Some x0) = false ->
  drags evs (in_gesture s x0 y0 points) =
  in_gesture s x0 y0 (points ++ map canvas_point evs).
Proof.
  intros Htool Hpan Hx0. unfold drags. revert points.
  induction evs as [|ev evs IH]; intros points; cbn [foldl map].
  - rewrite app_nil_r. reflexivity.
  - rewrite (drag_freehand ev s x0 y0 points Htool Hpan Hx0), IH, <- app_assoc.
    reflexivity.
Qed.

Lemma drag_dropped ev s y0 points :
  is_panning (pan s) = false ->
  on_mouse_drag ev (in_gesture s 0 y0 points) = in_gesture s 0 y0 points.
Proof.
  intros Hpan. unfold on_mouse_drag.
  cbn [in_gesture set_drawing pan drawing drawing_tool_var start_x_canvas].
  rewrite Hpan. cbn [falsy]. change (Qeq_bool 0 0) with true.
  rewrite orb_true_r. reflexivity.
Qed.

Lemma drags_dropped evs s y0 points :
  is_panning (pan s) = false ->
  drags evs (in_gesture s 0 y0 points) = in_gesture s 0 y0 points.
Proof.
  intros Hpan. unfold drags.
  induction evs as [|ev evs IH]; cbn [foldl]; [reflexivity|].
  rewrite (drag_dropped ev s y0 points Hpan). exact IH.
Qed.

(** X27.  A freehand gesture (press, one or more drags, release) on a
    loaded image with a class selected appends one "freehand" annotation to
    the current image, whose points are the press position and the position
    of every drag, in order, mapped to image coordinates; the position of
    the release itself is not recorded.  The press is assumed not to be at
    canvas abscissa 0 (see the next property).  This holds whatever the
    rounding of the float operations of the mapping. *)
Theorem freehand_gesture_records_stroke (rnd : Q -> Q) (hypot : Q -> Q -> Q)
    (s : app) (press release : event)
    (moves : list event) (hovered : option Z) (confirm : bool)
    (path : string) (size : Z * Z) :
  drawing_tool_var s = "freehand"%string ->
  current_class_var s <> EmptyString ->
  original_pil_image s = Some size ->
  current_image_path s = Some path ->
  is_panning (pan s) = false ->
  event_x press <> 0%Z ->
  moves <> [] ->
  exists s' entry',
    on_mouse_release rnd hypot release
      (drags moves (on_mouse_press press hovered confirm s))
      = Some s' /\
    dict_get (annotations s') (OsPath.basename path) = Some entry' /\
    AnnotationFile.annotations entry' =
      match dict_get (annotations s) (OsPath.basename path) with
      | Some entry => AnnotationFile.annotations entry
      | None => []
      end ++
      [ {| label := current_class_var s; type := "freehand";
           coordinates_original :=
             map (fun ev =>
                    let '(ox, oy) :=
                      view_to_original_coords_fl rnd s (canvasx (event_x ev))
                        (canvasx (event_y ev)) in
                    Point ox oy)
                 (press :: moves) |} ] /\
    has_unsaved_changes s' = true /\
    drawing s' = {| start_x_canvas := None; start_y_canvas := None;
                    current_freehand_points_canvas := [] |}.
Proof.
  intros Htool Hclass Himg Hpath Hpan Hpress Hmoves.
  assert (falsy (Some (canvasx (event_x press))) = false) as Hx0
    by (rewrite falsy_canvasx; apply Z.eqb_neq; exact Hpress).
  assert (on_mouse_press press hovered confirm s =
          in_gesture s (canvasx (event_x press)) (canvasx (event_y press))
            [canvas_point press]) as ->.
  { unfold on_mouse_press. rewrite Htool, Himg, Hpan. reflexivity. }
  rewrite (drags_freehand moves s _ _ _ Htool Hpan Hx0).
  destruct moves as [|move moves]; [contradiction|].
  unfold on_mouse_release.
  cbn [in_gesture set_drawing pan drawing drawing_tool_var start_x_canvas
       start_y_canvas current_freehand_points_canvas current_class_var
       current_image_path annotations original_pil_image].
  rewrite Hpan, Htool, Hx0. cbn [orb String.eqb Ascii.eqb Bool.eqb].
  destruct (String.eqb_spec (current_class_var s) "") as [Hempty | _];
    [contradiction|].
  unfold gesture_coords.
  cbn [in_gesture set_drawing drawing drawing_tool_var
       current_freehand_points_canvas].
  rewrite Htool. cbn [String.eqb Ascii.eqb Bool.eqb Datatypes.app map length Nat.leb].
  rewrite Hpath, Himg.
  change (view_to_original_coords_fl rnd (in_gesture s ?a ?b ?c))
    with (view_to_original_coords_fl rnd s).
  rewrite map_map.
  destruct (dict_get (annotations s) (OsPath.basename path)) as [entry|] eqn:Hentry.
  - eexists. eexists. split; [reflexivity|].
    cbn [annotations reset_drawing_state set_drawing set_has_unsaved_changes
         set_annotations has_unsaved_changes drawing].
    split; [unfold append_annotation; apply dict_get_set_eq|].
    rewrite Hentry. split; [reflexivity|]. split; reflexivity.
  - eexists. eexists. split; [reflexivity|].
    cbn [annotations reset_drawing_state set_drawing set_has_unsaved_changes
         set_annotations has_unsaved_changes drawing].
    split; [unfold append_annotation; apply dict_get_set_eq|].
    rewrite Hentry. split; [reflexivity|]. split; reflexivity.
Qed.

(** X28.  A gesture whose press is at canvas abscissa 0 is lost: the start
    abscissa 0.0 counts as "no gesture started", so the drags are ignored
    and the release only resets the drawing state; nothing is added to the
    store, whatever the drawing tool and the movement. *)
Theorem gesture_from_left_edge_is_dropped (rnd : Q -> Q) (hypot : Q -> Q -> Q)
    (s : app) (press release : event)
    (moves : list event) (hovered : option Z) (confirm : bool) (size : Z * Z) :
  drawing_tool_var s <> "select"%string ->
  original_pil_image s = Some size ->
  is_panning (pan s) = false ->
  event_x press = 0%Z ->
  exists s',
    on_mouse_release rnd hypot release
      (drags moves (on_mouse_press press hovered confirm s))
      = Some s' /\
    annotations s' = annotations s /\
    has_unsaved_changes s' = has_unsaved_changes s /\
    drawing s' = {| start_x_canvas := None; start_y_canvas := None;
                    current_freehand_points_canvas := [] |}.
Proof.
  intros Htool Himg Hpan Hpress.
  apply String.eqb_neq in Htool.
  assert (exists points,
            on_mouse_press press hovered confirm s =
            in_gesture s 0 (canvasx (event_y press)) points) as [points ->].
  { unfold on_mouse_press. rewrite Htool, Himg, Hpan, Hpress. eexists. reflexivity. }
  rewrite (drags_dropped moves s _ _ Hpan).
  unfold on_mouse_release.
  cbn [in_gesture set_drawing pan drawing drawing_tool_var start_x_canvas].
  rewrite Hpan. cbn [falsy]. change (Qeq_bool 0 0) with true. rewrite orb_true_r.
  eexists. split; [reflexivity|]. repeat split.
Qed.

(** A freehand session on the small image. *)
Definition freehand_app : app :=
  {| image_files := image_files small_image_app;
     current_image_path := Some "/data/a.png"%string;
     original_pil_image := original_pil_image small_image_app;
     annotations := []; has_unsaved_changes := false;
     view := view small_image_app; pan := idle_pan; drawing := idle_drawing;
     canvas_width := canvas_width small_image_app;
     canvas_height := canvas_height small_image_app;
     drawing_tool_var := "freehand"; current_class_var := "lines" |}.

Lemma freehand_gesture_records_stroke_witness :
  exists s' entry',
    on_mouse_release Py.binary64 (fun _ _ => 0%Q) (pointer 60 60)
      (drags [pointer 40 50] (on_mouse_press (pointer 30 30) None true freehand_app))
      = Some s' /\
    dict_get (annotations s') (OsPath.basename "/data/a.png") = Some entry' /\
    length (AnnotationFile.annotations entry') = 1%nat.
Proof.
  destruct (freehand_gesture_records_stroke Py.binary64 (fun _ _ => 0%Q) freehand_app
              (pointer 30 30)
              (pointer 60 60) [pointer 40 50] None true "/data/a.png"%string (50, 50)%Z)
    as (s' & entry' & Hrel & Hget & Hanns & _).
  - reflexivity.
  - discriminate.
  - reflexivity.
  - reflexivity.
  - reflexivity.
  - discriminate.
  - discriminate.
  - exists s', entry'. split; [exact Hrel|]. split; [exact Hget|].
    rewrite Hanns. reflexivity.
Defined.

Lemma gesture_from_left_edge_is_dropped_witness :
  exists s',
    on_mouse_release Py.binary64 (fun _ _ => 0%Q) (pointer 60 60)
      (drags [pointer 40 50] (on_mouse_press (pointer 0 30) None true freehand_app))
      = Some s' /\
    annotations s' = annotations freehand_app.
Proof.
  destruct (gesture_from_left_edge_is_dropped Py.binary64 (fun _ _ => 0%Q) freehand_app
              (pointer 0 30)
              (pointer 60 60) [pointer 40 50] None true (50, 50)%Z)
    as (s' & Hrel & Hanns & _).
  - discriminate.
  - reflexivity.
  - reflexivity.
  - reflexivity.
  - exists s'. split; [exact Hrel | exact Hanns].
Defined.

End LabelingAppGestureSpec.
